(** * Open Horizon AI: tools, dependency context and session orchestrators

    A shallow embedding of [tools.py], [models.py], [dependencies.py], the
    orchestrator functions of [agent.py], the session context of
    [prompts.py], the origin list of [settings.py] and the endpoints of
    [api.py], with the properties of the specification stated over it.

    Python text is modelled as [string] (ASCII code points); [str.lower],
    [str.split], [str.strip], [str.replace], [str.join] and the [in] operator
    are written out below as the interpreter performs them on such text. *)

From Stdlib Require Import ZArith Ascii String List Bool Lia.
From stdpp Require Import base option list strings gmap.

Local Open Scope string_scope.
Local Open Scope Z_scope.

(* ===================================================================== *)
(** ** Python string primitives *)
(* ===================================================================== *)

Module Py.

(** [c.isspace()] on ASCII text: TAB, LF, VT, FF, CR, the four separators
  FS GS RS US, and the blank. *)
Definition is_space (c : ascii) : bool :=
let n := nat_of_ascii c in
((9 <=? n)%nat && (n <=? 13)%nat) || ((28 <=? n)%nat && (n <=? 32)%nat).

Definition lower_char (c : ascii) : ascii :=
let n := nat_of_ascii c in
if ((65 <=? n)%nat && (n <=? 90)%nat) then ascii_of_nat (n + 32) else c.

(** [s.lower()] *)
Fixpoint lower (s : string) : string :=
match s with
| EmptyString => EmptyString
| String c s' => String (lower_char c) (lower s')
end.

(** [s.startswith(p)] *)
Fixpoint startswith (p s : string) : bool :=
match p, s with
| EmptyString, _ => true
| String a p', String b s' => if Ascii.eqb a b then startswith p' s' else false
| String _ _, EmptyString => false
end.

(** [sub in s] *)
Fixpoint contains (sub s : string) : bool :=
startswith sub s ||
match s with
| EmptyString => false
| String _ s' => contains sub s'
end.

(** Does a token start at the head of [s]? *)
Definition at_word (s : string) : bool :=
match s with
| EmptyString => false
| String c _ => negb (is_space c)
end.

(** [s.split()]: the maximal runs of non-whitespace characters, in order. *)
Fixpoint split (s : string) : list string :=
match s with
| EmptyString => []
| String c s' =>
    if is_space c then split s'
    else if at_word s' then
           match split s' with
           | w :: ws => String c w :: ws
           | [] => [String c EmptyString]
           end
         else String c EmptyString :: split s'
end.

(** [sep.join(l)] *)
Fixpoint join (sep : string) (l : list string) : string :=
match l with
| [] => EmptyString
| [w] => w
| w :: ws => w +:+ sep +:+ join sep ws
end.

Fixpoint lstrip (s : string) : string :=
match s with
| EmptyString => EmptyString
| String c s' => if is_space c then lstrip s' else s
end.

Fixpoint rstrip (s : string) : string :=
match s with
| EmptyString => EmptyString
| String c s' =>
    match rstrip s' with
    | EmptyString => if is_space c then EmptyString else String c EmptyString
    | r => String c r
    end
end.

(** [s.strip()] *)
Definition strip (s : string) : string := rstrip (lstrip s).

(** [s.replace(old, new)] for a non-empty [old]: a left-to-right scan that
  copies one character, or, where [old] starts, emits [new] and skips the
  [len(old)] matched characters ([skip] counts those still to be skipped). *)
Fixpoint replace_scan (old new : string) (skip : nat) (s : string) : string :=
match s with
| EmptyString => EmptyString
| String c s' =>
    match skip with
    | S k => replace_scan old new k s'
    | O =>
        if startswith old s
        then new +:+ replace_scan old new (Nat.pred (String.length old)) s'
        else String c (replace_scan old new O s')
    end
end.

(** With an empty [old], Python inserts [new] before every character and at
  the end. *)
Fixpoint intersperse (new s : string) : string :=
match s with
| EmptyString => new
| String c s' => new +:+ String c (intersperse new s')
end.

Definition replace (old new s : string) : string :=
match old with
| EmptyString => intersperse new s
| String _ _ => replace_scan old new O s
end.

(** [l[:n]] for a Python integer [n] (negative [n] counts from the end). *)
Definition slice_to {A} (n : Z) (l : list A) : list A :=
if n <? 0 then take (Z.to_nat (Z.of_nat (length l) + n)) l
else take (Z.to_nat n) l.

(** [len(s.split())] *)
Definition word_count (s : string) : Z := Z.of_nat (length (split s)).

End Py.

(* ===================================================================== *)
(** ** Exceptions and results of fallible code *)
(* ===================================================================== *)

(** The exceptions the modelled code can meet.  A [ValidationError] is
    pydantic's and is kept as the model and the first field that fails; an
    [AttributeError] is the interpreter's, raised when a method is looked up
    on a value of a type that lacks it; the others carry their text. *)
Inductive exn : Type :=
  | ValidationError (model field : string)
  | AttributeError (type_name attr : string)
  | TypeError (msg : string)
  | ValueError (msg : string)
  | RuntimeError (msg : string).

Inductive outcome (A : Type) : Type :=
  | Ok (a : A)
  | Raise (e : exn).
Arguments Ok {A} a.
Arguments Raise {A} e.

(** Truthiness of an [Optional[str]]: [None] and the empty text are false. *)
Definition truthy_str (o : option string) : bool :=
  match o with
  | Some (String _ _) => true
  | _ => false
  end.

(** A value of type [Any] found in a request dictionary: a text, or any
    other JSON value, kept as the name of its type ([int], [NoneType],
    [list], ...) and its [str()] rendering.  Only texts have [.lower()]. *)
Inductive pyval : Type :=
  | PStr (s : string)
  | PObj (type_name shown : string).

Definition py_str (v : pyval) : string :=
  match v with PStr s => s | PObj _ shown => shown end.

Definition py_lower (v : pyval) : outcome string :=
  match v with
  | PStr s => Ok (Py.lower s)
  | PObj type_name _ => Raise (AttributeError type_name "lower")
  end.

(* ===================================================================== *)
(** ** models.py *)
(* ===================================================================== *)

Inductive ErasmusFocusArea : Type :=
  | DIGITAL_TRANSFORMATION
  | GREEN_TRANSITION
  | INCLUSION_DIVERSITY
  | PARTICIPATION
  | EUROPEAN_VALUES
  | INNOVATION.

Definition focus_value (f : ErasmusFocusArea) : string :=
  match f with
  | DIGITAL_TRANSFORMATION => "Digital Transformation"
  | GREEN_TRANSITION => "Green Transition"
  | INCLUSION_DIVERSITY => "Inclusion and Diversity"
  | PARTICIPATION => "Participation"
  | EUROPEAN_VALUES => "European Values"
  | INNOVATION => "Innovation"
  end.

Inductive OrganizationType : Type :=
  | NGO | PUBLIC | SCHOOL | HEI | COMPANY | OTHER.

Module ContactInfo.
Record t : Type := mk {
  email : option string;
  website : option string;
  phone : option string }.
Definition default : t := mk None None None.
End ContactInfo.

Module Partner.
Record t : Type := mk {
  id : string;
  name : string;
  country : string;
  organization_type : OrganizationType;
  expertise_areas : list string;
  contact_info : ContactInfo.t;
  erasmus_code : option string;
  compatibility_score : option Z;
  partnership_rationale : option string }.

(** The keyword arguments a [partner_data] dictionary is unpacked into:
    a key of the dictionary is present ([Some]) or absent ([None]). *)
Record kwargs : Type := mk_kwargs {
  kw_id : option string;
  kw_name : option string;
  kw_country : option string;
  kw_organization_type : option OrganizationType;
  kw_expertise_areas : option (list string);
  kw_contact_info : option ContactInfo.t;
  kw_erasmus_code : option string;
  kw_compatibility_score : option Z;
  kw_partnership_rationale : option string }.

Definition score_in_range (o : option Z) : bool :=
  match o with
  | None => true
  | Some n => (1 <=? n) && (n <=? 10)
  end.

(** Construction with validation: [id], [name], [country] and
    [organization_type] have no default; [compatibility_score] is
    [Field(None, ge=1, le=10)]. *)
Definition init (k : kwargs) : outcome t :=
  match kw_id k with
  | None => Raise (ValidationError "Partner" "id")
  | Some i =>
  match kw_name k with
  | None => Raise (ValidationError "Partner" "name")
  | Some n =>
  match kw_country k with
  | None => Raise (ValidationError "Partner" "country")
  | Some c =>
  match kw_organization_type k with
  | None => Raise (ValidationError "Partner" "organization_type")
  | Some ot =>
    if score_in_range (kw_compatibility_score k) then
      Ok (mk i n c ot
            (default [] (kw_expertise_areas k))
            (default ContactInfo.default (kw_contact_info k))
            (kw_erasmus_code k)
            (kw_compatibility_score k)
            (kw_partnership_rationale k))
    else Raise (ValidationError "Partner" "compatibility_score")
  end end end end.

(** [partner.compatibility_score = v] (assignment is not re-validated). *)
Definition set_compatibility_score (v : option Z) (p : t) : t :=
  mk (id p) (name p) (country p) (organization_type p) (expertise_areas p)
     (contact_info p) (erasmus_code p) v (partnership_rationale p).
End Partner.

Module ProjectConcept.
Record t : Type := mk {
  title : string;
  focus_area : ErasmusFocusArea;
  target_audience : string;
  innovation_angle : string;
  feasibility_score : Z;
  rationale : string }.
End ProjectConcept.

Module ApplicationSection.
Record t : Type := mk {
  id : option string;
  project_id : string;
  section_name : string;
  content : string;
  word_count : Z;
  compliance_status : bool;
  suggestions : list string }.
End ApplicationSection.

Module BrainstormRequest.
Record t : Type := mk {
  initial_concept : string;
  focus_preference : option ErasmusFocusArea;
  organization_context : string;
  session_id : option string }.
End BrainstormRequest.

Module BrainstormResponse.
Record t : Type := mk {
  success : bool;
  project_concepts : list ProjectConcept.t;
  next_steps : list string;
  error : option string }.
End BrainstormResponse.

Module PartnerSearchRequest.
Record t : Type := mk {
  project_focus : string;
  required_countries : option (list string);
  expertise_areas : list string;
  project_id : option string }.
End PartnerSearchRequest.

(** The [search_metadata] dictionary: each key present or absent. *)
Module SearchMetadata.
Record t : Type := mk {
  total_found : option Z;
  countries_covered : option (list string);
  search_focus : option string }.
Definition empty : t := mk None None None.
End SearchMetadata.

Module PartnerSearchResponse.
Record t : Type := mk {
  success : bool;
  potential_partners : list Partner.t;
  search_metadata : SearchMetadata.t;
  error : option string }.
End PartnerSearchResponse.

Module ApplicationContentRequest.
Record t : Type := mk {
  section_type : string;
  project_context : gmap string pyval;
  word_limit : option Z;
  project_id : option string }.
End ApplicationContentRequest.

Module ComplianceDetails.
Record t : Type := mk {
  missing_elements : list string;
  strength_areas : list string;
  improvement_suggestions : list string }.
End ComplianceDetails.

Module GeneratedContent.
Record t : Type := mk {
  section_name : string;
  content : string;
  word_count : Z;
  compliance_status : bool;
  compliance_details : ComplianceDetails.t }.
End GeneratedContent.

(** One entry of [alternative_versions]. *)
Module AlternativeVersion.
Record t : Type := mk {
  content : string;
  focus : string;
  word_count : Z }.
End AlternativeVersion.

Module ApplicationContentResponse.
Record t : Type := mk {
  success : bool;
  generated_content : option ApplicationSection.t;
  alternative_versions : list AlternativeVersion.t;
  error : option string }.
End ApplicationContentResponse.

(* ===================================================================== *)
(** ** settings.py and dependencies.py *)
(* ===================================================================== *)

Module Settings.
Record t : Type := mk {
  supabase_url : string;
  supabase_key : string;
  erasmus_partner_api_key : string;
  max_retries : Z;
  timeout_seconds : Z;
  debug : bool }.
End Settings.

(** An external client object (Supabase client, httpx client) is known by
    its identity. *)
Definition handle : Type := nat.

Module OpenHorizonDependencies.
Record t : Type := mk {
  supabase_client : option handle;
  database_url : option string;
  erasmus_partner_api_key : option string;
  session_id : option string;
  user_id : option string;
  project_id : option string;
  max_retries : Z;
  timeout : Z;
  debug : bool;
  _supabase_client : option handle;
  _partner_api_client : option handle }.

Definition set_supabase (h : option handle) (d : t) : t :=
  mk (supabase_client d) (database_url d) (erasmus_partner_api_key d)
     (session_id d) (user_id d) (project_id d)
     (max_retries d) (timeout d) (debug d)
     h (_partner_api_client d).

Definition set_partner_api (h : option handle) (d : t) : t :=
  mk (supabase_client d) (database_url d) (erasmus_partner_api_key d)
     (session_id d) (user_id d) (project_id d)
     (max_retries d) (timeout d) (debug d)
     (_supabase_client d) h.
End OpenHorizonDependencies.

Module Deps := OpenHorizonDependencies.

(** What the program does to the outside world, in order. *)
Inductive event : Type :=
  | EvCreateClient (h : handle)     (* supabase.create_client(url, key) *)
  | EvAsyncClient (h : handle)      (* httpx.AsyncClient(...) *)
  | EvAclose (h : handle)           (* await client.aclose() *)
  | EvExecute (table : string)      (* a query's .execute() on a table *)
  | EvCleanup.                      (* a call of deps.cleanup() *)

(** A row of a table, as returned in [response.data]. *)
Abbreviation row := (gmap string string).

(** The behaviour of the collaborators during one call: what
    [load_settings()] finds in the process environment, whether
    [create_client] succeeds, what a query on a table returns, whether the
    installed pydantic_ai accepts [RunContext(deps=deps, retry=0)] (the
    constructor returns the context, or raises when that version requires
    further fields), and the text of pydantic's [ValidationError] for a
    value of a model rejected at a field. *)
Record Env : Type := mkEnv {
  load_settings : outcome Settings.t;
  create_client : outcome unit;
  execute : string -> outcome (list row);
  run_context : outcome unit;
  validation_text : string -> string -> string }.

(** [str(e)]: the library's text for a [ValidationError], the interpreter's
    for an [AttributeError], the carried text otherwise. *)
Definition str_exn (env : Env) (e : exn) : string :=
  match e with
  | ValidationError model field => validation_text env model field
  | AttributeError type_name attr =>
      "'" +:+ type_name +:+ "' object has no attribute '" +:+ attr +:+ "'"
  | TypeError msg => msg
  | ValueError msg => msg
  | RuntimeError msg => msg
  end.

(** The one dependency object of a call (shared by the orchestrator, the
    agent and the tool through [ctx.deps]), the events so far, and the next
    fresh client identity. *)
Record state : Type := mkState {
  deps : Deps.t;
  trace : list event;
  next_handle : handle }.

(** Computations that read and update the state and may raise. *)
Definition M (A : Type) : Type := state -> outcome A * state.

Definition ret {A} (a : A) : M A := fun st => (Ok a, st).

Definition bind {A B} (m : M A) (k : A -> M B) : M B :=
  fun st =>
    match m st with
    | (Ok a, st') => k a st'
    | (Raise e, st') => (Raise e, st')
    end.

Notation "'let*' x ':=' m 'in' k" := (bind m (fun x => k))
  (at level 10, x name, m at level 100, k at level 200, only parsing).
Notation "m >> k" := (bind m (fun _ => k))
  (at level 90, right associativity, only parsing).

Definition raise {A} (e : exn) : M A := fun st => (Raise e, st).

Definition lift {A} (o : outcome A) : M A := fun st => (o, st).

(** [try: m  except Exception as e: h e] *)
Definition try_except {A} (m : M A) (h : exn -> M A) : M A :=
  fun st =>
    match m st with
    | (Ok a, st') => (Ok a, st')
    | (Raise e, st') => h e st'
    end.

(** [try: m  finally: f] *)
Definition try_finally {A} (m : M A) (f : M unit) : M A :=
  fun st =>
    match m st with
    | (r, st') =>
        match f st' with
        | (Ok _, st'') => (r, st'')
        | (Raise e, st'') => (Raise e, st'')
        end
    end.

Definition emit (ev : event) : M unit :=
  fun st => (Ok tt, mkState (deps st) (trace st ++ [ev])%list (next_handle st)).

Definition get_deps : M Deps.t := fun st => (Ok (deps st), st).

Definition fresh_handle : M handle :=
  fun st => (Ok (next_handle st), mkState (deps st) (trace st) (S (next_handle st))).

Definition update_deps (f : Deps.t -> Deps.t) : M unit :=
  fun st => (Ok tt, mkState (f (deps st)) (trace st) (next_handle st)).

Section Dependencies.
Variable env : Env.

(** [OpenHorizonDependencies.from_settings] called with the identifier
    overrides and [settings = None]. *)
Definition from_settings (session_id user_id project_id : option string)
  : outcome Deps.t :=
  match load_settings env with
  | Raise e => Raise e
  | Ok settings =>
      Ok (Deps.mk None
            (Some (Settings.supabase_url settings))
            (Some (Settings.erasmus_partner_api_key settings))
            session_id user_id project_id
            (Settings.max_retries settings)
            (Settings.timeout_seconds settings)
            (Settings.debug settings)
            None None)
  end.

(** The [supabase] property: lazy construction of the client. *)
Definition supabase : M handle :=
  let* d := get_deps in
  match Deps._supabase_client d with
  | Some h => ret h
  | None =>
      let* _ := lift (load_settings env) in
      let* _ := lift (create_client env) in
      let* h := fresh_handle in
      emit (EvCreateClient h) >>
      update_deps (Deps.set_supabase (Some h)) >>
      ret h
  end.

(** The [partner_api_client] property. *)
Definition partner_api_client : M handle :=
  let* d := get_deps in
  match Deps._partner_api_client d with
  | Some h => ret h
  | None =>
      let* h := fresh_handle in
      emit (EvAsyncClient h) >>
      update_deps (Deps.set_partner_api (Some h)) >>
      ret h
  end.

(** [await deps.cleanup()] *)
Definition cleanup : M unit :=
  emit EvCleanup >>
  let* d := get_deps in
  match Deps._partner_api_client d with
  | Some h =>
      emit (EvAclose h) >>
      update_deps (Deps.set_partner_api None)
  | None => ret tt
  end.

(** [ctx.deps.supabase.table(t)....execute()] *)
Definition db_execute (table : string) : M (list row) :=
  let* _ := supabase in
  emit (EvExecute table) >>
  lift (execute env table).

(** The persistence step of every tool:
    [if ctx.deps.project_id: try: ... execute() except Exception: pass]. *)
Definition best_effort_save (table : string) : M unit :=
  let* d := get_deps in
  if truthy_str (Deps.project_id d)
  then try_except (let* _ := db_execute table in ret tt) (fun _ => ret tt)
  else ret tt.

End Dependencies.

(* ===================================================================== *)
(** ** tools.py: concept generation *)
(* ===================================================================== *)

(** The dictionary returned by [brainstorm_project_ideas]; a concept
    dictionary has the six keys of [ProjectConcept] and is kept as that
    record. *)
Module BrainstormResult.
Record t : Type := mk {
  success : bool;
  project_concepts : list ProjectConcept.t;
  next_steps : list string;
  error : option string }.
End BrainstormResult.

(** [focus_preference == lit] for an [Optional[str]]. *)
Definition opt_str_eqb (o : option string) (lit : string) : bool :=
  match o with
  | Some s => String.eqb s lit
  | None => false
  end.

Definition is_empty {A} (l : list A) : bool :=
  match l with [] => true | _ :: _ => false end.

Definition digital_concept (organization_context initial_concept : string)
  : ProjectConcept.t :=
  ProjectConcept.mk
    ("Digital Skills for " +:+ organization_context +:+ ": " +:+ initial_concept)
    DIGITAL_TRANSFORMATION
    "Young adults 18-30, unemployed or with low digital skills"
    "AI-powered personalized learning paths with peer mentoring"
    8
    "Strong EU priority, clear target group, proven methodologies available".

Definition green_concept (initial_concept : string) : ProjectConcept.t :=
  ProjectConcept.mk
    ("Green Transition Champions: " +:+ initial_concept)
    GREEN_TRANSITION
    "Youth organizations and environmental activists"
    "Gamified environmental action with cross-border challenges"
    9
    "High EU priority, engaging methodology, measurable outcomes".

Definition inclusion_concept (initial_concept : string) : ProjectConcept.t :=
  ProjectConcept.mk
    ("Inclusive Europe: " +:+ initial_concept)
    INCLUSION_DIVERSITY
    "Marginalized youth and support organizations"
    "Peer-to-peer support networks with digital storytelling"
    7
    "Critical EU priority, requires sensitive approach, strong impact potential".

Definition default_concept (initial_concept : string) : ProjectConcept.t :=
  ProjectConcept.mk
    ("European Youth Network: " +:+ initial_concept)
    PARTICIPATION
    "Young people 16-25 interested in civic engagement"
    "Cross-border collaboration with local community projects"
    6
    "Broad appeal, established methodologies, moderate complexity".

(** The three guards of [brainstorm_project_ideas], as written. *)
Definition digital_guard (initial_concept : string) (focus_preference : option string) : bool :=
  Py.contains "digital" (Py.lower initial_concept)
  || opt_str_eqb focus_preference "Digital Transformation".

Definition green_guard (initial_concept : string) : bool :=
  Py.contains "green" (Py.lower initial_concept)
  || Py.contains "environment" (Py.lower initial_concept).

Definition inclusion_guard (initial_concept : string) : bool :=
  Py.contains "inclusion" (Py.lower initial_concept)
  || Py.contains "diversity" (Py.lower initial_concept).

(** The list [concepts] after the four [if] statements. *)
Definition brainstorm_concepts
    (initial_concept : string) (focus_preference : option string)
    (organization_context : string) : list ProjectConcept.t :=
  let concepts := [] in
  let concepts :=
    if digital_guard initial_concept focus_preference
    then (concepts ++ [digital_concept organization_context initial_concept])%list
    else concepts in
  let concepts :=
    if green_guard initial_concept
    then (concepts ++ [green_concept initial_concept])%list
    else concepts in
  let concepts :=
    if inclusion_guard initial_concept
    then (concepts ++ [inclusion_concept initial_concept])%list
    else concepts in
  let concepts :=
    if is_empty concepts
    then (concepts ++ [default_concept initial_concept])%list
    else concepts in
  concepts.

Definition brainstorm_next_steps : list string :=
  [ "Select the most promising concept for further development";
    "Identify potential European partner organizations";
    "Define specific learning outcomes and impact metrics";
    "Estimate budget and timeline requirements" ].

Definition brainstorm_project_ideas (env : Env)
    (initial_concept : string) (focus_preference : option string)
    (organization_context : string) : M BrainstormResult.t :=
  try_except
    (let concepts :=
       brainstorm_concepts initial_concept focus_preference organization_context in
     best_effort_save env "projects" >>
     ret (BrainstormResult.mk true concepts brainstorm_next_steps None))
    (fun e =>
       ret (BrainstormResult.mk false [] []
              (Some ("Brainstorming failed: " +:+ str_exn env e)))).

(* ===================================================================== *)
(** ** tools.py: partner discovery *)
(* ===================================================================== *)

(** The dictionary returned by [discover_erasmus_partners];
    [partner.model_dump()] is kept as the [Partner] record. *)
Module PartnerSearchResult.
Record t : Type := mk {
  success : bool;
  potential_partners : list Partner.t;
  search_metadata : SearchMetadata.t;
  error : option string }.
End PartnerSearchResult.

Definition mock_partners : list Partner.kwargs :=
  [ Partner.mk_kwargs None
      (Some "Digital Youth Foundation") (Some "Germany") (Some NGO)
      (Some ["Digital Skills"; "Youth Work"; "Innovation"])
      (Some (ContactInfo.mk (Some "contact@digitalyouth.de")
                            (Some "https://digitalyouth.de") None))
      (Some "DE-YOUTH-001") (Some 9)
      (Some "Strong digital expertise and proven track record in youth projects");
    Partner.mk_kwargs None
      (Some "Green Action Network") (Some "Netherlands") (Some NGO)
      (Some ["Environmental Education"; "Sustainability"; "Community Engagement"])
      (Some (ContactInfo.mk (Some "info@greenaction.nl")
                            (Some "https://greenaction.nl") None))
      (Some "NL-GREEN-002") (Some 8)
      (Some "Excellent environmental focus with European-wide networks");
    Partner.mk_kwargs None
      (Some "Inclusion Works") (Some "Spain") (Some PUBLIC)
      (Some ["Social Inclusion"; "Diversity Training"; "Youth Support"])
      (Some (ContactInfo.mk (Some "hello@inclusionworks.es")
                            (Some "https://inclusionworks.es") None))
      (Some "ES-INCL-003") (Some 7)
      (Some "Specialized in inclusion work with vulnerable groups");
    Partner.mk_kwargs None
      (Some "Innovation Academy") (Some "Finland") (Some HEI)
      (Some ["Innovation"; "Entrepreneurship"; "Technology"])
      (Some (ContactInfo.mk (Some "partnerships@innovacademy.fi")
                            (Some "https://innovacademy.fi") None))
      (Some "FI-INNOV-004") (Some 8)
      (Some "Academic excellence in innovation and strong research capabilities") ].

(** [x in l] for a list of texts. *)
Definition str_in (x : string) (l : list string) : bool :=
  existsb (String.eqb x) l.

(** Truthiness of an [Optional[List[str]]]. *)
Definition truthy_list {A} (o : option (list A)) : bool :=
  match o with
  | Some (_ :: _) => true
  | _ => false
  end.

Definition expertise_match (expertise_areas : list string) (partner : Partner.t) : bool :=
  existsb
    (fun area => str_in (Py.lower area) (map Py.lower (Partner.expertise_areas partner)))
    expertise_areas.

(** [min(10, partner.compatibility_score + 1)] *)
Definition boosted_score (score : option Z) : outcome Z :=
  match score with
  | Some n => Ok (Z.min 10 (n + 1))
  | None => Raise (TypeError "unsupported operand type(s) for +: 'NoneType' and 'int'")
  end.

(** One iteration of the filter loop: [Ok None] is [continue], [Ok (Some p)]
    is the partner appended. *)
Definition visit_partner
    (project_focus : string) (required_countries expertise_areas : option (list string))
    (partner_data : Partner.kwargs) : outcome (option Partner.t) :=
  match Partner.init partner_data with
  | Raise e => Raise e
  | Ok partner =>
      if truthy_list required_countries
         && negb (str_in (Partner.country partner) (default [] required_countries))
      then Ok None
      else if truthy_list expertise_areas
              && negb (expertise_match (default [] expertise_areas) partner)
      then Ok None
      else if str_in (Py.lower project_focus)
                (map Py.lower (Partner.expertise_areas partner))
      then match boosted_score (Partner.compatibility_score partner) with
           | Raise e => Raise e
           | Ok v => Ok (Some (Partner.set_compatibility_score (Some v) partner))
           end
      else Ok (Some partner)
  end.

Fixpoint filter_loop
    (project_focus : string) (required_countries expertise_areas : option (list string))
    (pool : list Partner.kwargs) (filtered_partners : list Partner.t)
    : outcome (list Partner.t) :=
  match pool with
  | [] => Ok filtered_partners
  | partner_data :: rest =>
      match visit_partner project_focus required_countries expertise_areas partner_data with
      | Raise e => Raise e
      | Ok None =>
          filter_loop project_focus required_countries expertise_areas rest filtered_partners
      | Ok (Some p) =>
          filter_loop project_focus required_countries expertise_areas rest
            (filtered_partners ++ [p])%list
      end
  end.

(** [list(set(partner["country"] for partner in filtered_partners))]:
    the distinct countries, in the order the set yields them. *)
Definition countries_covered_of (filtered_partners : list Partner.t) : list string :=
  elements (list_to_set (map Partner.country filtered_partners) : gset string).

(** [discover_erasmus_partners] over a candidate pool; the source's pool is
    [mock_partners]. *)
Definition discover_partners_in (pool : list Partner.kwargs) (env : Env)
    (project_focus : string) (required_countries expertise_areas : option (list string))
    : M PartnerSearchResult.t :=
  try_except
    (let* filtered_partners :=
       lift (filter_loop project_focus required_countries expertise_areas pool []) in
     best_effort_save env "partner_searches" >>
     let countries_covered := countries_covered_of filtered_partners in
     ret (PartnerSearchResult.mk true filtered_partners
            (SearchMetadata.mk
               (Some (Z.of_nat (length filtered_partners)))
               (Some countries_covered)
               (Some project_focus))
            None))
    (fun e =>
       ret (PartnerSearchResult.mk false []
              (SearchMetadata.mk (Some 0) (Some []) None)
              (Some ("Partner search failed: " +:+ str_exn env e)))).

Definition discover_erasmus_partners : Env -> string ->
    option (list string) -> option (list string) -> M PartnerSearchResult.t :=
  discover_partners_in mock_partners.

(* ===================================================================== *)
(** ** tools.py: section drafting and compliance check *)
(* ===================================================================== *)

Definition NL : string := String "010"%char EmptyString.

Definition project_description_template (project_title focus_area_lower target_audience_lower : string) : string :=
  Py.strip (NL
    +:+ project_title
        +:+ " addresses the critical need for "
        +:+ focus_area_lower
        +:+ " development among "
        +:+ target_audience_lower
        +:+ " across Europe. "
        +:+ NL
    +:+ NL
    +:+ "Our project recognizes that traditional approaches to youth engagement often fail to capture the diverse needs and learning styles of today's generation. Through innovative methodologies and cross-border collaboration, we will create sustainable pathways for personal and professional development."
        +:+ NL
    +:+ NL
    +:+ "The project brings together partners from multiple European countries to share best practices, develop new approaches, and create lasting networks that extend beyond the project timeline. Our consortium combines grassroots experience with academic rigor, ensuring both practical relevance and evidence-based outcomes."
        +:+ NL
    +:+ NL
    +:+ "Key innovation elements include digital tools integration, peer-to-peer learning methodologies, and community-based action projects that create real-world impact while developing participants' competencies."
        +:+ NL).

Definition methodology_template (focus_area_lower : string) : string :=
  Py.strip (NL
    +:+ "Our methodology is built on three pillars: participatory learning, digital innovation, and cross-cultural exchange."
        +:+ NL
    +:+ NL
    +:+ "**Participatory Learning**: We employ non-formal education techniques that place participants at the center of their learning journey. Through workshops, peer mentoring, and collaborative projects, participants develop both hard and soft skills while building confidence and intercultural competence."
        +:+ NL
    +:+ NL
    +:+ "**Digital Innovation**: Leveraging technology to enhance accessibility and engagement, we integrate digital tools that support personalized learning paths and enable virtual collaboration between participants from different countries."
        +:+ NL
    +:+ NL
    +:+ "**Cross-Cultural Exchange**: Physical and virtual mobility opportunities allow participants to experience different cultural approaches to "
        +:+ focus_area_lower
        +:+ ", fostering European identity and global citizenship."
        +:+ NL
    +:+ NL
    +:+ "Quality assurance is ensured through regular evaluation cycles, participant feedback integration, and external expert review at key project milestones."
        +:+ NL).

Definition impact_template (project_title focus_area_lower : string) : string :=
  Py.strip (NL
    +:+ project_title
        +:+ " will create multi-level impact across individual, organizational, and systemic dimensions."
        +:+ NL
    +:+ NL
    +:+ "**Individual Impact**: Participants will develop enhanced competencies in "
        +:+ focus_area_lower
        +:+ ", increased cultural awareness, and stronger European identity. We anticipate that 85% of participants will report increased confidence and 70% will pursue further education or employment opportunities directly related to project themes."
        +:+ NL
    +:+ NL
    +:+ "**Organizational Impact**: Partner organizations will benefit from strengthened capacity, new methodologies, and expanded European networks. The project will result in updated training curricula and sustainable partnership agreements for future collaboration."
        +:+ NL
    +:+ NL
    +:+ "**Systemic Impact**: Project outcomes will contribute to European policy discussions around "
        +:+ focus_area_lower
        +:+ " and youth development. Dissemination activities will reach an estimated 10,000 stakeholders across partner countries, with toolkit resources made available to organizations throughout Europe."
        +:+ NL
    +:+ NL
    +:+ "Long-term sustainability is ensured through follow-up activities, alumni networks, and integration of project outcomes into partners' regular programming."
        +:+ NL).

Definition generic_template (section_type_lower project_title focus_area_lower target_audience_lower : string) : string :=
  Py.strip (NL
    +:+ "This section focuses on "
        +:+ section_type_lower
        +:+ " aspects of "
        +:+ project_title
        +:+ ". The project addresses "
        +:+ focus_area_lower
        +:+ " priorities through innovative approaches that engage "
        +:+ target_audience_lower
        +:+ " in meaningful learning experiences."
        +:+ NL
    +:+ NL
    +:+ "Our approach combines proven methodologies with innovative elements, ensuring both effectiveness and European added value. Through collaboration with partners across multiple countries, we will create sustainable impact that extends beyond the project timeline."
        +:+ NL
    +:+ NL
    +:+ "Key elements include participant-centered design, quality assurance mechanisms, and comprehensive evaluation to ensure project objectives are met and lessons learned are shared with the broader European community."
        +:+ NL).

(** The dictionary returned by [generate_application_section]. *)
Module SectionResult.
Record t : Type := mk {
  success : bool;
  generated_content : option GeneratedContent.t;
  alternative_versions : list AlternativeVersion.t;
  error : option string }.
End SectionResult.

(** [d.get(k, dflt)] *)
Definition dict_get (d : gmap string pyval) (k : string) (dflt : pyval) : pyval :=
  default dflt (d !! k).

(** [content_templates.get(section_type, <generic template>)]: every
    template is built before the lookup, from the lowered context values. *)
Definition select_template
    (section_type project_title focus_area_lower target_audience_lower : string)
    : string :=
  let content_templates : gmap string string :=
    <[ "Project Description" :=
         project_description_template project_title focus_area_lower target_audience_lower ]>
    (<[ "Methodology" := methodology_template focus_area_lower ]>
    (<[ "Impact" := impact_template project_title focus_area_lower ]> ∅)) in
  default
    (generic_template (Py.lower section_type) project_title
       focus_area_lower target_audience_lower)
    (content_templates !! section_type).

(** The untruncated template text, or the exception of a [.lower()] on a
    context value that is not a text. *)
Definition template_content
    (section_type : string) (project_context : gmap string pyval) : outcome string :=
  let project_title := dict_get project_context "title" (PStr "Unnamed Project") in
  let focus_area := dict_get project_context "focus_area" (PStr "General") in
  let target_audience := dict_get project_context "target_audience" (PStr "Young people") in
  match py_lower focus_area with
  | Raise e => Raise e
  | Ok focus_area_lower =>
      match py_lower target_audience with
      | Raise e => Raise e
      | Ok target_audience_lower =>
          Ok (select_template section_type (py_str project_title)
                focus_area_lower target_audience_lower)
      end
  end.

(** [if word_limit: words = content.split(); if len(words) > word_limit: ...] *)
Definition apply_word_limit (word_limit : option Z) (content : string) : string :=
  match word_limit with
  | None => content
  | Some n =>
      if n =? 0 then content
      else
        let words := Py.split content in
        if Z.of_nat (length words) >? n
        then Py.join " " (Py.slice_to n words) +:+ "..."
        else content
  end.

(** [any(word in text for word in kws)] *)
Definition any_in (kws : list string) (text : string) : bool :=
  existsb (fun word => Py.contains word text) kws.

Definition european_test (content : string) : bool :=
  Py.contains "european" (Py.lower content) || Py.contains "europe" (Py.lower content).

Definition target_group_test (content : string) : bool :=
  any_in ["participants"; "youth"; "young people"] (Py.lower content).

Definition innovation_test (content : string) : bool :=
  any_in ["innovative"; "innovation"; "new approach"] (Py.lower content).

(** The two lists [(compliance_issues, strengths)] after the three checks. *)
Definition compliance_check (content : string) : list string * list string :=
  let compliance_issues : list string := [] in
  let strengths : list string := [] in
  let '(compliance_issues, strengths) :=
    if european_test content
    then (compliance_issues, (strengths ++ ["Strong European dimension clearly articulated"])%list)
    else ((compliance_issues ++ ["European dimension needs stronger emphasis"])%list, strengths) in
  let '(compliance_issues, strengths) :=
    if target_group_test content
    then (compliance_issues, (strengths ++ ["Target group clearly defined"])%list)
    else ((compliance_issues ++ ["Target group definition could be clearer"])%list, strengths) in
  let '(compliance_issues, strengths) :=
    if innovation_test content
    then (compliance_issues, (strengths ++ ["Innovation elements present"])%list)
    else ((compliance_issues ++ ["Consider adding more innovation elements"])%list, strengths) in
  (compliance_issues, strengths).

Definition improvement_suggestions : list string :=
  [ "Consider adding specific quantifiable outcomes";
    "Include references to relevant EU policies or priorities";
    "Ensure clear link between activities and expected results" ].

Definition build_generated_content (section_type content : string) : GeneratedContent.t :=
  let word_count := Py.word_count content in
  let '(compliance_issues, strengths) := compliance_check content in
  let compliance_status := (length compliance_issues =? 0)%nat in
  GeneratedContent.mk section_type content word_count compliance_status
    (ComplianceDetails.mk compliance_issues strengths improvement_suggestions).

Definition impact_sentence : string :=
  NL +:+ NL +:+
  "This project directly contributes to European social cohesion and democratic values.".

Definition build_alternative_versions (content : string) : list AlternativeVersion.t :=
  [ AlternativeVersion.mk
      (Py.replace "traditional" "conventional"
         (Py.replace "innovative" "cutting-edge" content))
      "technical"
      (Py.word_count (Py.replace "innovative" "cutting-edge" content));
    AlternativeVersion.mk
      (content +:+ impact_sentence)
      "impact-focused"
      (Py.word_count (content +:+ impact_sentence)) ].

Definition generate_application_section (env : Env)
    (section_type : string) (project_context : gmap string pyval)
    (word_limit : option Z) : M SectionResult.t :=
  try_except
    (let* content := lift (template_content section_type project_context) in
     let content := apply_word_limit word_limit content in
     let generated_content := build_generated_content section_type content in
     let alternative_versions := build_alternative_versions content in
     best_effort_save env "application_sections" >>
     ret (SectionResult.mk true (Some generated_content) alternative_versions None))
    (fun e =>
       ret (SectionResult.mk false None []
              (Some ("Content generation failed: " +:+ str_exn env e)))).

(** A quiet collaborator environment and a fresh dependency object, for
    running the tools on concrete inputs: every collaborator succeeds, and
    the text of a validation error is a stand-in on which nothing depends. *)
Definition demo_settings : Settings.t :=
  Settings.mk "https://db.example" "anon-key" "demo-key" 3 30 false.

Definition demo_validation_text (model field : string) : string :=
  model +:+ "." +:+ field.

Definition quiet_env : Env :=
  mkEnv (Ok demo_settings) (Ok tt) (fun _ => Ok []) (Ok tt) demo_validation_text.

Definition deps_of (session_id user_id project_id : option string) : Deps.t :=
  Deps.mk None (Some "https://db.example") (Some "demo-key")
    session_id user_id project_id 3 30 false None None.

Definition state_of (d : Deps.t) : state := mkState d [] 0%nat.

(* ===================================================================== *)
(** ** prompts.py: session context *)
(* ===================================================================== *)

(** [project.get(k, 'Unknown')] on a row. *)
Definition row_get (project : row) (k : string) : string :=
  default "Unknown" (project !! k).

Definition get_session_context (env : Env) : M string :=
  let* d := get_deps in
  let context_parts : list string := [] in
  let context_parts :=
    if truthy_str (Deps.user_id d)
    then (context_parts ++ ["User ID: " +:+ default "" (Deps.user_id d)])%list
    else context_parts in
  let* context_parts :=
    if truthy_str (Deps.project_id d)
    then
      let context_parts :=
        (context_parts ++ ["Current project: " +:+ default "" (Deps.project_id d)])%list in
      try_except
        (let* data := db_execute env "projects" in
         match data with
         | project :: _ =>
             ret (context_parts ++
                    [ "Project title: " +:+ row_get project "title";
                      "Project status: " +:+ row_get project "status";
                      "Focus area: " +:+ row_get project "focus_area" ])%list
         | [] => ret context_parts
         end)
        (fun e =>
           ret (context_parts ++ ["Project context unavailable: " +:+ str_exn env e])%list)
    else ret context_parts in
  let context_parts :=
    if truthy_str (Deps.session_id d)
    then (context_parts ++ ["Session ID: " +:+ default "" (Deps.session_id d)])%list
    else context_parts in
  ret (if is_empty context_parts
       then "New user session - provide comprehensive guidance."
       else Py.join " | " context_parts).

(* ===================================================================== *)
(** ** agent.py: agents and session orchestrators *)
(* ===================================================================== *)

(** One turn of a model-driven agent ([async with agent: await
    agent.run(prompt, deps=deps)]).  The language model is a collaborator:
    the run either fails before the system prompt is assembled, or it
    evaluates [get_session_context], performs the tool calls the model asks
    for (with arguments of the model's choosing), and ends with a text or
    with an exception.  The prompt text only feeds the model. *)
Inductive turn (Args : Type) : Type :=
  | TurnFails (e : exn)
  | TurnRuns (tool_calls : list Args) (final : outcome string).
Arguments TurnFails {Args} e.
Arguments TurnRuns {Args} tool_calls final.

Fixpoint for_each {A} (f : A -> M unit) (l : list A) : M unit :=
  match l with
  | [] => ret tt
  | a :: rest => f a >> for_each f rest
  end.

Definition agent_run {Args R} (env : Env) (tool : Args -> M R) (t : turn Args)
  : M string :=
  match t with
  | TurnFails e => raise e
  | TurnRuns tool_calls final =>
      get_session_context env >>
      for_each (fun args => tool args >> ret tt) tool_calls >>
      lift final
  end.

Definition brainstorm_args : Type := string * option string * string.
Definition partner_args : Type := string * option (list string) * option (list string).
Definition section_args : Type := string * gmap string pyval * option Z.

Definition brainstorm_tool (env : Env) (a : brainstorm_args) : M BrainstormResult.t :=
  let '(initial_concept, focus_preference, organization_context) := a in
  brainstorm_project_ideas env initial_concept focus_preference organization_context.

Definition partner_discovery_tool (env : Env) (a : partner_args) : M PartnerSearchResult.t :=
  let '(project_focus, required_countries, expertise_areas) := a in
  discover_erasmus_partners env project_focus required_countries expertise_areas.

Definition content_generation_tool (env : Env) (a : section_args) : M SectionResult.t :=
  let '(section_type, project_context, word_limit) := a in
  generate_application_section env section_type project_context word_limit.

(** An orchestrator call either fails while building the dependency object
    (nothing was constructed), or runs its body on a fresh state and ends in
    the state [Some st]. *)
Definition run_with_deps {R} (d : outcome Deps.t) (body : M R)
  : outcome R * option state :=
  match d with
  | Raise e => (Raise e, None)
  | Ok deps0 =>
      match body (mkState deps0 [] 0%nat) with
      | (r, st) => (r, Some st)
      end
  end.

(** The [try: ... except Exception as e: ...] part of
    [run_brainstorming_session]: the agent turn, then the direct tool call
    on a context built by [RunContext(deps=deps, retry=0)] (the first
    argument evaluated), then the typed response; any exception, that of the
    constructor included, becomes a failure response. *)
Definition brainstorming_guarded (env : Env) (llm : turn brainstorm_args)
    (request : BrainstormRequest.t) : M BrainstormResponse.t :=
  try_except
    (agent_run env (brainstorm_tool env) llm >>
     lift (run_context env) >>
     let* tool_result :=
       brainstorm_project_ideas env
         (BrainstormRequest.initial_concept request)
         (option_map focus_value (BrainstormRequest.focus_preference request))
         (BrainstormRequest.organization_context request) in
     ret (BrainstormResponse.mk
            (BrainstormResult.success tool_result)
            []
            (BrainstormResult.next_steps tool_result)
            (BrainstormResult.error tool_result)))
    (fun e =>
       ret (BrainstormResponse.mk false [] []
              (Some ("Brainstorming session failed: " +:+ str_exn env e)))).

Definition run_brainstorming_session (env : Env) (llm : turn brainstorm_args)
    (request : BrainstormRequest.t) (user_id project_id : option string)
    : outcome BrainstormResponse.t * option state :=
  run_with_deps
    (from_settings env (BrainstormRequest.session_id request) user_id project_id)
    (try_finally (brainstorming_guarded env llm request) cleanup).

Definition partner_search_guarded (env : Env) (llm : turn partner_args)
    (request : PartnerSearchRequest.t) : M PartnerSearchResponse.t :=
  try_except
    (agent_run env (partner_discovery_tool env) llm >>
     lift (run_context env) >>
     let* tool_result :=
       discover_erasmus_partners env
         (PartnerSearchRequest.project_focus request)
         (PartnerSearchRequest.required_countries request)
         (Some (PartnerSearchRequest.expertise_areas request)) in
     ret (PartnerSearchResponse.mk
            (PartnerSearchResult.success tool_result)
            []
            (PartnerSearchResult.search_metadata tool_result)
            (PartnerSearchResult.error tool_result)))
    (fun e =>
       ret (PartnerSearchResponse.mk false [] SearchMetadata.empty
              (Some ("Partner search failed: " +:+ str_exn env e)))).

Definition run_partner_search (env : Env) (llm : turn partner_args)
    (request : PartnerSearchRequest.t) (user_id : option string)
    : outcome PartnerSearchResponse.t * option state :=
  run_with_deps
    (from_settings env None user_id (PartnerSearchRequest.project_id request))
    (try_finally (partner_search_guarded env llm request) cleanup).

Definition application_writing_guarded (env : Env) (llm : turn section_args)
    (request : ApplicationContentRequest.t) : M ApplicationContentResponse.t :=
  try_except
    (agent_run env (content_generation_tool env) llm >>
     lift (run_context env) >>
     let* tool_result :=
       generate_application_section env
         (ApplicationContentRequest.section_type request)
         (ApplicationContentRequest.project_context request)
         (ApplicationContentRequest.word_limit request) in
     ret (ApplicationContentResponse.mk
            (SectionResult.success tool_result)
            None
            (SectionResult.alternative_versions tool_result)
            (SectionResult.error tool_result)))
    (fun e =>
       ret (ApplicationContentResponse.mk false None []
              (Some ("Application writing failed: " +:+ str_exn env e)))).

Definition run_application_writing (env : Env) (llm : turn section_args)
    (request : ApplicationContentRequest.t) (user_id : option string)
    : outcome ApplicationContentResponse.t * option state :=
  run_with_deps
    (from_settings env None user_id (ApplicationContentRequest.project_id request))
    (try_finally (application_writing_guarded env llm request) cleanup).

(** [run_open_horizon_agent]: the three module-level agents, each with
    what its model does in the turn at hand, and the lookup
    [agent_map.get(agent_type, brainstorming_agent)]. *)
Inductive agent_name : Type :=
  | BrainstormingAgent
  | PlanningAgent
  | ApplicationAgent.

Definition agent_map : gmap string agent_name :=
  <[ "brainstorming" := BrainstormingAgent ]>
  (<[ "planning" := PlanningAgent ]>
  (<[ "application" := ApplicationAgent ]> ∅)).

Definition select_agent (agent_type : option string) : agent_name :=
  match agent_type with
  | Some k => default BrainstormingAgent (agent_map !! k)
  | None => BrainstormingAgent
  end.

Record agents : Type := mkAgents {
  brainstorming_agent : turn brainstorm_args;
  planning_agent : turn partner_args;
  application_agent : turn section_args }.

(** [async with selected_agent: result = await selected_agent.run(...);
    return result.data] *)
Definition selected_agent_run (env : Env) (ag : agents) (agent_type : option string)
  : M string :=
  match select_agent agent_type with
  | BrainstormingAgent => agent_run env (brainstorm_tool env) (brainstorming_agent ag)
  | PlanningAgent => agent_run env (partner_discovery_tool env) (planning_agent ag)
  | ApplicationAgent => agent_run env (content_generation_tool env) (application_agent ag)
  end.

Definition run_open_horizon_agent (env : Env) (ag : agents)
    (prompt : string) (agent_type : option string)
    (user_id project_id session_id : option string)
    : outcome string * option state :=
  run_with_deps
    (from_settings env session_id user_id project_id)
    (try_finally
       (try_except
          (selected_agent_run env ag agent_type)
          (fun e => ret ("Agent execution failed: " +:+ str_exn env e)))
       cleanup).

(* ===================================================================== *)
(** ** models.py: validation of a concept *)
(* ===================================================================== *)

(** Construction of a [ProjectConcept] from a dictionary that has all six
    keys: [feasibility_score] is [Field(..., ge=1, le=10)]. *)
Definition validate_concept (c : ProjectConcept.t) : outcome ProjectConcept.t :=
  if (1 <=? ProjectConcept.feasibility_score c)
     && (ProjectConcept.feasibility_score c <=? 10)
  then Ok c
  else Raise (ValidationError "ProjectConcept" "feasibility_score").

(* ===================================================================== *)
(** ** settings.py: the list of allowed origins *)
(* ===================================================================== *)

(** [s.split(sep)] for a one-character separator: the pieces between the
    separators, empty pieces included. *)
Fixpoint split_on (sep : ascii) (s : string) : list string :=
  match s with
  | EmptyString => [EmptyString]
  | String c s' =>
      if Ascii.eqb c sep then EmptyString :: split_on sep s'
      else match split_on sep s' with
           | w :: ws => String c w :: ws
           | [] => [String c EmptyString]
           end
  end.

(** The [origins_list] property of [Settings], from its [allowed_origins]. *)
Definition origins_list (allowed_origins : string) : list string :=
  map Py.strip (split_on ","%char allowed_origins).

(* ===================================================================== *)
(** ** api.py: the endpoints of the three capabilities and of the chat *)
(* ===================================================================== *)

(** What a request with a valid body is answered: the returned body
    (status 200), the [HTTPException] with status 500 and its detail, or
    the refusal of the [HTTPBearer] dependency (status 403 in
    tests/test_api.py), on which the handler is not entered. *)
Inductive http_result (A : Type) : Type :=
  | Http200 (body : A)
  | Http403
  | Http500 (detail : string).
Arguments Http200 {A} body.
Arguments Http403 {A}.
Arguments Http500 {A} detail.

(** The value [security = HTTPBearer()] hands to its dependants. *)
Module HTTPAuthorizationCredentials.
Record t : Type := mk {
  scheme : string;
  credentials : string }.
End HTTPAuthorizationCredentials.

(** [get_current_user]: the mock user, whatever the token. *)
Definition get_current_user (credentials : HTTPAuthorizationCredentials.t) : string :=
  "user_123".

(** [current_user: str = Depends(get_current_user)] in front of a handler:
    [security] is what [HTTPBearer] makes of the request's Authorization
    header, the credentials or [None] when it refuses the request. *)
Definition depends_current_user {A} (security : option HTTPAuthorizationCredentials.t)
    (handler : string -> http_result A * option state)
    : http_result A * option state :=
  match security with
  | None => (Http403, None)
  | Some credentials => handler (get_current_user credentials)
  end.

(** [try: return response  except Exception as e: raise HTTPException(500,
    detail=prefix + str(e))] *)
Definition respond {A} (env : Env) (prefix : string) (r : outcome A) : http_result A :=
  match r with
  | Ok response => Http200 response
  | Raise e => Http500 (prefix +:+ str_exn env e)
  end.

Definition brainstorm_project (env : Env) (llm : turn brainstorm_args)
    (security : option HTTPAuthorizationCredentials.t)
    (request : BrainstormRequest.t)
    : http_result BrainstormResponse.t * option state :=
  depends_current_user security (fun current_user =>
    match run_brainstorming_session env llm request (Some current_user) None with
    | (r, st) => (respond env "Brainstorming session failed: " r, st)
    end).

Definition search_partners (env : Env) (llm : turn partner_args)
    (security : option HTTPAuthorizationCredentials.t)
    (request : PartnerSearchRequest.t)
    : http_result PartnerSearchResponse.t * option state :=
  depends_current_user security (fun current_user =>
    match run_partner_search env llm request (Some current_user) with
    | (r, st) => (respond env "Partner search failed: " r, st)
    end).

Definition generate_application_content (env : Env) (llm : turn section_args)
    (security : option HTTPAuthorizationCredentials.t)
    (request : ApplicationContentRequest.t)
    : http_result ApplicationContentResponse.t * option state :=
  depends_current_user security (fun current_user =>
    match run_application_writing env llm request (Some current_user) with
    | (r, st) => (respond env "Content generation failed: " r, st)
    end).

(** The dictionary returned by [chat_with_agent]. *)
Module ChatReply.
Record t : Type := mk {
  success : bool;
  response : string;
  agent_type : option string;
  session_id : option string }.
End ChatReply.

Definition chat_with_agent (env : Env) (ag : agents)
    (security : option HTTPAuthorizationCredentials.t)
    (message : string) (agent_type project_id session_id : option string)
    : http_result ChatReply.t * option state :=
  depends_current_user security (fun current_user =>
    match run_open_horizon_agent env ag message agent_type
            (Some current_user) project_id session_id with
    | (Ok response, st) =>
        (Http200 (ChatReply.mk true response agent_type session_id), st)
    | (Raise e, st) => (Http500 ("Chat session failed: " +:+ str_exn env e), st)
    end).

(* ===================================================================== *)
(** ** Auxiliary notions for the proofs *)
(* ===================================================================== *)

(** No whitespace character occurs in [s]. *)
Fixpoint nospace (s : string) : bool :=
  match s with
  | EmptyString => true
  | String c s' => negb (Py.is_space c) && nospace s'
  end.

(** A token: non-empty and free of whitespace. *)
Definition is_token (w : string) : Prop :=
  w <> EmptyString /\ nospace w = true.

(** The number of tokens that begin inside [s], when [inword] tells whether
    the character before [s] belongs to a token. *)
Fixpoint starts (inword : bool) (s : string) : nat :=
  match s with
  | EmptyString => 0
  | String c s' =>
      if Py.is_space c then starts false s'
      else ((if inword then 0 else 1) + starts true s')%nat
  end.

(** How often the client [h] was closed in a trace. *)
Fixpoint closes (h : handle) (tr : list event) : nat :=
  match tr with
  | [] => 0
  | EvAclose h' :: tr' => ((if Nat.eqb h h' then 1 else 0) + closes h tr')%nat
  | _ :: tr' => closes h tr'
  end.

(** How often [deps.cleanup()] was called in a trace. *)
Fixpoint cleanups (tr : list event) : nat :=
  match tr with
  | [] => 0
  | EvCleanup :: tr' => S (cleanups tr')
  | _ :: tr' => cleanups tr'
  end.

(** Events that neither open nor close the partner HTTP client and are not
    a cleanup: the only ones the tools and the session context produce. *)
Definition db_event (ev : event) : bool :=
  match ev with
  | EvCreateClient _ | EvExecute _ => true
  | _ => false
  end.

(** An alternative version reports the token count of its own text. *)
Definition counts_own_words (a : AlternativeVersion.t) : Prop :=
  AlternativeVersion.word_count a = Py.word_count (AlternativeVersion.content a).

(** The entry a compliance test adds to [missing_elements] when it fails,
    and to [strength_areas] when it passes. *)
Definition if_missing (passed : bool) (entry : string) : list string :=
  if passed then [] else [entry].

Definition if_strength (passed : bool) (entry : string) : list string :=
  if passed then [entry] else [].

(** The project context of the repository's word-limit test. *)
Definition test_context : gmap string pyval :=
  <[ "title" := PStr "Comprehensive Project" ]>
  (<[ "focus_area" := PStr "Innovation" ]> ∅).

(** A computation is quiet when it only appends database events to the
    trace and leaves the partner HTTP client slot as it found it. *)
Definition quiet {A} (m : M A) : Prop :=
  forall st, exists evs,
    trace (snd (m st)) = (trace st ++ evs)%list /\
    forallb db_event evs = true /\
    Deps._partner_api_client (deps (snd (m st)))
      = Deps._partner_api_client (deps st).

(** A computation keeps the database client that the context holds. *)
Definition keeps_database {A} (m : M A) : Prop :=
  forall st h,
    Deps._supabase_client (deps st) = Some h ->
    Deps._supabase_client (deps (snd (m st))) = Some h.

(** What cleanup guarantees at the end of a call: it ran exactly once, no
    partner HTTP client is held any more, and every partner HTTP client
    opened during the call was closed exactly once. *)
Definition cleaned_up_once (st : state) : Prop :=
  cleanups (trace st) = 1%nat /\
  Deps._partner_api_client (deps st) = None /\
  (forall h, In (EvAsyncClient h) (trace st) -> closes h (trace st) = 1%nat).

(** Success and error exclude each other, and a failure carries an empty
    payload. *)
Definition brainstorm_response_ok (r : BrainstormResponse.t) : Prop :=
  (BrainstormResponse.success r = true /\ BrainstormResponse.error r = None)
  \/ (BrainstormResponse.success r = false
      /\ BrainstormResponse.error r <> None
      /\ BrainstormResponse.project_concepts r = []
      /\ BrainstormResponse.next_steps r = []).

(** The metadata of a failed search: the default (empty) dictionary, or the
    zero summary the tool writes (nothing found, no country covered). *)
Definition metadata_blank (m : SearchMetadata.t) : Prop :=
  (SearchMetadata.total_found m = None \/ SearchMetadata.total_found m = Some 0)
  /\ (SearchMetadata.countries_covered m = None
      \/ SearchMetadata.countries_covered m = Some [])
  /\ SearchMetadata.search_focus m = None.

Definition partner_response_ok (r : PartnerSearchResponse.t) : Prop :=
  (PartnerSearchResponse.success r = true /\ PartnerSearchResponse.error r = None)
  \/ (PartnerSearchResponse.success r = false
      /\ PartnerSearchResponse.error r <> None
      /\ PartnerSearchResponse.potential_partners r = []
      /\ metadata_blank (PartnerSearchResponse.search_metadata r)).

Definition application_response_ok (r : ApplicationContentResponse.t) : Prop :=
  (ApplicationContentResponse.success r = true
   /\ ApplicationContentResponse.error r = None)
  \/ (ApplicationContentResponse.success r = false
      /\ ApplicationContentResponse.error r <> None
      /\ ApplicationContentResponse.generated_content r = None
      /\ ApplicationContentResponse.alternative_versions r = []).

Definition brainstorm_result_ok (r : BrainstormResult.t) : Prop :=
  (BrainstormResult.success r = true /\ BrainstormResult.error r = None)
  \/ (BrainstormResult.success r = false
      /\ BrainstormResult.error r <> None
      /\ BrainstormResult.project_concepts r = []
      /\ BrainstormResult.next_steps r = []).

Definition partner_result_ok (r : PartnerSearchResult.t) : Prop :=
  (PartnerSearchResult.success r = true /\ PartnerSearchResult.error r = None)
  \/ (PartnerSearchResult.success r = false
      /\ PartnerSearchResult.error r <> None
      /\ PartnerSearchResult.potential_partners r = []
      /\ metadata_blank (PartnerSearchResult.search_metadata r)).

Definition section_result_ok (r : SectionResult.t) : Prop :=
  (SectionResult.success r = true /\ SectionResult.error r = None)
  \/ (SectionResult.success r = false
      /\ SectionResult.error r <> None
      /\ SectionResult.generated_content r = None
      /\ SectionResult.alternative_versions r = []).

(** The requests of the specification's concrete scenarios. *)
Definition scenario_brainstorm_request : BrainstormRequest.t :=
  BrainstormRequest.mk "teach young people programming skills"
    (Some DIGITAL_TRANSFORMATION) "Swedish NGO" None.

(** A turn in which the model answers without calling a tool. *)
Definition plain_turn {Args} : turn Args := TurnRuns [] (Ok "Here are some ideas.").

(** A candidate dictionary completed with the [id] key that [Partner]
    requires (the source's candidates have none). *)
Definition with_id (i : string) (k : Partner.kwargs) : Partner.kwargs :=
  Partner.mk_kwargs (Some i)
    (Partner.kw_name k) (Partner.kw_country k) (Partner.kw_organization_type k)
    (Partner.kw_expertise_areas k) (Partner.kw_contact_info k)
    (Partner.kw_erasmus_code k) (Partner.kw_compatibility_score k)
    (Partner.kw_partnership_rationale k).

Definition mock_partners_with_ids : list Partner.kwargs :=
  zip_with with_id ["partner-1"; "partner-2"; "partner-3"; "partner-4"] mock_partners.

(** The five keywords of the three families. *)
Definition family_keywords : list string :=
  ["digital"; "green"; "environment"; "inclusion"; "diversity"].

(** A process whose settings load: [load_settings()] yields [settings];
    the database and the libraries may still behave in any way. *)
Definition configured (settings : Settings.t) (cc : outcome unit)
    (ex : string -> outcome (list row)) (rc : outcome unit)
    (vt : string -> string -> string) : Env :=
  mkEnv (Ok settings) cc ex rc vt.

(** A context that has acquired the partner HTTP client. *)
Definition holding_client : state :=
  snd (partner_api_client (state_of (deps_of None None None))).

(** A candidate dictionary that [Partner] accepts and that carries a
    compatibility score. *)
Definition scored_candidate (k : Partner.kwargs) : Prop :=
  exists p n, Partner.init k = Ok p /\ Partner.compatibility_score p = Some n.

(** The focus occurs, case-insensitively, among a partner's expertise tags. *)
Definition focus_matches (project_focus : string) (p : Partner.t) : bool :=
  str_in (Py.lower project_focus) (map Py.lower (Partner.expertise_areas p)).

(** The score of a returned partner: within the model's range, and above
    its minimum when the focus matched. *)
Definition score_within_bounds (project_focus : string) (p : Partner.t) : Prop :=
  match Partner.compatibility_score p with
  | Some n => 1 <= n <= 10 /\ (if focus_matches project_focus p then 2 <= n else True)
  | None => focus_matches project_focus p = false
  end.

(** A partner shares a tag, up to case, with the requested areas. *)
Definition shares_expertise (areas : list string) (p : Partner.t) : Prop :=
  exists area tag,
    In area areas /\ In tag (Partner.expertise_areas p) /\
    Py.lower area = Py.lower tag.

(** A context entry that [.lower()] accepts: the key is missing (the
    default text is used) or its value is a text. *)
Definition is_text (o : option pyval) : bool :=
  match o with
  | Some (PObj _ _) => false
  | _ => true
  end.

(** The type of the first context value on which [.lower()] is called and
    fails: that under "focus_area" if it is not a text, else that under
    "target_audience". *)
Definition non_text_type (o : option pyval) : option string :=
  match o with
  | Some (PObj type_name _) => Some type_name
  | _ => None
  end.

Definition first_non_text (project_context : gmap string pyval) : option string :=
  match non_text_type (project_context !! "focus_area") with
  | Some type_name => Some type_name
  | None => non_text_type (project_context !! "target_audience")
  end.

(** The last character of [s] exists and is not whitespace. *)
Fixpoint ends_word (s : string) : bool :=
  match s with
  | EmptyString => false
  | String c EmptyString => negb (Py.is_space c)
  | String _ s' => ends_word s'
  end.

(** The context carries no project identifier ([None] or the empty text). *)
Definition no_project (st : state) : Prop :=
  truthy_str (Deps.project_id (deps st)) = false.

(** A computation that leaves a context without project identifier exactly
    as it found it: no database access, no client, no event. *)
Definition inert {A} (m : M A) : Prop :=
  forall st, no_project st -> snd (m st) = st.

(** The title of a concept is a fixed prefix followed by the initial concept. *)
Definition title_ends_with (initial_concept : string) (c : ProjectConcept.t) : Prop :=
  exists prefix, ProjectConcept.title c = prefix +:+ initial_concept.

(** The part of the session context for one identifier, present only when
    the identifier is truthy. *)
Definition id_part (label : string) (o : option string) : list string :=
  if truthy_str o then [label +:+ default "" o] else [].

(** How a turn ends: with the model's text or with an exception. *)
Definition turn_outcome {Args} (t : turn Args) : outcome string :=
  match t with
  | TurnFails e => Raise e
  | TurnRuns _ final => final
  end.

(** What precedes the direct tool call in an orchestrator's [try] block:
    the agent turn, then the construction of the [RunContext]; the first
    exception of the two, if any. *)
Definition before_tool_call (env : Env) {Args} (t : turn Args) : outcome unit :=
  match turn_outcome t with
  | Ok _ => run_context env
  | Raise e => Raise e
  end.

(** How the turn of the agent chosen by [agent_type] ends. *)
Definition selected_outcome (ag : agents) (agent_type : option string)
  : outcome string :=
  match select_agent agent_type with
  | BrainstormingAgent => turn_outcome (brainstorming_agent ag)
  | PlanningAgent => turn_outcome (planning_agent ag)
  | ApplicationAgent => turn_outcome (application_agent ag)
  end.

(** A computation that never raises. *)
Definition returns {A} (m : M A) : Prop :=
  forall st, exists a st', m st = (Ok a, st').

(** How often the character [c] occurs in [s]. *)
Fixpoint count_char (c : ascii) (s : string) : nat :=
  match s with
  | EmptyString => 0
  | String x s' => ((if Ascii.eqb x c then 1 else 0) + count_char c s')%nat
  end.

(** A partner-search request without project identifier. *)
Definition plain_partner_request : PartnerSearchRequest.t :=
  PartnerSearchRequest.mk "digital skills" (Some ["Germany"]) [] None.

(** Collaborators among which the [RunContext] constructor rejects its
    arguments. *)
Definition strict_context_env : Env :=
  mkEnv (Ok demo_settings) (Ok tt) (fun _ => Ok [])
        (Raise (TypeError "missing required arguments")) demo_validation_text.

(** Collaborators whose every query raises, and a context for project
    "project-1" that already holds its database client. *)
Definition failing_database_env : Env :=
  mkEnv (Ok demo_settings) (Ok tt) (fun _ => Raise (RuntimeError "connection refused"))
        (Ok tt) demo_validation_text.

Definition connected_state : state :=
  mkState (Deps.set_supabase (Some 0%nat) (deps_of None None (Some "project-1")))
    [EvCreateClient 0%nat] 1%nat.

(* ===================================================================== *)
(** ** The string primitives on small inputs *)
(* ===================================================================== *)

Example split_ex :
  Py.split "  a bc   d " = ["a"; "bc"; "d"].
Proof. reflexivity. Qed.

Example replace_ex :
  Py.replace "aa" "b" "aaaxaa" = "baxb".
Proof. reflexivity. Qed.

Example strip_ex : Py.strip "  a b  " = "a b".
Proof. reflexivity. Qed.

Example slice_ex : Py.slice_to (-1) [1;2;3] = [1;2] /\ Py.slice_to 2 [1;2;3] = [1;2]
  /\ Py.slice_to (-5) [1;2;3] = [] /\ Py.slice_to 7 [1;2;3] = [1;2;3].
Proof. repeat split. Qed.


(* ===================================================================== *)
(** ** Facts about [split], [join] and [replace] *)
(* ===================================================================== *)

Section SplitFacts.

Lemma app_nil_l (s : string) : EmptyString +:+ s = s.
Proof. reflexivity. Qed.

Lemma app_cons (c : ascii) (a s : string) :
  String c a +:+ s = String c (a +:+ s).
Proof. reflexivity. Qed.

Lemma app_assoc_str (a b c : string) : (a +:+ b) +:+ c = a +:+ (b +:+ c).
Proof.
  induction a as [|x a IH]; rewrite ?app_nil_l, ?app_cons;
    [reflexivity | now rewrite IH].
Qed.

Lemma app_empty_r (a : string) : a +:+ EmptyString = a.
Proof.
  induction a as [|x a IH]; rewrite ?app_nil_l, ?app_cons;
    [reflexivity | now rewrite IH].
Qed.

Lemma length_app_str (a b : string) :
  String.length (a +:+ b) = (String.length a + String.length b)%nat.
Proof.
  induction a as [|x a IH]; rewrite ?app_nil_l, ?app_cons; simpl;
    [reflexivity | now rewrite IH].
Qed.

Lemma nospace_app (a b : string) :
  nospace (a +:+ b) = nospace a && nospace b.
Proof.
  induction a as [|x a IH]; rewrite ?app_nil_l, ?app_cons; simpl;
    [reflexivity |].
  rewrite IH. now rewrite andb_assoc.
Qed.

(** [starts] when a token is already in progress counts one token less
    exactly when [s] opens with a token character. *)
Lemma starts_false_true (s : string) :
  starts false s = (starts true s + (if Py.at_word s then 1 else 0))%nat.
Proof.
  destruct s as [|c s]; simpl; [reflexivity |].
  destruct (Py.is_space c); simpl; lia.
Qed.

Lemma split_nonempty (s : string) : Py.at_word s = true -> Py.split s <> [].
Proof.
  destruct s as [|c s]; simpl; [discriminate |].
  destruct (Py.is_space c); simpl; [discriminate |].
  intros _. destruct (Py.at_word s); [destruct (Py.split s) |]; discriminate.
Qed.

(** The length of [split] is the number of token starts. *)
Lemma length_split (s : string) : length (Py.split s) = starts false s.
Proof.
  induction s as [|c s IH]; simpl; [reflexivity |].
  destruct (Py.is_space c) eqn:Hc; [exact IH |].
  rewrite starts_false_true in IH.
  destruct (Py.at_word s) eqn:Hw.
  - pose proof (split_nonempty s Hw) as Hne.
    destruct (Py.split s) as [|w ws]; [congruence |].
    simpl in *. lia.
  - simpl. lia.
Qed.

(** A whitespace-free, non-empty prefix opens at most one token. *)
Lemma starts_token_app (b : bool) (w s : string) :
  is_token w ->
  starts b (w +:+ s) = ((if b then 0 else 1) + starts true s)%nat.
Proof.
  intros [Hne Hns]. revert b.
  induction w as [|c w IH]; intros b; [congruence |].
  simpl in Hns. apply andb_true_iff in Hns as [Hc Hw].
  apply negb_true_iff in Hc. rewrite app_cons. cbn [starts]. rewrite Hc.
  destruct w as [|c' w].
  - rewrite app_nil_l. reflexivity.
  - rewrite IH; [simpl; lia | discriminate | exact Hw].
Qed.

Lemma starts_nospace_app (w s : string) :
  nospace w = true -> starts true (w +:+ s) = starts true s.
Proof.
  destruct w as [|c w]; intros H; [reflexivity |].
  rewrite starts_token_app; [reflexivity | split; [discriminate | exact H]].
Qed.

(** Every element of [split s] is a token. *)
Lemma split_tokens (s : string) : Forall is_token (Py.split s).
Proof.
  induction s as [|c s IH]; simpl; [constructor |].
  destruct (Py.is_space c) eqn:Hc; [exact IH |].
  destruct (Py.at_word s).
  - destruct (Py.split s) as [|w ws].
    + constructor; [| constructor]. split; [discriminate | simpl; now rewrite Hc].
    + inversion IH as [|? ? [Hw1 Hw2] Hws]; subst.
      constructor; [| exact Hws].
      split; [discriminate | simpl; now rewrite Hc, Hw2].
  - constructor; [| exact IH].
    split; [discriminate | simpl; now rewrite Hc].
Qed.

(** A token followed by text that does not continue it is split off. *)
Lemma split_token_app (w s : string) :
  is_token w -> Py.at_word s = false ->
  Py.split (w +:+ s) = w :: Py.split s.
Proof.
  intros [Hne Hns] Hs.
  induction w as [|c w IH]; [congruence |].
  simpl in Hns. apply andb_true_iff in Hns as [Hc Hw].
  apply negb_true_iff in Hc. rewrite app_cons. cbn [Py.split]. rewrite Hc.
  destruct w as [|c' w].
  - rewrite app_nil_l, Hs. reflexivity.
  - rewrite IH by (discriminate || exact Hw).
    rewrite app_cons. cbn [Py.at_word].
    simpl in Hw. apply andb_true_iff in Hw as [Hc' _]. now rewrite Hc'.
Qed.

(** Splitting what [" ".join] built from tokens gives the tokens back. *)
Lemma split_join (l : list string) :
  Forall is_token l -> Py.split (Py.join " " l) = l.
Proof.
  induction 1 as [|w l Hw Hl IH]; [reflexivity |].
  destruct l as [|w' l].
  - cbn [Py.join]. rewrite <- (app_empty_r w) at 1.
    now rewrite split_token_app.
  - change (Py.join " " (w :: w' :: l))
      with (w +:+ String " "%char (Py.join " " (w' :: l))).
    rewrite split_token_app by (exact Hw || reflexivity).
    cbn [Py.split]. change (Py.is_space " ") with true. cbn iota.
    now rewrite IH.
Qed.

(** The token count of [" ".join(l) + tail] for tokens [l] and a
    whitespace-free [tail]: the tail fuses with the last token. *)
Lemma starts_join_tail (l : list string) (tail : string) (b : bool) :
  l <> [] -> Forall is_token l -> nospace tail = true ->
  starts b (Py.join " " l +:+ tail) =
    ((if b then 0 else 1) + (length l - 1))%nat.
Proof.
  intros Hne Hl Ht. revert b Hne.
  induction Hl as [|w l Hw Hl IH]; intros b Hne; [congruence |].
  destruct l as [|w' l].
  - simpl. rewrite starts_token_app by exact Hw.
    rewrite <- (app_empty_r tail), starts_nospace_app by exact Ht.
    simpl. lia.
  - change (Py.join " " (w :: w' :: l))
      with (w +:+ " " +:+ Py.join " " (w' :: l)).
    rewrite !app_assoc_str.
    rewrite starts_token_app by exact Hw.
    change (" " +:+ Py.join " " (w' :: l) +:+ tail)
      with (String " "%char (Py.join " " (w' :: l) +:+ tail)).
    cbn [starts]. change (Py.is_space " ") with true. cbn iota.
    rewrite IH by discriminate. simpl. lia.
Qed.

Lemma word_count_join_tail (l : list string) (tail : string) :
  l <> [] -> Forall is_token l -> nospace tail = true ->
  Py.word_count (Py.join " " l +:+ tail) = Z.of_nat (length l).
Proof.
  intros Hne Hl Ht. unfold Py.word_count.
  rewrite length_split, starts_join_tail by assumption.
  destruct l; [congruence | simpl; lia].
Qed.

Lemma startswith_app (p s : string) :
  Py.startswith p s = true -> exists rest, s = p +:+ rest.
Proof.
  revert s. induction p as [|a p IH]; intros s H.
  - exists s. reflexivity.
  - destruct s as [|b s]; simpl in H; [discriminate |].
    destruct (Ascii.eqb a b) eqn:Hab; [| discriminate].
    apply Ascii.eqb_eq in Hab. subst b.
    destruct (IH s H) as [rest ->]. exists rest. now rewrite app_cons.
Qed.

(** While [skip] characters remain to be skipped, the scan drops them. *)
Lemma replace_scan_skip (old new u rest : string) :
  Py.replace_scan old new (String.length u) (u +:+ rest)
  = Py.replace_scan old new 0 rest.
Proof.
  induction u as [|c u IH]; rewrite ?app_nil_l, ?app_cons; simpl;
    [reflexivity | exact IH].
Qed.

(** Replacing a token by a token changes no token boundary. *)
Lemma starts_replace_scan (old new : string) :
  is_token old -> is_token new ->
  forall (n : nat) (s : string) (b : bool),
    (String.length s <= n)%nat ->
    starts b (Py.replace_scan old new 0 s) = starts b s.
Proof.
  intros Hold Hnew. induction n as [|n IH]; intros s b Hlen.
  - destruct s; [reflexivity | simpl in Hlen; lia].
  - destruct s as [|c s]; [reflexivity |].
    cbn [Py.replace_scan].
    destruct (Py.startswith old (String c s)) eqn:Hsw.
    + destruct (startswith_app _ _ Hsw) as [rest Hrest].
      destruct old as [|a old']; [destruct Hold; congruence |].
      rewrite app_cons in Hrest. injection Hrest as -> ->.
      cbn [String.length Nat.pred].
      rewrite replace_scan_skip.
      rewrite starts_token_app by exact Hnew.
      change (String a (old' +:+ rest)) with (String a old' +:+ rest).
      rewrite starts_token_app by exact Hold.
      f_equal. apply IH.
      simpl in Hlen. rewrite length_app_str in Hlen. lia.
    + cbn [starts]. simpl in Hlen.
      destruct (Py.is_space c); rewrite IH by lia; reflexivity.
Qed.

Theorem word_count_replace (old new s : string) :
  is_token old -> is_token new ->
  Py.word_count (Py.replace old new s) = Py.word_count s.
Proof.
  intros Hold Hnew. unfold Py.word_count, Py.replace.
  destruct old as [|a old'] eqn:E; [destruct Hold; congruence |].
  rewrite !length_split.
  rewrite (starts_replace_scan _ _ Hold Hnew (String.length s)); [reflexivity | lia].
Qed.

End SplitFacts.

(* ===================================================================== *)
(** ** The tools always return a result *)
(* ===================================================================== *)

Section ToolResults.
Variable env : Env.

(** Persistence is best effort: whatever the database does, the step
    returns normally. *)
Lemma best_effort_save_returns (table : string) (st : state) :
  exists st', best_effort_save env table st = (Ok tt, st').
Proof.
  unfold best_effort_save, bind, get_deps.
  destruct (truthy_str (Deps.project_id (deps st))); [| eexists; reflexivity].
  unfold try_except, bind.
  destruct (db_execute env table st) as [[rows | e] st1]; eexists; reflexivity.
Qed.

Lemma brainstorm_project_ideas_returns
    (initial_concept : string) (focus_preference : option string)
    (organization_context : string) (st : state) :
  exists st',
    brainstorm_project_ideas env initial_concept focus_preference
        organization_context st
    = (Ok (BrainstormResult.mk true
             (brainstorm_concepts initial_concept focus_preference organization_context)
             brainstorm_next_steps None), st').
Proof.
  unfold brainstorm_project_ideas, try_except, bind.
  destruct (best_effort_save_returns "projects" st) as [st' ->].
  eexists; reflexivity.
Qed.

Lemma generate_application_section_ok
    (section_type : string) (project_context : gmap string pyval)
    (word_limit : option Z) (template : string) (st : state) :
  template_content section_type project_context = Ok template ->
  exists st',
    generate_application_section env section_type project_context word_limit st
    = (Ok (SectionResult.mk true
             (Some (build_generated_content section_type
                      (apply_word_limit word_limit template)))
             (build_alternative_versions (apply_word_limit word_limit template))
             None), st').
Proof.
  intros Ht.
  unfold generate_application_section, try_except, bind, lift.
  rewrite Ht.
  destruct (best_effort_save_returns "application_sections" st) as [st' ->].
  eexists; reflexivity.
Qed.

Lemma generate_application_section_fails
    (section_type : string) (project_context : gmap string pyval)
    (word_limit : option Z) (e : exn) (st : state) :
  template_content section_type project_context = Raise e ->
  generate_application_section env section_type project_context word_limit st
  = (Ok (SectionResult.mk false None []
           (Some ("Content generation failed: " +:+ str_exn env e))), st).
Proof.
  intros Ht.
  unfold generate_application_section, try_except, bind, lift.
  rewrite Ht. reflexivity.
Qed.

Lemma discover_partners_in_ok
    (pool : list Partner.kwargs) (project_focus : string)
    (required_countries expertise_areas : option (list string))
    (found : list Partner.t) (st : state) :
  filter_loop project_focus required_countries expertise_areas pool [] = Ok found ->
  exists st',
    discover_partners_in pool env project_focus required_countries expertise_areas st
    = (Ok (PartnerSearchResult.mk true found
             (SearchMetadata.mk (Some (Z.of_nat (length found)))
                (Some (countries_covered_of found)) (Some project_focus))
             None), st').
Proof.
  intros Hf.
  unfold discover_partners_in, try_except, bind, lift.
  rewrite Hf.
  destruct (best_effort_save_returns "partner_searches" st) as [st' ->].
  eexists; reflexivity.
Qed.

Lemma discover_partners_in_fails
    (pool : list Partner.kwargs) (project_focus : string)
    (required_countries expertise_areas : option (list string))
    (e : exn) (st : state) :
  filter_loop project_focus required_countries expertise_areas pool [] = Raise e ->
  discover_partners_in pool env project_focus required_countries expertise_areas st
  = (Ok (PartnerSearchResult.mk false []
           (SearchMetadata.mk (Some 0) (Some []) None)
           (Some ("Partner search failed: " +:+ str_exn env e))), st).
Proof.
  intros Hf.
  unfold discover_partners_in, try_except, bind, lift.
  rewrite Hf. reflexivity.
Qed.

End ToolResults.

(* ===================================================================== *)
(** ** Word limit (C1) *)
(* ===================================================================== *)

Lemma apply_word_limit_over (N : Z) (content : string) :
  1 <= N -> Py.word_count content > N ->
  apply_word_limit (Some N) content
  = Py.join " " (take (Z.to_nat N) (Py.split content)) +:+ "...".
Proof.
  intros HN Hover. unfold apply_word_limit, Py.word_count in *.
  destruct (Z.eqb_spec N 0) as [-> | _]; [lia |].
  destruct (Z.gtb_spec (Z.of_nat (length (Py.split content))) N) as [_ | Hle]; [| lia].
  unfold Py.slice_to.
  destruct (Z.ltb_spec N 0); [lia | reflexivity].
Qed.

Lemma apply_word_limit_under (N : Z) (content : string) :
  Py.word_count content <= N ->
  apply_word_limit (Some N) content = content.
Proof.
  intros Hle. unfold apply_word_limit, Py.word_count in *.
  destruct (N =? 0); [reflexivity |].
  destruct (Z.gtb_spec (Z.of_nat (length (Py.split content))) N); [lia | reflexivity].
Qed.

(** A zero or absent limit is no limit: [if word_limit:] is false. *)
Lemma apply_word_limit_falsy (content : string) :
  apply_word_limit (Some 0) content = content /\
  apply_word_limit None content = content.
Proof. split; reflexivity. Qed.

Lemma word_count_truncated (N : Z) (content : string) :
  1 <= N -> Py.word_count content > N ->
  Py.word_count (Py.join " " (take (Z.to_nat N) (Py.split content)) +:+ "...") = N.
Proof.
  intros HN Hover. unfold Py.word_count in Hover.
  rewrite word_count_join_tail.
  - rewrite length_take. lia.
  - destruct (Py.split content) as [|w ws]; [simpl in Hover; lia |].
    destruct (Z.to_nat N) eqn:E; [lia | discriminate].
  - apply Forall_take, split_tokens.
  - reflexivity.
Qed.

(** C1, as the code has it.  For a word limit [N >= 1]: when the template
    has more than [N] whitespace tokens, the returned content is the first
    [N] tokens joined by single blanks with the literal marker "..."
    appended directly to the last of them, so that its token count, and the
    reported [word_count], is exactly [N]; when the template has at most [N]
    tokens it is returned unmodified. *)
Theorem word_limit_truncation
    (env : Env) (section_type : string) (project_context : gmap string pyval)
    (template : string) (N : Z) (st : state) :
  template_content section_type project_context = Ok template ->
  1 <= N ->
  exists g alts st',
    generate_application_section env section_type project_context (Some N) st
      = (Ok (SectionResult.mk true (Some g) alts None), st') /\
    (Py.word_count template > N ->
       GeneratedContent.content g
         = Py.join " " (take (Z.to_nat N) (Py.split template)) +:+ "..." /\
       Py.word_count (GeneratedContent.content g) = N /\
       GeneratedContent.word_count g = N) /\
    (Py.word_count template <= N ->
       GeneratedContent.content g = template).
Proof.
  intros Ht HN.
  destruct (generate_application_section_ok env section_type project_context
              (Some N) template st Ht) as [st' Hrun].
  eexists _, _, st'. split; [exact Hrun |].
  unfold build_generated_content.
  destruct (compliance_check (apply_word_limit (Some N) template)) as [issues strengths].
  cbn [GeneratedContent.content GeneratedContent.word_count].
  split.
  - intros Hover. rewrite (apply_word_limit_over N template HN Hover).
    pose proof (word_count_truncated N template HN Hover) as Hc.
    repeat split; [exact Hc | exact Hc].
  - intros Hle. apply apply_word_limit_under, Hle.
Qed.

Lemma word_limit_truncation_witness :
  exists g alts st',
    generate_application_section quiet_env "Project Description" test_context
        (Some 50) (state_of (deps_of None None None))
      = (Ok (SectionResult.mk true (Some g) alts None), st') /\
    GeneratedContent.word_count g = 50.
Proof.
  destruct (word_limit_truncation quiet_env "Project Description" test_context
              (project_description_template "Comprehensive Project" "innovation" "young people")
              50 (state_of (deps_of None None None)))
    as (g & alts & st' & Hrun & Hover & _).
  - vm_compute. reflexivity.
  - lia.
  - exists g, alts, st'. split; [exact Hrun |].
    apply Hover. vm_compute. reflexivity.
Defined.

(** The claim as stated fails on the repository's own test input: the
    "Project Description" template has more than 50 tokens, and with
    [word_limit = 50] the returned content has 50 tokens, not 51; and with
    [word_limit = 0] the template, which has more than 0 tokens, is returned
    unmodified. *)
Lemma truncation_count_is_not_limit_plus_one :
  exists template g alts st' g0 alts0 st0,
    template_content "Project Description" test_context = Ok template /\
    Py.word_count template > 50 /\
    generate_application_section quiet_env "Project Description" test_context
        (Some 50) (state_of (deps_of None None None))
      = (Ok (SectionResult.mk true (Some g) alts None), st') /\
    Py.word_count (GeneratedContent.content g) = 50 /\
    GeneratedContent.word_count g <> 50 + 1 /\
    generate_application_section quiet_env "Project Description" test_context
        (Some 0) (state_of (deps_of None None None))
      = (Ok (SectionResult.mk true (Some g0) alts0 None), st0) /\
    GeneratedContent.content g0 = template /\
    GeneratedContent.word_count g0 <> 0 + 1.
Proof.
  eexists _, _, _, _, _, _, _.
  split; [vm_compute; reflexivity |].
  split; [vm_compute; reflexivity |].
  split; [vm_compute; reflexivity |].
  split; [vm_compute; reflexivity |].
  split; [vm_compute; discriminate |].
  split; [vm_compute; reflexivity |].
  split; [vm_compute; reflexivity | vm_compute; discriminate].
Qed.

(* ===================================================================== *)
(** ** Word counts (C6) *)
(* ===================================================================== *)

Lemma alternative_versions_count (content : string) :
  Forall counts_own_words (build_alternative_versions content).
Proof.
  unfold build_alternative_versions, counts_own_words.
  repeat constructor; cbn [AlternativeVersion.word_count AlternativeVersion.content].
  symmetry. apply word_count_replace; split; (discriminate || reflexivity).
Qed.

Lemma generated_content_count (section_type content : string) :
  GeneratedContent.word_count (build_generated_content section_type content)
  = Py.word_count content
  /\ GeneratedContent.content (build_generated_content section_type content) = content.
Proof.
  unfold build_generated_content.
  destruct (compliance_check content); split; reflexivity.
Qed.

(** C6.  In every result of section generation, the [word_count] of the
    primary content and of each alternative version is the whitespace-token
    count of that item's own content text, whatever the word limit; a
    successful result carries the primary content and exactly two
    alternative versions. *)
Theorem word_counts_match_content
    (env : Env) (section_type : string) (project_context : gmap string pyval)
    (word_limit : option Z) (st : state) :
  exists r st',
    generate_application_section env section_type project_context word_limit st
      = (Ok r, st') /\
    match SectionResult.generated_content r with
    | Some g =>
        GeneratedContent.word_count g = Py.word_count (GeneratedContent.content g)
    | None => SectionResult.success r = false
    end /\
    Forall counts_own_words (SectionResult.alternative_versions r) /\
    (if SectionResult.success r
     then length (SectionResult.alternative_versions r) = 2%nat
          /\ SectionResult.generated_content r <> None
     else SectionResult.alternative_versions r = []).
Proof.
  destruct (template_content section_type project_context) as [template | e] eqn:Ht.
  - destruct (generate_application_section_ok env section_type project_context
                word_limit template st Ht) as [st' Hrun].
    eexists _, st'. split; [exact Hrun |].
    cbn [SectionResult.generated_content SectionResult.alternative_versions
         SectionResult.success].
    destruct (generated_content_count section_type
                (apply_word_limit word_limit template)) as [Hw Hc].
    split; [now rewrite Hw, Hc |].
    split; [apply alternative_versions_count |].
    split; [reflexivity | discriminate].
  - eexists _, st. split.
    + apply generate_application_section_fails, Ht.
    + cbn. repeat split; constructor.
Qed.

(* ===================================================================== *)
(** ** Compliance check (C7) *)
(* ===================================================================== *)

Lemma compliance_check_eq (content : string) :
  compliance_check content =
    ( (if_missing (european_test content) "European dimension needs stronger emphasis"
       ++ if_missing (target_group_test content) "Target group definition could be clearer"
       ++ if_missing (innovation_test content) "Consider adding more innovation elements")%list,
      (if_strength (european_test content) "Strong European dimension clearly articulated"
       ++ if_strength (target_group_test content) "Target group clearly defined"
       ++ if_strength (innovation_test content) "Innovation elements present")%list ).
Proof.
  unfold compliance_check.
  destruct (european_test content), (target_group_test content),
    (innovation_test content); reflexivity.
Qed.

Lemma target_group_test_eq (content : string) :
  target_group_test content =
    Py.contains "participants" (Py.lower content)
    || Py.contains "youth" (Py.lower content)
    || Py.contains "young people" (Py.lower content).
Proof.
  unfold target_group_test, any_in. cbn [existsb].
  now rewrite orb_false_r, orb_assoc.
Qed.

Lemma innovation_test_eq (content : string) :
  innovation_test content =
    Py.contains "innovative" (Py.lower content)
    || Py.contains "innovation" (Py.lower content)
    || Py.contains "new approach" (Py.lower content).
Proof.
  unfold innovation_test, any_in. cbn [existsb].
  now rewrite orb_false_r, orb_assoc.
Qed.

(** C7.  For every generated section, with [text] the lowered final
    content: [compliance_status] holds iff [missing_elements] is empty, iff
    [text] contains a European keyword and a target-group keyword and an
    innovation keyword; each failed test contributes exactly its one
    missing-element entry and each passed test exactly its one strength
    entry, in the order of the tests. *)
Theorem compliance_status_iff_all_tests
    (env : Env) (section_type : string) (project_context : gmap string pyval)
    (word_limit : option Z) (st : state) :
  exists r st',
    generate_application_section env section_type project_context word_limit st
      = (Ok r, st') /\
    match SectionResult.generated_content r with
    | None => SectionResult.success r = false
    | Some g =>
        let text := Py.lower (GeneratedContent.content g) in
        let d := GeneratedContent.compliance_details g in
        let european := Py.contains "european" text || Py.contains "europe" text in
        let target := Py.contains "participants" text || Py.contains "youth" text
                      || Py.contains "young people" text in
        let innovation := Py.contains "innovative" text || Py.contains "innovation" text
                          || Py.contains "new approach" text in
        GeneratedContent.compliance_status g
          = is_empty (ComplianceDetails.missing_elements d) /\
        GeneratedContent.compliance_status g = european && target && innovation /\
        ComplianceDetails.missing_elements d =
          (if_missing european "European dimension needs stronger emphasis"
           ++ if_missing target "Target group definition could be clearer"
           ++ if_missing innovation "Consider adding more innovation elements")%list /\
        ComplianceDetails.strength_areas d =
          (if_strength european "Strong European dimension clearly articulated"
           ++ if_strength target "Target group clearly defined"
           ++ if_strength innovation "Innovation elements present")%list /\
        (length (ComplianceDetails.missing_elements d)
         + length (ComplianceDetails.strength_areas d) = 3)%nat
    end.
Proof.
  destruct (template_content section_type project_context) as [template | e] eqn:Ht.
  - destruct (generate_application_section_ok env section_type project_context
                word_limit template st Ht) as [st' Hrun].
    eexists _, st'. split; [exact Hrun |].
    cbn [SectionResult.generated_content].
    unfold build_generated_content.
    rewrite compliance_check_eq.
    cbn [GeneratedContent.content GeneratedContent.compliance_details
         GeneratedContent.compliance_status ComplianceDetails.missing_elements
         ComplianceDetails.strength_areas].
    rewrite target_group_test_eq, innovation_test_eq. unfold european_test.
    set (text := Py.lower (apply_word_limit word_limit template)).
    destruct (Py.contains "european" text || Py.contains "europe" text),
      (Py.contains "participants" text || Py.contains "youth" text
       || Py.contains "young people" text),
      (Py.contains "innovative" text || Py.contains "innovation" text
       || Py.contains "new approach" text);
      cbn; repeat split; reflexivity.
  - eexists _, st. split.
    + apply generate_application_section_fails, Ht.
    + reflexivity.
Qed.

(* ===================================================================== *)
(** ** Concept generation (C9, C3) *)
(* ===================================================================== *)

Lemma brainstorm_concepts_nonempty
    (initial_concept : string) (focus_preference : option string)
    (organization_context : string) :
  (1 <= length (brainstorm_concepts initial_concept focus_preference
                  organization_context))%nat.
Proof.
  unfold brainstorm_concepts.
  destruct (digital_guard initial_concept focus_preference),
    (green_guard initial_concept), (inclusion_guard initial_concept);
    cbn; lia.
Qed.

Lemma brainstorm_concepts_default
    (initial_concept : string) (focus_preference : option string)
    (organization_context : string) :
  digital_guard initial_concept focus_preference = false ->
  green_guard initial_concept = false ->
  inclusion_guard initial_concept = false ->
  brainstorm_concepts initial_concept focus_preference organization_context
  = [default_concept initial_concept].
Proof.
  intros Hd Hg Hi. unfold brainstorm_concepts. rewrite Hd, Hg, Hi. reflexivity.
Qed.

Lemma opt_str_eqb_false (o : option string) (lit : string) :
  o <> Some lit -> opt_str_eqb o lit = false.
Proof.
  intros H. destruct o as [s0|]; [| reflexivity]. simpl.
  apply String.eqb_neq. congruence.
Qed.

(** C9.  Concept generation has no failure path of its own: the tool
    returns a successful result with at least one concept for every input
    and every behaviour of the database; and when none of the five keywords
    occurs in the lowered initial concept and the focus preference is not
    "Digital Transformation", the result is exactly one concept, with focus
    area Participation and feasibility score 6. *)
Theorem concept_generation_never_fails
    (env : Env) (initial_concept : string) (focus_preference : option string)
    (organization_context : string) (st : state) :
  exists r st',
    brainstorm_project_ideas env initial_concept focus_preference
        organization_context st = (Ok r, st') /\
    BrainstormResult.success r = true /\
    BrainstormResult.error r = None /\
    (1 <= length (BrainstormResult.project_concepts r))%nat /\
    ((forall kw, In kw family_keywords ->
                 Py.contains kw (Py.lower initial_concept) = false) ->
     focus_preference <> Some "Digital Transformation" ->
     exists c,
       BrainstormResult.project_concepts r = [c] /\
       ProjectConcept.focus_area c = PARTICIPATION /\
       ProjectConcept.feasibility_score c = 6).
Proof.
  destruct (brainstorm_project_ideas_returns env initial_concept focus_preference
              organization_context st) as [st' Hrun].
  eexists _, st'. split; [exact Hrun |].
  cbn [BrainstormResult.success BrainstormResult.error
       BrainstormResult.project_concepts].
  split; [reflexivity |]. split; [reflexivity |].
  split; [apply brainstorm_concepts_nonempty |].
  intros Hkw Hfp.
  exists (default_concept initial_concept).
  split; [| split; reflexivity].
  apply brainstorm_concepts_default.
  - unfold digital_guard.
    rewrite (Hkw "digital"), (opt_str_eqb_false _ _ Hfp); [reflexivity |].
    unfold family_keywords; simpl; tauto.
  - unfold green_guard.
    rewrite (Hkw "green"), (Hkw "environment");
      [reflexivity | unfold family_keywords; simpl; tauto ..].
  - unfold inclusion_guard.
    rewrite (Hkw "inclusion"), (Hkw "diversity");
      [reflexivity | unfold family_keywords; simpl; tauto ..].
Qed.

Lemma concept_generation_never_fails_witness :
  exists r st' c,
    brainstorm_project_ideas quiet_env "help young people in Europe" None
        "General NGO" (state_of (deps_of None None None)) = (Ok r, st') /\
    BrainstormResult.project_concepts r = [c] /\
    ProjectConcept.focus_area c = PARTICIPATION /\
    ProjectConcept.feasibility_score c = 6.
Proof.
  destruct (concept_generation_never_fails quiet_env "help young people in Europe"
              None "General NGO" (state_of (deps_of None None None)))
    as (r & st' & Hrun & _ & _ & _ & Hdefault).
  destruct Hdefault as (c & Hc & Hf & Hs).
  - intros kw Hin. unfold family_keywords in Hin. simpl in Hin.
    destruct Hin as [<- | [<- | [<- | [<- | [<- | []]]]]]; vm_compute; reflexivity.
  - discriminate.
  - exists r, st', c. repeat split; assumption.
Defined.

(** What the three guards do establish: a family's keyword in the initial
    concept emits that family's concept, and for the digital family so does
    the focus preference on its own. *)
Lemma keyword_families_emit
    (initial_concept : string) (focus_preference : option string)
    (organization_context : string) :
  let concepts :=
    brainstorm_concepts initial_concept focus_preference organization_context in
  (digital_guard initial_concept focus_preference = true ->
     In (digital_concept organization_context initial_concept) concepts) /\
  (green_guard initial_concept = true -> In (green_concept initial_concept) concepts) /\
  (inclusion_guard initial_concept = true ->
     In (inclusion_concept initial_concept) concepts) /\
  (focus_preference = Some "Digital Transformation" ->
     In (digital_concept organization_context initial_concept) concepts).
Proof.
  cbv zeta. unfold brainstorm_concepts.
  assert (Hfp : focus_preference = Some "Digital Transformation" ->
                digital_guard initial_concept focus_preference = true).
  { intros ->. unfold digital_guard. apply orb_true_r. }
  destruct (digital_guard initial_concept focus_preference) eqn:Hd,
    (green_guard initial_concept) eqn:Hg, (inclusion_guard initial_concept) eqn:Hi;
    cbn; repeat split; intros H; try discriminate; try (specialize (Hfp H));
    try discriminate; tauto.
Qed.

(** C3 at the input of the repository's own inclusion test, and at a green
    one: the focus preference names the family, no keyword of the family
    occurs in the initial concept, and the tool emits only the default
    Participation concept. *)
Theorem focus_preference_alone_is_ignored (env : Env) (st : state) :
  (exists st',
     brainstorm_project_ideas env "help marginalized youth find opportunities"
       (Some "Inclusion and Diversity") "Social Services NGO" st
     = (Ok (BrainstormResult.mk true
              [default_concept "help marginalized youth find opportunities"]
              brainstorm_next_steps None), st')) /\
  (exists st',
     brainstorm_project_ideas env "clean rivers for young people"
       (Some "Green Transition") "Swedish NGO" st
     = (Ok (BrainstormResult.mk true
              [default_concept "clean rivers for young people"]
              brainstorm_next_steps None), st')).
Proof.
  split.
  - destruct (brainstorm_project_ideas_returns env
                "help marginalized youth find opportunities"
                (Some "Inclusion and Diversity") "Social Services NGO" st)
      as [st' ->].
    exists st'. reflexivity.
  - destruct (brainstorm_project_ideas_returns env
                "clean rivers for young people"
                (Some "Green Transition") "Swedish NGO" st)
      as [st' ->].
    exists st'. reflexivity.
Qed.

(* ===================================================================== *)
(** ** Partner discovery (C2) *)
(* ===================================================================== *)

(** C2 at the scenario's input: the first candidate dictionary has no [id]
    key, [Partner] rejects it, and the tool answers with its failure
    result, whose error text is the tool's prefix followed by pydantic's
    text for the missing field; no partner is returned. *)
Theorem partner_scenario_fails_validation (env : Env) (st : state) :
  discover_erasmus_partners env "Digital Skills" None None st
  = (Ok (PartnerSearchResult.mk false []
           (SearchMetadata.mk (Some 0) (Some []) None)
           (Some ("Partner search failed: " +:+ validation_text env "Partner" "id"))),
     st).
Proof.
  unfold discover_erasmus_partners.
  rewrite (discover_partners_in_fails env mock_partners "Digital Skills" None None
             (ValidationError "Partner" "id") st); reflexivity.
Qed.

(** Every request fails the same way, whatever its filters. *)
Lemma partner_search_always_fails
    (env : Env) (project_focus : string)
    (required_countries expertise_areas : option (list string)) (st : state) :
  exists r,
    discover_erasmus_partners env project_focus required_countries
      expertise_areas st = (Ok r, st) /\
    PartnerSearchResult.success r = false /\
    PartnerSearchResult.potential_partners r = [].
Proof.
  eexists. split.
  - unfold discover_erasmus_partners.
    apply (discover_partners_in_fails env mock_partners project_focus
             required_countries expertise_areas (ValidationError "Partner" "id")).
    reflexivity.
  - split; reflexivity.
Qed.

(** With the missing [id] keys supplied, the filter itself does what the
    scenario describes: all four candidates pass and the Digital Youth
    Foundation is boosted from 9 to 10. *)
Lemma partner_scenario_with_ids :
  exists p rest,
    filter_loop "Digital Skills" None None mock_partners_with_ids [] = Ok (p :: rest) /\
    Partner.name p = "Digital Youth Foundation" /\
    Partner.country p = "Germany" /\
    Partner.compatibility_score p = Some 10 /\
    length rest = 3%nat.
Proof.
  eexists _, _. split; [vm_compute; reflexivity |].
  repeat split.
Qed.

(* ===================================================================== *)
(** ** Effects of the tools and of an agent turn on the dependency object *)
(* ===================================================================== *)

Section Quiet.
Variable env : Env.

Lemma quiet_ret {A} (a : A) : quiet (ret a).
Proof. intros st. exists []. cbn. rewrite app_nil_r. auto. Qed.

Lemma quiet_raise {A} (e : exn) : quiet (@raise A e).
Proof. intros st. exists []. cbn. rewrite app_nil_r. auto. Qed.

Lemma quiet_lift {A} (o : outcome A) : quiet (lift o).
Proof. intros st. exists []. cbn. rewrite app_nil_r. auto. Qed.

Lemma quiet_get_deps : quiet get_deps.
Proof. intros st. exists []. cbn. rewrite app_nil_r. auto. Qed.

Lemma quiet_fresh_handle : quiet fresh_handle.
Proof. intros st. exists []. cbn. rewrite app_nil_r. auto. Qed.

Lemma quiet_emit (ev : event) : db_event ev = true -> quiet (emit ev).
Proof. intros Hev st. exists [ev]. cbn. rewrite Hev. auto. Qed.

Lemma quiet_set_supabase (h : option handle) :
  quiet (update_deps (Deps.set_supabase h)).
Proof. intros st. exists []. cbn. rewrite app_nil_r. auto. Qed.

Lemma quiet_bind {A B} (m : M A) (k : A -> M B) :
  quiet m -> (forall a, quiet (k a)) -> quiet (bind m k).
Proof.
  intros Hm Hk st. unfold bind.
  destruct (Hm st) as (evs1 & Ht1 & He1 & Hp1).
  destruct (m st) as [[x | e] st1]; cbn in *.
  - destruct (Hk x st1) as (evs2 & Ht2 & He2 & Hp2).
    exists (evs1 ++ evs2)%list.
    rewrite Ht2, Ht1, Hp2, Hp1, forallb_app, He1, He2, app_assoc. auto.
  - exists evs1. auto.
Qed.

Lemma quiet_try_except {A} (m : M A) (h : exn -> M A) :
  quiet m -> (forall e, quiet (h e)) -> quiet (try_except m h).
Proof.
  intros Hm Hh st. unfold try_except.
  destruct (Hm st) as (evs1 & Ht1 & He1 & Hp1).
  destruct (m st) as [[x | e] st1]; cbn in *.
  - exists evs1. auto.
  - destruct (Hh e st1) as (evs2 & Ht2 & He2 & Hp2).
    exists (evs1 ++ evs2)%list.
    rewrite Ht2, Ht1, Hp2, Hp1, forallb_app, He1, He2, app_assoc. auto.
Qed.

Ltac quiet_step :=
  first
    [ apply quiet_ret | apply quiet_raise | apply quiet_lift
    | apply quiet_get_deps | apply quiet_fresh_handle
    | apply quiet_set_supabase
    | apply quiet_emit; reflexivity
    | apply quiet_try_except; [| intro]
    | apply quiet_bind; [| intro]
    | match goal with
      | |- quiet (match ?x with _ => _ end) => destruct x
      end ].

Lemma quiet_supabase : quiet (supabase env).
Proof. unfold supabase. repeat quiet_step. Qed.

Lemma quiet_db_execute (table : string) : quiet (db_execute env table).
Proof.
  unfold db_execute.
  apply quiet_bind; [apply quiet_supabase | intro].
  repeat quiet_step.
Qed.

Lemma quiet_best_effort_save (table : string) : quiet (best_effort_save env table).
Proof.
  unfold best_effort_save.
  apply quiet_bind; [apply quiet_get_deps | intro d].
  destruct (truthy_str (Deps.project_id d)); [| apply quiet_ret].
  apply quiet_try_except; [| intro; apply quiet_ret].
  apply quiet_bind; [apply quiet_db_execute | intro; apply quiet_ret].
Qed.

Lemma quiet_brainstorm_project_ideas
    (initial_concept : string) (focus_preference : option string)
    (organization_context : string) :
  quiet (brainstorm_project_ideas env initial_concept focus_preference
           organization_context).
Proof.
  unfold brainstorm_project_ideas.
  apply quiet_try_except; [| intro; apply quiet_ret].
  apply quiet_bind; [apply quiet_best_effort_save | intro; apply quiet_ret].
Qed.

Lemma quiet_discover_erasmus_partners
    (project_focus : string) (required_countries expertise_areas : option (list string)) :
  quiet (discover_erasmus_partners env project_focus required_countries
           expertise_areas).
Proof.
  unfold discover_erasmus_partners, discover_partners_in.
  apply quiet_try_except; [| intro; apply quiet_ret].
  apply quiet_bind; [apply quiet_lift | intro].
  apply quiet_bind; [apply quiet_best_effort_save | intro; apply quiet_ret].
Qed.

Lemma quiet_generate_application_section
    (section_type : string) (project_context : gmap string pyval)
    (word_limit : option Z) :
  quiet (generate_application_section env section_type project_context word_limit).
Proof.
  unfold generate_application_section.
  apply quiet_try_except; [| intro; apply quiet_ret].
  apply quiet_bind; [apply quiet_lift | intro].
  apply quiet_bind; [apply quiet_best_effort_save | intro; apply quiet_ret].
Qed.

Lemma quiet_get_session_context : quiet (get_session_context env).
Proof.
  unfold get_session_context.
  apply quiet_bind; [apply quiet_get_deps | intro d].
  apply quiet_bind; [| intro; apply quiet_ret].
  destruct (truthy_str (Deps.project_id d)); [| apply quiet_ret].
  apply quiet_try_except; [| intro; apply quiet_ret].
  apply quiet_bind; [apply quiet_db_execute | intros [| project data]; apply quiet_ret].
Qed.

Lemma quiet_for_each {A} (f : A -> M unit) (l : list A) :
  (forall a, quiet (f a)) -> quiet (for_each f l).
Proof.
  intros Hf. induction l as [| a l IH]; cbn [for_each].
  - apply quiet_ret.
  - apply quiet_bind; [apply Hf | intro; exact IH].
Qed.

Lemma quiet_agent_run {Args R} (tool : Args -> M R) (t : turn Args) :
  (forall a, quiet (tool a)) -> quiet (agent_run env tool t).
Proof.
  intros Htool. destruct t as [e | tool_calls final]; cbn [agent_run].
  - apply quiet_raise.
  - apply quiet_bind; [apply quiet_get_session_context | intro].
    apply quiet_bind; [| intro; apply quiet_lift].
    apply quiet_for_each. intro args.
    apply quiet_bind; [apply Htool | intro; apply quiet_ret].
Qed.

End Quiet.

Section KeepsDatabase.
Variable env : Env.

Lemma keeps_ret {A} (a : A) : keeps_database (ret a).
Proof. intros st h H. exact H. Qed.

Lemma keeps_raise {A} (e : exn) : keeps_database (@raise A e).
Proof. intros st h H. exact H. Qed.

Lemma keeps_lift {A} (o : outcome A) : keeps_database (lift o).
Proof. intros st h H. exact H. Qed.

Lemma keeps_get_deps : keeps_database get_deps.
Proof. intros st h H. exact H. Qed.

Lemma keeps_emit (ev : event) : keeps_database (emit ev).
Proof. intros st h H. exact H. Qed.

Lemma keeps_bind {A B} (m : M A) (k : A -> M B) :
  keeps_database m -> (forall a, keeps_database (k a)) -> keeps_database (bind m k).
Proof.
  intros Hm Hk st h H. unfold bind.
  specialize (Hm st h H).
  destruct (m st) as [[x | e] st1]; cbn [snd] in *; [apply Hk |]; exact Hm.
Qed.

Lemma keeps_try_except {A} (m : M A) (handler : exn -> M A) :
  keeps_database m -> (forall e, keeps_database (handler e)) ->
  keeps_database (try_except m handler).
Proof.
  intros Hm Hh st h H. unfold try_except.
  specialize (Hm st h H).
  destruct (m st) as [[x | e] st1]; cbn [snd] in *; [| apply Hh]; exact Hm.
Qed.

Lemma keeps_supabase : keeps_database (supabase env).
Proof.
  intros st h H. unfold supabase, bind, get_deps. rewrite H. exact H.
Qed.

Lemma keeps_db_execute (table : string) : keeps_database (db_execute env table).
Proof.
  unfold db_execute.
  apply keeps_bind; [apply keeps_supabase | intro].
  apply keeps_bind; [apply keeps_emit | intro; apply keeps_lift].
Qed.

Lemma keeps_best_effort_save (table : string) :
  keeps_database (best_effort_save env table).
Proof.
  unfold best_effort_save.
  apply keeps_bind; [apply keeps_get_deps | intro d].
  destruct (truthy_str (Deps.project_id d)); [| apply keeps_ret].
  apply keeps_try_except; [| intro; apply keeps_ret].
  apply keeps_bind; [apply keeps_db_execute | intro; apply keeps_ret].
Qed.

Lemma keeps_brainstorm_project_ideas
    (initial_concept : string) (focus_preference : option string)
    (organization_context : string) :
  keeps_database (brainstorm_project_ideas env initial_concept focus_preference
                    organization_context).
Proof.
  unfold brainstorm_project_ideas.
  apply keeps_try_except; [| intro; apply keeps_ret].
  apply keeps_bind; [apply keeps_best_effort_save | intro; apply keeps_ret].
Qed.

Lemma keeps_discover_erasmus_partners
    (project_focus : string) (required_countries expertise_areas : option (list string)) :
  keeps_database (discover_erasmus_partners env project_focus required_countries
                    expertise_areas).
Proof.
  unfold discover_erasmus_partners, discover_partners_in.
  apply keeps_try_except; [| intro; apply keeps_ret].
  apply keeps_bind; [apply keeps_lift | intro].
  apply keeps_bind; [apply keeps_best_effort_save | intro; apply keeps_ret].
Qed.

Lemma keeps_generate_application_section
    (section_type : string) (project_context : gmap string pyval)
    (word_limit : option Z) :
  keeps_database (generate_application_section env section_type project_context
                    word_limit).
Proof.
  unfold generate_application_section.
  apply keeps_try_except; [| intro; apply keeps_ret].
  apply keeps_bind; [apply keeps_lift | intro].
  apply keeps_bind; [apply keeps_best_effort_save | intro; apply keeps_ret].
Qed.

Lemma keeps_for_each {A} (f : A -> M unit) (l : list A) :
  (forall a, keeps_database (f a)) -> keeps_database (for_each f l).
Proof.
  intros Hf. induction l as [| a l IH]; cbn [for_each].
  - apply keeps_ret.
  - apply keeps_bind; [apply Hf | intro; exact IH].
Qed.

(** With a project identifier and no client yet, where the settings load
    and the client can be created, the session context creates the database
    client, under the next fresh identity, and leaves it in the context. *)
Lemma session_context_opens_database (settings : Settings.t) (st : state) :
  load_settings env = Ok settings ->
  create_client env = Ok tt ->
  truthy_str (Deps.project_id (deps st)) = true ->
  Deps._supabase_client (deps st) = None ->
  exists text st1 evs,
    get_session_context env st = (Ok text, st1) /\
    Deps._supabase_client (deps st1) = Some (next_handle st) /\
    Deps._partner_api_client (deps st1) = Deps._partner_api_client (deps st) /\
    trace st1 = (trace st ++ EvCreateClient (next_handle st) :: evs)%list /\
    forallb db_event evs = true.
Proof.
  intros Hs Hc Hp Hn.
  unfold get_session_context, bind, get_deps, try_except, db_execute, supabase,
    bind, get_deps, lift, fresh_handle, emit, update_deps, ret.
  rewrite Hp, Hn, Hs, Hc. cbn.
  destruct (execute env "projects") as [[| project data] | e];
    eexists _, _, [EvExecute "projects"];
    (split; [reflexivity |]); cbn; rewrite <- app_assoc; repeat split; reflexivity.
Qed.

End KeepsDatabase.

(* ===================================================================== *)
(** ** Cleanup (C10) and the guaranteed-cleanup block (C8) *)
(* ===================================================================== *)

Lemma closes_app (h : handle) (a b : list event) :
  closes h (a ++ b) = (closes h a + closes h b)%nat.
Proof.
  induction a as [| ev a IH]; [reflexivity |].
  destruct ev; cbn [closes app]; rewrite ?IH; lia.
Qed.

Lemma cleanups_app (a b : list event) :
  cleanups (a ++ b) = (cleanups a + cleanups b)%nat.
Proof.
  induction a as [| ev a IH]; [reflexivity |].
  destruct ev; cbn [cleanups app]; rewrite ?IH; lia.
Qed.

Lemma db_events_inert (evs : list event) :
  forallb db_event evs = true ->
  cleanups evs = 0%nat /\
  (forall h, closes h evs = 0%nat) /\
  (forall h, ~ In (EvAsyncClient h) evs).
Proof.
  induction evs as [| ev evs IH]; intros H.
  - repeat split; auto.
  - cbn in H. apply andb_true_iff in H as [Hev Hevs].
    destruct (IH Hevs) as (Hc & Hcl & Hin).
    destruct ev as [h0 | h0 | h0 | table |]; try discriminate; cbn;
      repeat split; auto;
      intros h [Heq | Hrest]; try discriminate; eapply Hin; eauto.
Qed.

Lemma cleanup_none (st : state) :
  Deps._partner_api_client (deps st) = None ->
  cleanup st = (Ok tt, mkState (deps st) (trace st ++ [EvCleanup]) (next_handle st)).
Proof.
  intros H. unfold cleanup, bind, emit, get_deps. cbn. rewrite H. reflexivity.
Qed.

Lemma cleanup_some (st : state) (h : handle) :
  Deps._partner_api_client (deps st) = Some h ->
  cleanup st
  = (Ok tt, mkState (Deps.set_partner_api None (deps st))
              (trace st ++ [EvCleanup; EvAclose h]) (next_handle st)).
Proof.
  intros H. unfold cleanup, bind, emit, get_deps, update_deps. cbn. rewrite H. cbn.
  now rewrite <- app_assoc.
Qed.

(** C10.  Cleanup is idempotent.  The first call returns normally and
    leaves the partner HTTP-client handle at [None]; a second call on the
    same context then returns normally, changes nothing in the context and
    closes nothing; over both calls a client is closed once if it was the
    one held, and never otherwise. *)
Theorem cleanup_idempotent (st : state) :
  exists st1 st2,
    cleanup st = (Ok tt, st1) /\
    cleanup st1 = (Ok tt, st2) /\
    Deps._partner_api_client (deps st1) = None /\
    deps st2 = deps st1 /\
    trace st2 = (trace st1 ++ [EvCleanup])%list /\
    (forall h,
       closes h (trace st2)
       = (closes h (trace st)
          + (if decide (Deps._partner_api_client (deps st) = Some h) then 1 else 0))%nat).
Proof.
  destruct (Deps._partner_api_client (deps st)) as [h0 |] eqn:Hp.
  - eexists _, _. split; [apply (cleanup_some st h0 Hp) |].
    split; [apply cleanup_none; reflexivity |].
    cbn. repeat split.
    intros h. rewrite !closes_app. cbn.
    destruct (decide (Some h0 = Some h)) as [Heq | Hne].
    + injection Heq as ->. rewrite Nat.eqb_refl. lia.
    + destruct (Nat.eqb_spec h h0) as [-> | _]; [congruence | lia].
  - eexists _, _. split; [apply (cleanup_none st Hp) |].
    split; [apply cleanup_none; exact Hp |].
    cbn. repeat split; [exact Hp |].
    intros h. rewrite !closes_app. cbn.
    destruct (decide (None = Some h)); [discriminate | lia].
Qed.

(** Acquire the partner client, then clean up twice: one close. *)
Example acquire_cleanup_cleanup :
  trace (snd ((partner_api_client >> cleanup >> cleanup)
                (state_of (deps_of None None None))))
  = [EvAsyncClient 0%nat; EvCleanup; EvAclose 0%nat; EvCleanup].
Proof. reflexivity. Qed.

(** The [try ... finally: await deps.cleanup()] block around a quiet body
    that starts without a partner client: whatever the body returns or
    raises is passed on, and the trace ends with the single cleanup. *)
Lemma finally_cleanup_quiet {R} (m : M R) (st : state) :
  quiet m ->
  Deps._partner_api_client (deps st) = None ->
  exists evs st',
    try_finally m cleanup st = (fst (m st), st') /\
    trace st' = (trace st ++ evs ++ [EvCleanup])%list /\
    forallb db_event evs = true /\
    deps st' = deps (snd (m st)) /\
    Deps._partner_api_client (deps st') = None.
Proof.
  intros Hq Hp. unfold try_finally.
  destruct (Hq st) as (evs & Ht & He & Hk).
  destruct (m st) as [r st1]; cbn [fst snd] in *.
  rewrite Hp in Hk.
  rewrite (cleanup_none st1 Hk).
  eexists evs, _. split; [reflexivity |]. cbn.
  rewrite Ht, <- app_assoc. auto.
Qed.

(** The same block when the context holds the partner client [h]: the
    client is closed exactly once, whether the body returns or raises. *)
Lemma finally_cleanup_closes_held {R} (m : M R) (st : state) (h : handle) :
  quiet m ->
  Deps._partner_api_client (deps st) = Some h ->
  exists st',
    try_finally m cleanup st = (fst (m st), st') /\
    closes h (trace st') = S (closes h (trace st)) /\
    cleanups (trace st') = S (cleanups (trace st)) /\
    Deps._partner_api_client (deps st') = None.
Proof.
  intros Hq Hp. unfold try_finally.
  destruct (Hq st) as (evs & Ht & He & Hk).
  destruct (m st) as [r st1]; cbn [fst snd] in *.
  rewrite Hp in Hk.
  rewrite (cleanup_some st1 h Hk).
  eexists. split; [reflexivity |]. cbn.
  destruct (db_events_inert evs He) as (Hc & Hcl & _).
  rewrite Ht, !closes_app, !cleanups_app, Hc, Hcl. cbn.
  rewrite Nat.eqb_refl. repeat split; lia.
Qed.

Lemma cleaned_up_once_intro (st : state) (evs : list event) :
  trace st = (evs ++ [EvCleanup])%list ->
  forallb db_event evs = true ->
  Deps._partner_api_client (deps st) = None ->
  cleaned_up_once st.
Proof.
  intros Ht He Hp. destruct (db_events_inert evs He) as (Hc & Hcl & Hin).
  unfold cleaned_up_once. rewrite Ht. repeat split.
  - rewrite cleanups_app, Hc. reflexivity.
  - exact Hp.
  - intros h [Hi | Hi]%in_app_or; [destruct (Hin h Hi) |].
    destruct Hi as [Hi | []]; discriminate.
Qed.

(* ===================================================================== *)
(** ** The session orchestrators (C4, C5, C8) *)
(* ===================================================================== *)

Section Orchestrators.
Variable env : Env.

Lemma quiet_brainstorming_guarded llm request :
  quiet (brainstorming_guarded env llm request).
Proof.
  unfold brainstorming_guarded.
  apply quiet_try_except; [| intro; apply quiet_ret].
  apply quiet_bind; [| intro].
  - apply quiet_agent_run. intros [[ic fp] oc].
    apply quiet_brainstorm_project_ideas.
  - apply quiet_bind; [apply quiet_lift | intro].
    apply quiet_bind; [apply quiet_brainstorm_project_ideas | intro; apply quiet_ret].
Qed.

Lemma quiet_partner_search_guarded llm request :
  quiet (partner_search_guarded env llm request).
Proof.
  unfold partner_search_guarded.
  apply quiet_try_except; [| intro; apply quiet_ret].
  apply quiet_bind; [| intro].
  - apply quiet_agent_run. intros [[pf rc] ea].
    apply quiet_discover_erasmus_partners.
  - apply quiet_bind; [apply quiet_lift | intro].
    apply quiet_bind; [apply quiet_discover_erasmus_partners | intro; apply quiet_ret].
Qed.

Lemma quiet_application_writing_guarded llm request :
  quiet (application_writing_guarded env llm request).
Proof.
  unfold application_writing_guarded.
  apply quiet_try_except; [| intro; apply quiet_ret].
  apply quiet_bind; [| intro].
  - apply quiet_agent_run. intros [[sty pc] wl].
    apply quiet_generate_application_section.
  - apply quiet_bind; [apply quiet_lift | intro].
    apply quiet_bind; [apply quiet_generate_application_section | intro; apply quiet_ret].
Qed.

(** The guarded block always ends in a response: the failure response of
    the handler when the agent turn or the [RunContext] constructor raises,
    the response built from the tool result otherwise.  The concept list of
    the response is the empty literal in both. *)
Lemma brainstorming_guarded_returns llm request (st : state) :
  exists resp st',
    brainstorming_guarded env llm request st = (Ok resp, st') /\
    brainstorm_response_ok resp /\
    BrainstormResponse.project_concepts resp = [].
Proof.
  unfold brainstorming_guarded, try_except, bind, lift.
  destruct (agent_run env (brainstorm_tool env) llm st) as [[text | e] st1].
  - destruct (run_context env) as [[] | e].
    + destruct (brainstorm_project_ideas_returns env
                  (BrainstormRequest.initial_concept request)
                  (option_map focus_value (BrainstormRequest.focus_preference request))
                  (BrainstormRequest.organization_context request) st1)
        as [st2 ->].
      eexists _, _. split; [reflexivity |]. split; [left; split |]; reflexivity.
    + eexists _, _. split; [reflexivity |].
      split; [right; repeat split; discriminate | reflexivity].
  - eexists _, _. split; [reflexivity |].
    split; [right; repeat split; discriminate | reflexivity].
Qed.

Lemma partner_search_guarded_returns llm request (st : state) :
  exists resp st',
    partner_search_guarded env llm request st = (Ok resp, st') /\
    partner_response_ok resp /\
    PartnerSearchResponse.potential_partners resp = [].
Proof.
  unfold partner_search_guarded, try_except, bind, lift.
  destruct (agent_run env (partner_discovery_tool env) llm st) as [[text | e] st1].
  - destruct (run_context env) as [[] | e].
    + destruct (partner_search_always_fails env
                  (PartnerSearchRequest.project_focus request)
                  (PartnerSearchRequest.required_countries request)
                  (Some (PartnerSearchRequest.expertise_areas request)) st1)
        as (r & Hrun & Hs & Hp).
      rewrite Hrun. eexists _, _. split; [reflexivity |].
      split; [| reflexivity].
      unfold discover_erasmus_partners in Hrun.
      rewrite (discover_partners_in_fails env mock_partners _ _ _
                 (ValidationError "Partner" "id") st1 eq_refl) in Hrun.
      injection Hrun as <-.
      right. cbn. unfold metadata_blank. cbn.
      repeat split; auto; discriminate.
    + eexists _, _. split; [reflexivity |].
      split; [| reflexivity].
      right. cbn. unfold metadata_blank. cbn. repeat split; auto; discriminate.
  - eexists _, _. split; [reflexivity |].
    split; [| reflexivity].
    right. cbn. unfold metadata_blank. cbn. repeat split; auto; discriminate.
Qed.

Lemma application_writing_guarded_returns llm request (st : state) :
  exists resp st',
    application_writing_guarded env llm request st = (Ok resp, st') /\
    application_response_ok resp /\
    ApplicationContentResponse.generated_content resp = None.
Proof.
  unfold application_writing_guarded, try_except, bind, lift.
  destruct (agent_run env (content_generation_tool env) llm st) as [[text | e] st1].
  - destruct (run_context env) as [[] | e0].
    + destruct (template_content (ApplicationContentRequest.section_type request)
                  (ApplicationContentRequest.project_context request))
        as [template | e] eqn:Ht.
      * destruct (generate_application_section_ok env _ _
                    (ApplicationContentRequest.word_limit request) template st1 Ht)
          as [st2 ->].
        eexists _, _. split; [reflexivity |]. split; [left; split |]; reflexivity.
      * rewrite (generate_application_section_fails env _ _
                   (ApplicationContentRequest.word_limit request) e st1 Ht).
        eexists _, _. split; [reflexivity |].
        split; [right; repeat split; discriminate | reflexivity].
    + eexists _, _. split; [reflexivity |].
      split; [right; repeat split; discriminate | reflexivity].
  - eexists _, _. split; [reflexivity |].
    split; [right; repeat split; discriminate | reflexivity].
Qed.

End Orchestrators.

(** A context built by [from_settings] holds no client yet; running a quiet
    block that always yields a response inside [try ... finally: cleanup]
    completes with that response and a context cleaned up once. *)
Lemma run_with_cleanup {R} (d : Deps.t) (body : M R) (P : R -> Prop) :
  Deps._partner_api_client d = None ->
  quiet body ->
  (forall st, exists resp st', body st = (Ok resp, st') /\ P resp) ->
  exists resp st,
    run_with_deps (Ok d) (try_finally body cleanup) = (Ok resp, Some st) /\
    P resp /\ cleaned_up_once st.
Proof.
  intros Hd Hq Hbody. unfold run_with_deps.
  set (st0 := mkState d [] 0%nat).
  destruct (finally_cleanup_quiet body st0 Hq Hd)
    as (evs & st' & Hrun & Htr & Hev & _ & Hp).
  destruct (Hbody st0) as (resp & st1 & Hb & HP).
  rewrite Hrun, Hb. cbn [fst].
  exists resp, st'. split; [reflexivity |]. split; [exact HP |].
  apply (cleaned_up_once_intro st' evs); assumption.
Qed.

Lemma run_brainstorming_session_completes
    (settings : Settings.t) (cc : outcome unit) (ex : string -> outcome (list row))
    (mkctx : outcome unit) (vtext : string -> string -> string)
    (llm : turn brainstorm_args) (request : BrainstormRequest.t)
    (user_id project_id : option string) :
  exists resp st,
    run_brainstorming_session (configured settings cc ex mkctx vtext) llm request
        user_id project_id = (Ok resp, Some st) /\
    (brainstorm_response_ok resp /\ BrainstormResponse.project_concepts resp = []) /\
    cleaned_up_once st.
Proof.
  unfold run_brainstorming_session, from_settings. cbn [load_settings configured].
  apply run_with_cleanup; [reflexivity | apply quiet_brainstorming_guarded |].
  intros st.
  destruct (brainstorming_guarded_returns (configured settings cc ex mkctx vtext) llm request st)
    as (resp & st' & H1 & H2 & H3).
  exists resp, st'. auto.
Qed.

Lemma run_partner_search_completes
    (settings : Settings.t) (cc : outcome unit) (ex : string -> outcome (list row))
    (mkctx : outcome unit) (vtext : string -> string -> string)
    (llm : turn partner_args) (request : PartnerSearchRequest.t)
    (user_id : option string) :
  exists resp st,
    run_partner_search (configured settings cc ex mkctx vtext) llm request user_id
      = (Ok resp, Some st) /\
    (partner_response_ok resp /\ PartnerSearchResponse.potential_partners resp = []) /\
    cleaned_up_once st.
Proof.
  unfold run_partner_search, from_settings. cbn [load_settings configured].
  apply run_with_cleanup; [reflexivity | apply quiet_partner_search_guarded |].
  intros st.
  destruct (partner_search_guarded_returns (configured settings cc ex mkctx vtext) llm request st)
    as (resp & st' & H1 & H2 & H3).
  exists resp, st'. auto.
Qed.

Lemma run_application_writing_completes
    (settings : Settings.t) (cc : outcome unit) (ex : string -> outcome (list row))
    (mkctx : outcome unit) (vtext : string -> string -> string)
    (llm : turn section_args) (request : ApplicationContentRequest.t)
    (user_id : option string) :
  exists resp st,
    run_application_writing (configured settings cc ex mkctx vtext) llm request user_id
      = (Ok resp, Some st) /\
    (application_response_ok resp
     /\ ApplicationContentResponse.generated_content resp = None) /\
    cleaned_up_once st.
Proof.
  unfold run_application_writing, from_settings. cbn [load_settings configured].
  apply run_with_cleanup; [reflexivity | apply quiet_application_writing_guarded |].
  intros st.
  destruct (application_writing_guarded_returns (configured settings cc ex mkctx vtext) llm request st)
    as (resp & st' & H1 & H2 & H3).
  exists resp, st'. auto.
Qed.

(** When the settings do not load, the orchestrator raises before a
    dependency object exists: there is no response and nothing to clean. *)
Lemma run_without_settings
    (e : exn) (cc : outcome unit) (ex : string -> outcome (list row))
    (mkctx : outcome unit) (vtext : string -> string -> string)
    (llm : turn brainstorm_args) (request : BrainstormRequest.t)
    (user_id project_id : option string) :
  run_brainstorming_session (mkEnv (Raise e) cc ex mkctx vtext) llm request user_id project_id
  = (Raise e, None).
Proof. reflexivity. Qed.

(** The tools obey the same rule as the responses. *)
Lemma tool_results_ok (env : Env) (st : state) :
  (forall ic fp oc, exists r st',
     brainstorm_project_ideas env ic fp oc st = (Ok r, st') /\ brainstorm_result_ok r) /\
  (forall pf rc ea, exists r st',
     discover_erasmus_partners env pf rc ea st = (Ok r, st') /\ partner_result_ok r) /\
  (forall sty pc wl, exists r st',
     generate_application_section env sty pc wl st = (Ok r, st') /\ section_result_ok r).
Proof.
  repeat split.
  - intros ic fp oc.
    destruct (brainstorm_project_ideas_returns env ic fp oc st) as [st' ->].
    eexists _, _. split; [reflexivity |]. left; split; reflexivity.
  - intros pf rc ea.
    unfold discover_erasmus_partners.
    rewrite (discover_partners_in_fails env mock_partners pf rc ea
               (ValidationError "Partner" "id") st eq_refl).
    eexists _, _. split; [reflexivity |].
    right. cbn. unfold metadata_blank. cbn. repeat split; auto; discriminate.
  - intros sty pc wl.
    destruct (template_content sty pc) as [template | e] eqn:Ht.
    + destruct (generate_application_section_ok env sty pc wl template st Ht)
        as [st' ->].
      eexists _, _. split; [reflexivity |]. left; split; reflexivity.
    + rewrite (generate_application_section_fails env sty pc wl e st Ht).
      eexists _, _. split; [reflexivity |].
      right. repeat split; discriminate.
Qed.

(** C5.  In a process whose settings load, every request to each of the
    three capabilities, under every behaviour of the language model and of
    the database, ends in a response, and the response satisfies exactly
    one of: [success] true with no [error]; or [success] false with an
    [error] text and an empty payload.  The tool functions obey the same
    rule. *)
Theorem success_excludes_error
    (settings : Settings.t) (cc : outcome unit) (ex : string -> outcome (list row))
    (mkctx : outcome unit) (vtext : string -> string -> string) :
  (forall llm request user_id project_id, exists resp st,
     run_brainstorming_session (configured settings cc ex mkctx vtext) llm request
         user_id project_id = (Ok resp, Some st) /\
     brainstorm_response_ok resp) /\
  (forall llm request user_id, exists resp st,
     run_partner_search (configured settings cc ex mkctx vtext) llm request user_id
       = (Ok resp, Some st) /\
     partner_response_ok resp) /\
  (forall llm request user_id, exists resp st,
     run_application_writing (configured settings cc ex mkctx vtext) llm request user_id
       = (Ok resp, Some st) /\
     application_response_ok resp) /\
  (forall st ic fp oc, exists r st',
     brainstorm_project_ideas (configured settings cc ex mkctx vtext) ic fp oc st = (Ok r, st')
     /\ brainstorm_result_ok r) /\
  (forall st pf rc ea, exists r st',
     discover_erasmus_partners (configured settings cc ex mkctx vtext) pf rc ea st = (Ok r, st')
     /\ partner_result_ok r) /\
  (forall st sty pc wl, exists r st',
     generate_application_section (configured settings cc ex mkctx vtext) sty pc wl st = (Ok r, st')
     /\ section_result_ok r).
Proof.
  split; [| split; [| split; [| split; [| split]]]].
  - intros llm request user_id project_id.
    destruct (run_brainstorming_session_completes settings cc ex mkctx vtext llm request
                user_id project_id) as (resp & st & Hrun & [Hok _] & _).
    exists resp, st. auto.
  - intros llm request user_id.
    destruct (run_partner_search_completes settings cc ex mkctx vtext llm request user_id)
      as (resp & st & Hrun & [Hok _] & _).
    exists resp, st. auto.
  - intros llm request user_id.
    destruct (run_application_writing_completes settings cc ex mkctx vtext llm request user_id)
      as (resp & st & Hrun & [Hok _] & _).
    exists resp, st. auto.
  - intros st. apply (tool_results_ok (configured settings cc ex mkctx vtext) st).
  - intros st. apply (tool_results_ok (configured settings cc ex mkctx vtext) st).
  - intros st. apply (tool_results_ok (configured settings cc ex mkctx vtext) st).
Qed.

(** The two alternatives of the rule cannot hold together. *)
Lemma brainstorm_response_ok_exclusive (r : BrainstormResponse.t) :
  brainstorm_response_ok r ->
  (BrainstormResponse.success r = true <-> BrainstormResponse.error r = None).
Proof.
  intros [[Hs He] | (Hs & He & _)]; split; intros H; congruence.
Qed.

(** A database client that the context holds when the guaranteed-cleanup
    block starts is still held when the block ends: the cleanup runs, and
    nothing releases the client. *)
Lemma held_database_client_survives {R} (m : M R) (st : state) (h : handle) :
  quiet m -> keeps_database m ->
  Deps._supabase_client (deps st) = Some h ->
  Deps._partner_api_client (deps st) = None ->
  exists evs st',
    try_finally m cleanup st = (fst (m st), st') /\
    Deps._supabase_client (deps st') = Some h /\
    trace st' = (trace st ++ evs ++ [EvCleanup])%list /\
    forallb db_event evs = true.
Proof.
  intros Hq Hk Hs Hp.
  destruct (finally_cleanup_quiet m st Hq Hp) as (evs & st' & Hrun & Htr & Hev & Hd & _).
  exists evs, st'. repeat split; try assumption.
  rewrite Hd. apply Hk, Hs.
Qed.

(** An orchestrator body whose agent turn reaches the session context, on a
    fresh context with a project identifier: the database client is created
    during the call, is still held at completion, and no event of the call
    releases it, although the cleanup has run. *)
Lemma call_leaves_database_client {Args R Resp}
    (env : Env) (settings : Settings.t) (tool : Args -> M R)
    (calls : list Args) (final : outcome string)
    (rest : M Resp) (handler : exn -> M Resp) (d : Deps.t) :
  load_settings env = Ok settings ->
  create_client env = Ok tt ->
  truthy_str (Deps.project_id d) = true ->
  Deps._supabase_client d = None ->
  Deps._partner_api_client d = None ->
  (forall a, quiet (tool a)) -> (forall a, keeps_database (tool a)) ->
  quiet rest -> keeps_database rest ->
  (forall e, quiet (handler e)) -> (forall e, keeps_database (handler e)) ->
  exists r st,
    run_with_deps (Ok d)
      (try_finally
         (try_except (agent_run env tool (TurnRuns calls final) >> rest) handler)
         cleanup)
    = (r, Some st) /\
    In (EvCreateClient 0%nat) (trace st) /\
    Deps._supabase_client (deps st) = Some 0%nat /\
    closes 0%nat (trace st) = 0%nat /\
    cleanups (trace st) = 1%nat.
Proof.
  intros Hs Hc Hp Hn Hpa Hqt Hkt Hqr Hkr Hqh Hkh.
  unfold run_with_deps. set (st0 := mkState d [] 0%nat).
  destruct (session_context_opens_database env settings st0 Hs Hc Hp Hn)
    as (text & st1 & evs1 & Hctx & Hdb & Hpart & Htr1 & Hev1).
  set (m := try_except
              ((for_each (fun args => tool args >> ret tt) calls >> lift final) >> rest)
              handler).
  assert (Hstep :
    try_finally
      (try_except (agent_run env tool (TurnRuns calls final) >> rest) handler)
      cleanup st0
    = try_finally m cleanup st1).
  { unfold try_finally, try_except, m. cbn [agent_run]. unfold bind at 1 2.
    rewrite Hctx. reflexivity. }
  rewrite Hstep.
  assert (Hq : quiet m).
  { apply quiet_try_except; [| exact Hqh].
    apply quiet_bind; [| intro; exact Hqr].
    apply quiet_bind; [| intro; apply quiet_lift].
    apply quiet_for_each. intro args.
    apply quiet_bind; [apply Hqt | intro; apply quiet_ret]. }
  assert (Hk : keeps_database m).
  { apply keeps_try_except; [| exact Hkh].
    apply keeps_bind; [| intro; exact Hkr].
    apply keeps_bind; [| intro; apply keeps_lift].
    apply keeps_for_each. intro args.
    apply keeps_bind; [apply Hkt | intro; apply keeps_ret]. }
  destruct (held_database_client_survives m st1 0%nat Hq Hk Hdb)
    as (evs2 & st2 & Hrun & Hdb2 & Htr2 & Hev2).
  { rewrite Hpart. exact Hpa. }
  rewrite Hrun. eexists _, st2. split; [reflexivity |].
  rewrite Htr2, Htr1. cbn [trace st0 app next_handle].
  destruct (db_events_inert evs1 Hev1) as (Hc1 & Hcl1 & _).
  destruct (db_events_inert evs2 Hev2) as (Hc2 & Hcl2 & _).
  repeat split.
  - left. reflexivity.
  - exact Hdb2.
  - cbn [closes]. rewrite !closes_app, Hcl1, Hcl2. reflexivity.
  - cbn [cleanups]. rewrite !cleanups_app, Hc1, Hc2. reflexivity.
Qed.

Ltac use_call_leaves_database_client settings calls final Hrun :=
  match type of Hrun with
  | run_with_deps (Ok ?d)
      (try_finally
         (try_except (bind (agent_run ?env ?tool _) (fun _ => ?rest)) ?handler)
         cleanup) = _ =>
      let r := fresh "r" in
      let st' := fresh "st'" in
      let Hrun' := fresh "Hrun'" in
      let Hfacts := fresh "Hfacts" in
      destruct (call_leaves_database_client env settings tool calls final
                  rest handler d) as (r & st' & Hrun' & Hfacts);
      [..| rewrite Hrun in Hrun'; injection Hrun' as _ <-; exact Hfacts];
      try reflexivity
  end.

(** C8 fails for the database client.  In a process whose settings load
    and whose database accepts connections, take any call of one of the
    three orchestrators for a project (a non-empty project identifier) in
    which the agent turn gets as far as assembling its system prompt,
    whatever the model, the tools, the queries and the [RunContext]
    constructor then do, by returning or by raising.  The call completes
    with a response and [deps.cleanup()] has run exactly once; but the
    Supabase client created during the call is still held by the context at
    completion and was released zero times: cleanup only looks at the
    partner HTTP client. *)
Theorem database_client_is_not_released
    (settings : Settings.t) (ex : string -> outcome (list row))
    (mkctx : outcome unit) (vtext : string -> string -> string) :
  (forall calls final request user_id c project,
     exists resp st h,
       run_brainstorming_session (configured settings (Ok tt) ex mkctx vtext) (TurnRuns calls final) request
         user_id (Some (String c project)) = (Ok resp, Some st) /\
       In (EvCreateClient h) (trace st) /\
       Deps._supabase_client (deps st) = Some h /\
       closes h (trace st) = 0%nat /\
       cleanups (trace st) = 1%nat) /\
  (forall calls final project_focus required_countries expertise_areas user_id c project,
     exists resp st h,
       run_partner_search (configured settings (Ok tt) ex mkctx vtext) (TurnRuns calls final)
         (PartnerSearchRequest.mk project_focus required_countries expertise_areas
            (Some (String c project)))
         user_id = (Ok resp, Some st) /\
       In (EvCreateClient h) (trace st) /\
       Deps._supabase_client (deps st) = Some h /\
       closes h (trace st) = 0%nat /\
       cleanups (trace st) = 1%nat) /\
  (forall calls final section_type project_context word_limit user_id c project,
     exists resp st h,
       run_application_writing (configured settings (Ok tt) ex mkctx vtext) (TurnRuns calls final)
         (ApplicationContentRequest.mk section_type project_context word_limit
            (Some (String c project)))
         user_id = (Ok resp, Some st) /\
       In (EvCreateClient h) (trace st) /\
       Deps._supabase_client (deps st) = Some h /\
       closes h (trace st) = 0%nat /\
       cleanups (trace st) = 1%nat).
Proof.
  split; [| split].
  - intros calls final request user_id c project.
    destruct (run_brainstorming_session_completes settings (Ok tt) ex mkctx vtext
                (TurnRuns calls final) request user_id (Some (String c project)))
      as (resp & st & Hrun & _ & _).
    exists resp, st, 0%nat. split; [exact Hrun |].
    unfold run_brainstorming_session, from_settings, brainstorming_guarded in Hrun.
    cbn [load_settings configured] in Hrun.
    use_call_leaves_database_client settings calls final Hrun.
    + intros [[ic fp] oc]. apply quiet_brainstorm_project_ideas.
    + intros [[ic fp] oc]. apply keeps_brainstorm_project_ideas.
    + apply quiet_bind; [apply quiet_lift | intro].
      apply quiet_bind; [apply quiet_brainstorm_project_ideas | intro; apply quiet_ret].
    + apply keeps_bind; [apply keeps_lift | intro].
      apply keeps_bind; [apply keeps_brainstorm_project_ideas | intro; apply keeps_ret].
    + intro; apply quiet_ret.
    + intro; apply keeps_ret.
  - intros calls final project_focus required_countries expertise_areas user_id c project.
    destruct (run_partner_search_completes settings (Ok tt) ex mkctx vtext
                (TurnRuns calls final)
                (PartnerSearchRequest.mk project_focus required_countries expertise_areas
                   (Some (String c project))) user_id)
      as (resp & st & Hrun & _ & _).
    exists resp, st, 0%nat. split; [exact Hrun |].
    unfold run_partner_search, from_settings, partner_search_guarded in Hrun.
    cbn [load_settings configured PartnerSearchRequest.project_id] in Hrun.
    use_call_leaves_database_client settings calls final Hrun.
    + intros [[pf rc] ea]. apply quiet_discover_erasmus_partners.
    + intros [[pf rc] ea]. apply keeps_discover_erasmus_partners.
    + apply quiet_bind; [apply quiet_lift | intro].
      apply quiet_bind; [apply quiet_discover_erasmus_partners | intro; apply quiet_ret].
    + apply keeps_bind; [apply keeps_lift | intro].
      apply keeps_bind; [apply keeps_discover_erasmus_partners | intro; apply keeps_ret].
    + intro; apply quiet_ret.
    + intro; apply keeps_ret.
  - intros calls final section_type project_context word_limit user_id c project.
    destruct (run_application_writing_completes settings (Ok tt) ex mkctx vtext
                (TurnRuns calls final)
                (ApplicationContentRequest.mk section_type project_context word_limit
                   (Some (String c project))) user_id)
      as (resp & st & Hrun & _ & _).
    exists resp, st, 0%nat. split; [exact Hrun |].
    unfold run_application_writing, from_settings, application_writing_guarded in Hrun.
    cbn [load_settings configured ApplicationContentRequest.project_id] in Hrun.
    use_call_leaves_database_client settings calls final Hrun.
    + intros [[sty pc] wl]. apply quiet_generate_application_section.
    + intros [[sty pc] wl]. apply keeps_generate_application_section.
    + apply quiet_bind; [apply quiet_lift | intro].
      apply quiet_bind; [apply quiet_generate_application_section
                        | intro; apply quiet_ret].
    + apply keeps_bind; [apply keeps_lift | intro].
      apply keeps_bind; [apply keeps_generate_application_section
                        | intro; apply keeps_ret].
    + intro; apply quiet_ret.
    + intro; apply keeps_ret.
Qed.

(** The scenario's brainstorming request sent for project "project-1":
    the trace of the whole call, and the client it leaves behind. *)
Example scenario_call_leaves_database_client :
  exists resp st,
    run_brainstorming_session quiet_env plain_turn scenario_brainstorm_request
        None (Some "project-1") = (Ok resp, Some st) /\
    BrainstormResponse.success resp = true /\
    trace st = [EvCreateClient 0%nat; EvExecute "projects"; EvExecute "projects";
                EvCleanup] /\
    Deps._supabase_client (deps st) = Some 0%nat /\
    Deps._partner_api_client (deps st) = None.
Proof.
  eexists _, _. split; [vm_compute; reflexivity |].
  cbn. repeat split.
Qed.

(** The same call where the [RunContext] constructor raises: the response
    is the failure response with the constructor's text, the direct tool
    call is not reached, and the client is left behind all the same. *)
Example scenario_call_with_strict_context :
  exists st,
    run_brainstorming_session strict_context_env plain_turn scenario_brainstorm_request
        None (Some "project-1")
    = (Ok (BrainstormResponse.mk false [] []
             (Some "Brainstorming session failed: missing required arguments")),
       Some st) /\
    trace st = [EvCreateClient 0%nat; EvExecute "projects"; EvCleanup] /\
    Deps._supabase_client (deps st) = Some 0%nat.
Proof.
  eexists. split; [vm_compute; reflexivity |].
  cbn. repeat split.
Qed.

(** C4 at the scenario's input.  The tool function returns the Digital
    Transformation concept with feasibility score 8 as its first concept,
    but the response of [run_brainstorming_session] is built with the empty
    list literal for [project_concepts], so the concept never reaches the
    caller. *)
Theorem scenario_concept_is_dropped
    (settings : Settings.t) (cc : outcome unit) (ex : string -> outcome (list row))
    (mkctx : outcome unit) (vtext : string -> string -> string)
    (llm : turn brainstorm_args) (user_id project_id : option string) :
  (forall st, exists st',
     brainstorm_project_ideas (configured settings cc ex mkctx vtext)
       "teach young people programming skills" (Some "Digital Transformation")
       "Swedish NGO" st
     = (Ok (BrainstormResult.mk true
              [digital_concept "Swedish NGO" "teach young people programming skills"]
              brainstorm_next_steps None), st')) /\
  ProjectConcept.focus_area
    (digital_concept "Swedish NGO" "teach young people programming skills")
    = DIGITAL_TRANSFORMATION /\
  ProjectConcept.feasibility_score
    (digital_concept "Swedish NGO" "teach young people programming skills") = 8 /\
  (exists resp st,
     run_brainstorming_session (configured settings cc ex mkctx vtext) llm
       scenario_brainstorm_request user_id project_id = (Ok resp, Some st) /\
     BrainstormResponse.project_concepts resp = []).
Proof.
  split; [| split; [reflexivity | split; [reflexivity |]]].
  - intros st.
    destruct (brainstorm_project_ideas_returns (configured settings cc ex mkctx vtext)
                "teach young people programming skills"
                (Some "Digital Transformation") "Swedish NGO" st) as [st' ->].
    exists st'. reflexivity.
  - destruct (run_brainstorming_session_completes settings cc ex mkctx vtext llm
                scenario_brainstorm_request user_id project_id)
      as (resp & st & Hrun & [_ Hpc] & _).
    exists resp, st. auto.
Qed.


(* ===================================================================== *)
(** ** Partner discovery: what the filter loop guarantees *)
(* ===================================================================== *)

Section PartnerFilter.
Variable project_focus : string.
Variables required_countries expertise_areas : option (list string).

Lemma str_in_In (x : string) (l : list string) : str_in x l = true <-> In x l.
Proof.
  unfold str_in. rewrite existsb_exists. split.
  - intros (y & Hy & Heq). apply String.eqb_eq in Heq. now subst.
  - intros H. exists x. split; [exact H | apply String.eqb_refl].
Qed.

Lemma partner_init_ok (k : Partner.kwargs) (p : Partner.t) :
  Partner.init k = Ok p ->
  Partner.kw_name k = Some (Partner.name p) /\
  Partner.kw_country k = Some (Partner.country p) /\
  Partner.kw_compatibility_score k = Partner.compatibility_score p /\
  Partner.score_in_range (Partner.compatibility_score p) = true.
Proof.
  unfold Partner.init.
  destruct (Partner.kw_id k); [| discriminate].
  destruct (Partner.kw_name k); [| discriminate].
  destruct (Partner.kw_country k); [| discriminate].
  destruct (Partner.kw_organization_type k); [| discriminate].
  destruct (Partner.score_in_range (Partner.kw_compatibility_score k)) eqn:Hs;
    [| discriminate].
  intros [= <-]. cbn. auto.
Qed.

(** What one iteration that appends a partner has checked and done. *)
Lemma visit_partner_some (k : Partner.kwargs) (p : Partner.t) :
  visit_partner project_focus required_countries expertise_areas k = Ok (Some p) ->
  exists partner,
    Partner.init k = Ok partner /\
    (truthy_list required_countries
     && negb (str_in (Partner.country partner) (default [] required_countries)) = false) /\
    (truthy_list expertise_areas
     && negb (expertise_match (default [] expertise_areas) partner) = false) /\
    Partner.name p = Partner.name partner /\
    Partner.country p = Partner.country partner /\
    Partner.expertise_areas p = Partner.expertise_areas partner /\
    (if focus_matches project_focus partner
     then exists n, Partner.compatibility_score partner = Some n
                    /\ Partner.compatibility_score p = Some (Z.min 10 (n + 1))
     else p = partner).
Proof.
  unfold visit_partner, focus_matches.
  destruct (Partner.init k) as [partner | e]; [| discriminate].
  destruct (truthy_list required_countries
            && negb (str_in (Partner.country partner) (default [] required_countries)))
    eqn:Hc; [discriminate |].
  destruct (truthy_list expertise_areas
            && negb (expertise_match (default [] expertise_areas) partner))
    eqn:He; [discriminate |].
  destruct (str_in (Py.lower project_focus)
              (map Py.lower (Partner.expertise_areas partner))) eqn:Hf.
  - destruct (Partner.compatibility_score partner) as [n |] eqn:Hn; cbn;
      [| discriminate].
    intros [= <-]. exists partner. cbn. rewrite Hf.
    repeat split; eauto.
  - intros [= <-]. exists partner. rewrite Hf. repeat split; auto.
Qed.

Lemma filter_loop_invariant (P : Partner.t -> Prop) :
  (forall k p,
     visit_partner project_focus required_countries expertise_areas k = Ok (Some p) ->
     P p) ->
  forall pool acc found,
    filter_loop project_focus required_countries expertise_areas pool acc = Ok found ->
    Forall P acc -> Forall P found.
Proof.
  intros Hv. induction pool as [| k pool IH]; intros acc found Hrun Hacc;
    cbn [filter_loop] in Hrun.
  - injection Hrun as <-. exact Hacc.
  - destruct (visit_partner project_focus required_countries expertise_areas k)
      as [[p |] | e] eqn:Hk; [| | discriminate].
    + apply (IH _ _ Hrun). apply Forall_app. split; [exact Hacc |].
      constructor; [eapply Hv; eauto | constructor].
    + apply (IH _ _ Hrun Hacc).
Qed.

(** Whatever holds of every appended partner holds of every returned one. *)
Lemma discover_partners_in_invariant (P : Partner.t -> Prop)
    (pool : list Partner.kwargs) (env : Env) (st : state) :
  (forall k p,
     visit_partner project_focus required_countries expertise_areas k = Ok (Some p) ->
     P p) ->
  exists r st',
    discover_partners_in pool env project_focus required_countries expertise_areas st
      = (Ok r, st') /\
    Forall P (PartnerSearchResult.potential_partners r).
Proof.
  intros Hv.
  destruct (filter_loop project_focus required_countries expertise_areas pool [])
    as [found | e] eqn:Hf.
  - destruct (discover_partners_in_ok env pool project_focus required_countries
                expertise_areas found st Hf) as [st' Hrun].
    eexists _, st'. split; [exact Hrun |]. cbn.
    eapply filter_loop_invariant; eauto.
  - eexists _, st. split.
    + apply discover_partners_in_fails, Hf.
    + constructor.
Qed.

End PartnerFilter.

(** X1.  With a non-empty list of required countries, every partner the
    search returns has its country in that list. *)
Theorem country_filter_is_strict
    (pool : list Partner.kwargs) (env : Env) (project_focus : string)
    (countries : list string) (expertise_areas : option (list string)) (st : state) :
  countries <> [] ->
  exists r st',
    discover_partners_in pool env project_focus (Some countries) expertise_areas st
      = (Ok r, st') /\
    Forall (fun p => In (Partner.country p) countries)
      (PartnerSearchResult.potential_partners r).
Proof.
  intros Hne.
  apply discover_partners_in_invariant.
  intros k p Hv.
  destruct (visit_partner_some _ _ _ k p Hv) as (partner & _ & Hc & _ & _ & Hco & _).
  destruct countries as [| c cs]; [congruence |].
  cbn [truthy_list default andb] in Hc.
  apply negb_false_iff, str_in_In in Hc. now rewrite Hco.
Qed.

Lemma country_filter_is_strict_witness :
  exists r st',
    discover_partners_in mock_partners_with_ids quiet_env "digital skills"
        (Some ["Germany"; "Netherlands"]) None (state_of (deps_of None None None))
      = (Ok r, st') /\
    Forall (fun p => In (Partner.country p) ["Germany"; "Netherlands"])
      (PartnerSearchResult.potential_partners r) /\
    length (PartnerSearchResult.potential_partners r) = 2%nat.
Proof.
  destruct (country_filter_is_strict mock_partners_with_ids quiet_env "digital skills"
              ["Germany"; "Netherlands"] None (state_of (deps_of None None None)))
    as (r & st' & Hrun & Hall).
  - discriminate.
  - exists r, st'. repeat split; [exact Hrun | exact Hall |].
    vm_compute in Hrun. injection Hrun as <- _. reflexivity.
Defined.

(** X2.  With a non-empty list of requested expertise areas, every partner
    the search returns has an expertise tag equal, up to case, to one of
    the requested areas. *)
Theorem expertise_filter_is_strict
    (pool : list Partner.kwargs) (env : Env) (project_focus : string)
    (required_countries : option (list string)) (areas : list string) (st : state) :
  areas <> [] ->
  exists r st',
    discover_partners_in pool env project_focus required_countries (Some areas) st
      = (Ok r, st') /\
    Forall (shares_expertise areas) (PartnerSearchResult.potential_partners r).
Proof.
  intros Hne.
  apply discover_partners_in_invariant.
  intros k p Hv.
  destruct (visit_partner_some _ _ _ k p Hv) as (partner & _ & _ & He & _ & _ & Hex & _).
  destruct areas as [| a0 areas0]; [congruence |].
  cbn [truthy_list default andb] in He.
  apply negb_false_iff in He. unfold expertise_match in He.
  apply existsb_exists in He as (area & Harea & Hin).
  apply str_in_In, in_map_iff in Hin as (tag & Htag & Hin).
  exists area, tag. rewrite Hex. auto.
Qed.

Lemma expertise_filter_is_strict_witness :
  exists r st',
    discover_partners_in mock_partners_with_ids quiet_env "environmental education"
        None (Some ["environmental education"; "SUSTAINABILITY"])
        (state_of (deps_of None None None))
      = (Ok r, st') /\
    Forall (shares_expertise ["environmental education"; "SUSTAINABILITY"])
      (PartnerSearchResult.potential_partners r) /\
    map Partner.name (PartnerSearchResult.potential_partners r)
      = ["Green Action Network"].
Proof.
  destruct (expertise_filter_is_strict mock_partners_with_ids quiet_env
              "environmental education" None
              ["environmental education"; "SUSTAINABILITY"]
              (state_of (deps_of None None None)))
    as (r & st' & Hrun & Hall).
  - discriminate.
  - exists r, st'. repeat split; [exact Hrun | exact Hall |].
    vm_compute in Hrun. injection Hrun as <- _. reflexivity.
Defined.

(** X3.  Every returned partner that has a compatibility score has it
    within 1..10, and at least 2 when the project focus equals one of its
    expertise tags up to case (the boost, capped at 10); a returned partner
    without a score is one whose tags do not match the focus. *)
Theorem compatibility_scores_stay_in_range
    (pool : list Partner.kwargs) (env : Env) (project_focus : string)
    (required_countries expertise_areas : option (list string)) (st : state) :
  exists r st',
    discover_partners_in pool env project_focus required_countries expertise_areas st
      = (Ok r, st') /\
    Forall (score_within_bounds project_focus)
      (PartnerSearchResult.potential_partners r).
Proof.
  apply discover_partners_in_invariant.
  intros k p Hv.
  destruct (visit_partner_some _ _ _ k p Hv)
    as (partner & Hinit & _ & _ & _ & _ & Hex & Hscore).
  destruct (partner_init_ok k partner Hinit) as (_ & _ & _ & Hrange).
  unfold score_within_bounds.
  assert (Hfm : focus_matches project_focus p = focus_matches project_focus partner).
  { unfold focus_matches. now rewrite Hex. }
  rewrite Hfm.
  destruct (focus_matches project_focus partner) eqn:Hf.
  - destruct Hscore as (n & Hn & ->).
    rewrite Hn in Hrange. cbn in Hrange.
    apply andb_true_iff in Hrange as [H1 H2].
    apply Z.leb_le in H1, H2. lia.
  - subst p. destruct (Partner.compatibility_score partner) as [n |]; [| reflexivity].
    cbn in Hrange. apply andb_true_iff in Hrange as [H1 H2].
    apply Z.leb_le in H1, H2. lia.
Qed.

Section ScoredPool.
Variable project_focus : string.
Variables required_countries expertise_areas : option (list string).

Lemma visit_scored_candidate (k : Partner.kwargs) :
  scored_candidate k ->
  exists o,
    visit_partner project_focus required_countries expertise_areas k = Ok o /\
    (truthy_list required_countries = false ->
     truthy_list expertise_areas = false ->
     exists p, o = Some p /\ Partner.kw_name k = Some (Partner.name p)).
Proof.
  intros (partner & n & Hinit & Hn).
  destruct (partner_init_ok k partner Hinit) as (Hname & _).
  unfold visit_partner. rewrite Hinit, Hn. cbn [boosted_score].
  destruct (truthy_list required_countries) eqn:Hrc; cbn [andb].
  - destruct (negb (str_in (Partner.country partner) (default [] required_countries))).
    + eexists. split; [reflexivity | discriminate].
    + destruct (truthy_list expertise_areas
                && negb (expertise_match (default [] expertise_areas) partner));
        [eexists; split; [reflexivity | discriminate] |].
      destruct (str_in (Py.lower project_focus)
                  (map Py.lower (Partner.expertise_areas partner)));
        eexists; (split; [reflexivity | discriminate]).
  - destruct (truthy_list expertise_areas) eqn:Hea; cbn [andb].
    + destruct (negb (expertise_match (default [] expertise_areas) partner)).
      * eexists. split; [reflexivity | discriminate].
      * destruct (str_in (Py.lower project_focus)
                    (map Py.lower (Partner.expertise_areas partner)));
          eexists; (split; [reflexivity | discriminate]).
    + destruct (str_in (Py.lower project_focus)
                  (map Py.lower (Partner.expertise_areas partner)));
        eexists; (split; [reflexivity |]); intros _ _;
        eexists; (split; [reflexivity | exact Hname]).
Qed.

Lemma filter_loop_scored (pool : list Partner.kwargs) :
  Forall scored_candidate pool ->
  forall acc, exists found,
    filter_loop project_focus required_countries expertise_areas pool acc = Ok found /\
    (truthy_list required_countries = false ->
     truthy_list expertise_areas = false ->
     map Partner.name found
     = (map Partner.name acc ++ omap Partner.kw_name pool)%list).
Proof.
  induction 1 as [| k pool Hk Hpool IH]; intros acc; cbn [filter_loop].
  - exists acc. split; [reflexivity |]. intros _ _. cbn. now rewrite app_nil_r.
  - destruct (visit_scored_candidate k Hk) as (o & Hv & Hall).
    rewrite Hv. destruct o as [p |].
    + destruct (IH (acc ++ [p])%list) as (found & Hrun & Hnames).
      exists found. split; [exact Hrun |].
      intros Hrc Hea. rewrite (Hnames Hrc Hea).
      destruct (Hall Hrc Hea) as (p' & [= <-] & Hname).
      change (omap Partner.kw_name (k :: pool))
        with (match Partner.kw_name k with
              | Some y => y :: omap Partner.kw_name pool
              | None => omap Partner.kw_name pool
              end).
      rewrite Hname, map_app. cbn [map]. now rewrite <- app_assoc.
    + destruct (IH acc) as (found & Hrun & Hnames).
      exists found. split; [exact Hrun |].
      intros Hrc Hea. destruct (Hall Hrc Hea) as (p' & Habs & _). discriminate.
Qed.

End ScoredPool.

(** X4.  When every candidate of the pool is accepted by [Partner] and
    carries a compatibility score, the search succeeds whatever the focus
    and the filters are (an empty result is a success, not an error); and
    when neither filter is given, or both are empty lists, every candidate
    is returned, in the order of the pool. *)
Theorem scored_pool_never_fails
    (pool : list Partner.kwargs) (env : Env) (project_focus : string)
    (required_countries expertise_areas : option (list string)) (st : state) :
  Forall scored_candidate pool ->
  exists r st',
    discover_partners_in pool env project_focus required_countries expertise_areas st
      = (Ok r, st') /\
    PartnerSearchResult.success r = true /\
    PartnerSearchResult.error r = None /\
    (truthy_list required_countries = false ->
     truthy_list expertise_areas = false ->
     map Partner.name (PartnerSearchResult.potential_partners r)
     = omap Partner.kw_name pool).
Proof.
  intros Hpool.
  destruct (filter_loop_scored project_focus required_countries expertise_areas
              pool Hpool []) as (found & Hf & Hnames).
  destruct (discover_partners_in_ok env pool project_focus required_countries
              expertise_areas found st Hf) as [st' Hrun].
  eexists _, st'. split; [exact Hrun |]. cbn.
  repeat split. exact Hnames.
Qed.

Lemma mock_partners_with_ids_scored : Forall scored_candidate mock_partners_with_ids.
Proof.
  repeat constructor; eexists _, _; split; vm_compute; reflexivity.
Defined.

Lemma scored_pool_never_fails_witness :
  exists r st',
    discover_partners_in mock_partners_with_ids quiet_env "robotics"
        (Some ["Atlantis"]) (Some []) (state_of (deps_of None None None))
      = (Ok r, st') /\
    PartnerSearchResult.success r = true /\
    PartnerSearchResult.potential_partners r = [] /\
    (exists r0 st0,
       discover_partners_in mock_partners_with_ids quiet_env "robotics"
           None (Some []) (state_of (deps_of None None None))
         = (Ok r0, st0) /\
       map Partner.name (PartnerSearchResult.potential_partners r0)
       = ["Digital Youth Foundation"; "Green Action Network";
          "Inclusion Works"; "Innovation Academy"]).
Proof.
  destruct (scored_pool_never_fails mock_partners_with_ids quiet_env "robotics"
              (Some ["Atlantis"]) (Some []) (state_of (deps_of None None None))
              mock_partners_with_ids_scored)
    as (r & st' & Hrun & Hs & _ & _).
  destruct (scored_pool_never_fails mock_partners_with_ids quiet_env "robotics"
              None (Some []) (state_of (deps_of None None None))
              mock_partners_with_ids_scored)
    as (r0 & st0 & Hrun0 & _ & _ & Hall).
  exists r, st'. repeat split; [exact Hrun | exact Hs | |].
  - vm_compute in Hrun. injection Hrun as <- _. reflexivity.
  - exists r0, st0. split; [exact Hrun0 |].
    rewrite Hall by reflexivity. reflexivity.
Defined.

(** X5.  The metadata of a search result agrees with its partner list: on
    success [total_found] is the number of returned partners,
    [search_focus] is the requested focus and [countries_covered] lists,
    without repetition, exactly the countries of the returned partners; on
    failure no partner is returned and the metadata is the zero summary. *)
Theorem search_metadata_matches_partners
    (pool : list Partner.kwargs) (env : Env) (project_focus : string)
    (required_countries expertise_areas : option (list string)) (st : state) :
  exists r st',
    discover_partners_in pool env project_focus required_countries expertise_areas st
      = (Ok r, st') /\
    let partners := PartnerSearchResult.potential_partners r in
    let meta := PartnerSearchResult.search_metadata r in
    if PartnerSearchResult.success r
    then SearchMetadata.total_found meta = Some (Z.of_nat (length partners)) /\
         SearchMetadata.search_focus meta = Some project_focus /\
         exists cs,
           SearchMetadata.countries_covered meta = Some cs /\
           NoDup cs /\
           (forall c, In c cs <-> In c (map Partner.country partners))
    else partners = [] /\
         SearchMetadata.total_found meta = Some 0 /\
         SearchMetadata.countries_covered meta = Some [].
Proof.
  destruct (filter_loop project_focus required_countries expertise_areas pool [])
    as [found | e] eqn:Hf.
  - destruct (discover_partners_in_ok env pool project_focus required_countries
                expertise_areas found st Hf) as [st' Hrun].
    eexists _, st'. split; [exact Hrun |]. cbn.
    repeat split. eexists. split; [reflexivity |].
    unfold countries_covered_of. split.
    + apply (NoDup_elements (C := gset string)).
    + intros c. rewrite <- !list_elem_of_In, elem_of_elements, elem_of_list_to_set.
      reflexivity.
  - eexists _, st. split.
    + apply discover_partners_in_fails, Hf.
    + cbn. auto.
Qed.


(* ===================================================================== *)
(** ** Section drafting: limits, alternatives, compliance of the templates *)
(* ===================================================================== *)

Lemma word_count_nonneg (s : string) : 0 <= Py.word_count s.
Proof. unfold Py.word_count. lia. Qed.

(** X6.  A negative word limit is not rejected: the last [|N|] tokens of
    the template are dropped ([words[:N]]) and the marker is appended even
    when nothing is left, so the returned content has
    [max 1 (count + N)] tokens. *)
Theorem negative_word_limit_drops_tail
    (env : Env) (section_type : string) (project_context : gmap string pyval)
    (template : string) (N : Z) (st : state) :
  template_content section_type project_context = Ok template ->
  N < 0 ->
  exists g alts st',
    generate_application_section env section_type project_context (Some N) st
      = (Ok (SectionResult.mk true (Some g) alts None), st') /\
    GeneratedContent.content g
      = Py.join " " (take (Z.to_nat (Py.word_count template + N)) (Py.split template))
        +:+ "..." /\
    GeneratedContent.word_count g = Z.max 1 (Py.word_count template + N).
Proof.
  intros Ht HN.
  destruct (generate_application_section_ok env section_type project_context
              (Some N) template st Ht) as [st' Hrun].
  eexists _, _, st'. split; [exact Hrun |].
  destruct (generated_content_count section_type (apply_word_limit (Some N) template))
    as [Hw Hc].
  rewrite Hw, Hc.
  assert (Hcut : apply_word_limit (Some N) template
                 = Py.join " " (take (Z.to_nat (Py.word_count template + N))
                                  (Py.split template)) +:+ "...").
  { unfold apply_word_limit, Py.word_count, Py.slice_to.
    destruct (Z.eqb_spec N 0); [lia |].
    destruct (Z.gtb_spec (Z.of_nat (length (Py.split template))) N); [| lia].
    destruct (Z.ltb_spec N 0); [reflexivity | lia]. }
  rewrite Hcut. split; [reflexivity |].
  set (l := take (Z.to_nat (Py.word_count template + N)) (Py.split template)).
  assert (Hlen : length l = Z.to_nat (Py.word_count template + N)).
  { unfold l, Py.word_count. rewrite length_take. lia. }
  destruct l as [| w l'] eqn:El.
  - cbn in Hlen. cbn [Py.join]. rewrite app_nil_l.
    change (Py.word_count "...") with 1. lia.
  - rewrite word_count_join_tail; [| discriminate | | reflexivity].
    + rewrite Hlen. cbn in Hlen. lia.
    + rewrite <- El. unfold l. apply Forall_take, split_tokens.
Qed.

Lemma negative_word_limit_drops_tail_witness :
  exists g alts st',
    generate_application_section quiet_env "Project Description" test_context
        (Some (-110)) (state_of (deps_of None None None))
      = (Ok (SectionResult.mk true (Some g) alts None), st') /\
    GeneratedContent.content g = "Comprehensive Project addresses the critical..." /\
    GeneratedContent.word_count g = 5.
Proof.
  destruct (negative_word_limit_drops_tail quiet_env "Project Description" test_context
              (project_description_template "Comprehensive Project" "innovation"
                 "young people")
              (-110) (state_of (deps_of None None None)))
    as (g & alts & st' & Hrun & Hc & Hw).
  - vm_compute. reflexivity.
  - lia.
  - exists g, alts, st'. split; [exact Hrun |]. split.
    + rewrite Hc. vm_compute. reflexivity.
    + rewrite Hw. vm_compute. reflexivity.
Defined.

(** X7.  A word limit [N >= 1] is respected: the reported [word_count] is
    the smaller of [N] and the token count of the untruncated template, so
    it never exceeds [N]. *)
Theorem word_limit_is_respected
    (env : Env) (section_type : string) (project_context : gmap string pyval)
    (N : Z) (st : state) :
  1 <= N ->
  exists r st',
    generate_application_section env section_type project_context (Some N) st
      = (Ok r, st') /\
    match template_content section_type project_context,
          SectionResult.generated_content r with
    | Ok template, Some g =>
        GeneratedContent.word_count g = Z.min N (Py.word_count template) /\
        GeneratedContent.word_count g <= N
    | Raise _, None => SectionResult.success r = false
    | _, _ => False
    end.
Proof.
  intros HN.
  destruct (template_content section_type project_context) as [template | e] eqn:Ht.
  - destruct (generate_application_section_ok env section_type project_context
                (Some N) template st Ht) as [st' Hrun].
    eexists _, st'. split; [exact Hrun |]. cbn [SectionResult.generated_content].
    destruct (generated_content_count section_type (apply_word_limit (Some N) template))
      as [Hw _].
    rewrite Hw.
    destruct (Z_gt_le_dec (Py.word_count template) N) as [Hover | Hunder].
    + rewrite (apply_word_limit_over N template HN Hover),
        (word_count_truncated N template HN Hover). lia.
    + rewrite (apply_word_limit_under N template Hunder). lia.
  - eexists _, st. split.
    + apply generate_application_section_fails, Ht.
    + reflexivity.
Qed.

Lemma word_limit_is_respected_witness :
  exists r st' g,
    generate_application_section quiet_env "Methodology" test_context (Some 300)
        (state_of (deps_of None None None)) = (Ok r, st') /\
    SectionResult.generated_content r = Some g /\
    GeneratedContent.word_count g = 119.
Proof.
  destruct (word_limit_is_respected quiet_env "Methodology" test_context 300
              (state_of (deps_of None None None)))
    as (r & st' & Hrun & Hm).
  - lia.
  - vm_compute in Hrun. injection Hrun as <- <-.
    eexists _, _, _. split; [reflexivity |]. split; reflexivity.
Defined.

Section ContainsFacts.

Lemma lower_app (a b : string) : Py.lower (a +:+ b) = Py.lower a +:+ Py.lower b.
Proof.
  induction a as [| c a IH]; rewrite ?app_nil_l, ?app_cons; cbn [Py.lower];
    rewrite ?app_nil_l, ?app_cons; [reflexivity | now rewrite IH].
Qed.

Lemma startswith_app_l (kw a b : string) :
  Py.startswith kw a = true -> Py.startswith kw (a +:+ b) = true.
Proof.
  revert a. induction kw as [| k kw IH]; intros a H; [reflexivity |].
  destruct a as [| c a]; [discriminate |].
  rewrite app_cons. cbn [Py.startswith] in *.
  destruct (Ascii.eqb k c); [apply IH, H | discriminate].
Qed.

Lemma contains_app_l (kw a b : string) :
  Py.contains kw a = true -> Py.contains kw (a +:+ b) = true.
Proof.
  induction a as [| c a IH]; intros H.
  - cbn in H. rewrite orb_false_r in H.
    destruct kw; [destruct b; reflexivity | discriminate].
  - rewrite app_cons. cbn [Py.contains] in *.
    apply orb_true_iff in H as [H | H]; apply orb_true_iff.
    + left. rewrite <- app_cons. apply startswith_app_l, H.
    + right. apply IH, H.
Qed.

Lemma contains_app_r (kw a b : string) :
  Py.contains kw b = true -> Py.contains kw (a +:+ b) = true.
Proof.
  intros H. induction a as [| c a IH]; [exact H |].
  rewrite app_cons. cbn [Py.contains]. rewrite IH. apply orb_true_r.
Qed.

Lemma is_space_lower_char (c : ascii) :
  Py.is_space (Py.lower_char c) = Py.is_space c.
Proof.
  destruct c as [[] [] [] [] [] [] [] []]; reflexivity.
Qed.

Lemma lower_lstrip (s : string) : Py.lower (Py.lstrip s) = Py.lstrip (Py.lower s).
Proof.
  induction s as [| c s IH]; [reflexivity |].
  cbn [Py.lstrip Py.lower]. rewrite is_space_lower_char.
  destruct (Py.is_space c); [exact IH | reflexivity].
Qed.

Lemma lower_rstrip (s : string) : Py.lower (Py.rstrip s) = Py.rstrip (Py.lower s).
Proof.
  induction s as [| c s IH]; [reflexivity |].
  cbn [Py.rstrip Py.lower]. rewrite <- IH, is_space_lower_char.
  destruct (Py.rstrip s) as [| d r]; cbn [Py.lower].
  - destruct (Py.is_space c); reflexivity.
  - reflexivity.
Qed.

Lemma lower_strip (s : string) : Py.lower (Py.strip s) = Py.strip (Py.lower s).
Proof. unfold Py.strip. now rewrite lower_rstrip, lower_lstrip. Qed.

Lemma eqb_space_differs (a c : ascii) :
  Py.is_space a = false -> Py.is_space c = true -> Ascii.eqb a c = false.
Proof.
  intros Ha Hc. destruct (Ascii.eqb_spec a c) as [-> |]; [congruence | reflexivity].
Qed.

(** Stripping cannot cut into a keyword that begins and ends with a
    non-whitespace character. *)
Lemma contains_lstrip (kw s : string) :
  Py.at_word kw = true ->
  Py.contains kw s = true -> Py.contains kw (Py.lstrip s) = true.
Proof.
  intros Hkw. induction s as [| c s IH]; intros H; [exact H |].
  cbn [Py.lstrip]. destruct (Py.is_space c) eqn:Hc; [| exact H].
  apply IH. cbn [Py.contains] in H.
  apply orb_true_iff in H as [H | H]; [| exact H].
  destruct kw as [| a kw]; [discriminate |].
  cbn in Hkw. apply negb_true_iff in Hkw.
  cbn [Py.startswith] in H. rewrite (eqb_space_differs a c Hkw Hc) in H.
  discriminate.
Qed.

Lemma startswith_rstrip (kw s : string) :
  ends_word kw = true ->
  Py.startswith kw s = true -> Py.startswith kw (Py.rstrip s) = true.
Proof.
  revert s. induction kw as [| a kw IH]; intros s Hkw H; [discriminate |].
  destruct s as [| c s]; [discriminate |].
  cbn [Py.startswith] in H.
  destruct (Ascii.eqb_spec a c) as [<- | Hne]; [| discriminate].
  cbn [Py.rstrip].
  destruct kw as [| b kw].
  - cbn in Hkw. apply negb_true_iff in Hkw.
    destruct (Py.rstrip s); [rewrite Hkw |]; cbn; now rewrite Ascii.eqb_refl.
  - assert (Hkw' : ends_word (String b kw) = true) by exact Hkw.
    specialize (IH s Hkw' H).
    destruct (Py.rstrip s) as [| d r]; [discriminate |].
    cbn [Py.startswith]. now rewrite Ascii.eqb_refl.
Qed.

Lemma contains_rstrip (kw s : string) :
  ends_word kw = true ->
  Py.contains kw s = true -> Py.contains kw (Py.rstrip s) = true.
Proof.
  intros Hkw. induction s as [| c s IH]; intros H.
  - cbn in H. destruct kw; discriminate.
  - cbn [Py.contains] in H. apply orb_true_iff in H as [H | H].
    + pose proof (startswith_rstrip kw (String c s) Hkw H) as Hs.
      destruct (Py.rstrip (String c s)) as [| d r] eqn:E.
      * destruct kw; discriminate.
      * cbn [Py.contains]. now rewrite Hs.
    + specialize (IH H). cbn [Py.rstrip].
      destruct (Py.rstrip s) as [| d r].
      * cbn in IH. destruct kw; discriminate.
      * cbn [Py.contains] in *. rewrite IH. apply orb_true_r.
Qed.

Lemma contains_lower_strip (kw s : string) :
  Py.at_word kw = true -> ends_word kw = true ->
  Py.contains kw (Py.lower s) = true ->
  Py.contains kw (Py.lower (Py.strip s)) = true.
Proof.
  intros H1 H2 H. rewrite lower_strip. unfold Py.strip.
  apply contains_rstrip, contains_lstrip; assumption.
Qed.

(** Text placed after a whitespace character counts its tokens on its own. *)
Lemma starts_app_space (b : bool) (a s : string) (c : ascii) :
  Py.is_space c = true ->
  starts b (a +:+ String c s) = (starts b a + starts false s)%nat.
Proof.
  intros Hc. revert b. induction a as [| x a IH]; intros b.
  - rewrite app_nil_l. cbn [starts]. now rewrite Hc.
  - rewrite app_cons. cbn [starts].
    destruct (Py.is_space x); rewrite IH; lia.
Qed.

End ContainsFacts.

Ltac find_keyword :=
  first
    [ apply contains_app_l; vm_compute; reflexivity
    | apply contains_app_r; find_keyword
    | vm_compute; reflexivity ].

Lemma word_count_impact_sentence (content : string) :
  Py.word_count (content +:+ impact_sentence) = Py.word_count content + 11.
Proof.
  unfold Py.word_count. rewrite !length_split.
  unfold impact_sentence, NL. rewrite !app_cons, !app_nil_l.
  rewrite starts_app_space by reflexivity.
  match goal with
  | |- context [starts false (String ?c ?s)] =>
      replace (starts false (String c s)) with 11%nat by (vm_compute; reflexivity)
  end.
  lia.
Qed.

Lemma european_test_impact_sentence (content : string) :
  european_test (content +:+ impact_sentence) = true.
Proof.
  unfold european_test. apply orb_true_iff. left.
  rewrite lower_app. apply contains_app_r. vm_compute. reflexivity.
Qed.

(** X8.  A successful section result carries exactly two alternative
    versions: the "technical" one reports the same word count as the primary
    content, and the "impact-focused" one is the primary content followed by
    a blank line and one fixed sentence, reports exactly 11 words more, and
    always passes the European-dimension test. *)
Theorem alternative_versions_word_counts
    (env : Env) (section_type : string) (project_context : gmap string pyval)
    (word_limit : option Z) (st : state) :
  exists r st',
    generate_application_section env section_type project_context word_limit st
      = (Ok r, st') /\
    match SectionResult.generated_content r, SectionResult.alternative_versions r with
    | Some g, [technical; impact] =>
        AlternativeVersion.focus technical = "technical" /\
        AlternativeVersion.word_count technical = GeneratedContent.word_count g /\
        AlternativeVersion.focus impact = "impact-focused" /\
        AlternativeVersion.content impact
          = GeneratedContent.content g +:+ impact_sentence /\
        AlternativeVersion.word_count impact = GeneratedContent.word_count g + 11 /\
        european_test (AlternativeVersion.content impact) = true
    | None, [] => SectionResult.success r = false
    | _, _ => False
    end.
Proof.
  destruct (template_content section_type project_context) as [template | e] eqn:Ht.
  - destruct (generate_application_section_ok env section_type project_context
                word_limit template st Ht) as [st' Hrun].
    eexists _, st'. split; [exact Hrun |].
    cbn [SectionResult.generated_content SectionResult.alternative_versions].
    destruct (generated_content_count section_type (apply_word_limit word_limit template))
      as [Hw Hc].
    unfold build_alternative_versions.
    cbn [AlternativeVersion.focus AlternativeVersion.word_count
         AlternativeVersion.content].
    rewrite Hw, Hc.
    split; [reflexivity |].
    split; [apply word_count_replace; split; (discriminate || reflexivity) |].
    split; [reflexivity |]. split; [reflexivity |].
    split; [apply word_count_impact_sentence | apply european_test_impact_sentence].
  - eexists _, st. split.
    + apply generate_application_section_fails, Ht.
    + reflexivity.
Qed.

Lemma compliant_of_tests (section_type content : string) :
  european_test content = true ->
  target_group_test content = true ->
  innovation_test content = true ->
  GeneratedContent.compliance_status (build_generated_content section_type content)
    = true /\
  ComplianceDetails.missing_elements
    (GeneratedContent.compliance_details (build_generated_content section_type content))
    = [].
Proof.
  intros He Ht Hi. unfold build_generated_content.
  rewrite compliance_check_eq, He, Ht, Hi. split; reflexivity.
Qed.

Lemma project_description_complies (title focus target : string) :
  european_test (project_description_template title focus target) = true /\
  target_group_test (project_description_template title focus target) = true /\
  innovation_test (project_description_template title focus target) = true.
Proof.
  unfold project_description_template. repeat split.
  - unfold european_test. apply orb_true_iff. right.
    apply contains_lower_strip; [reflexivity | reflexivity |].
    rewrite !lower_app. find_keyword.
  - rewrite target_group_test_eq. apply orb_true_iff. left. apply orb_true_iff. right.
    apply contains_lower_strip; [reflexivity | reflexivity |].
    rewrite !lower_app. find_keyword.
  - rewrite innovation_test_eq. apply orb_true_iff. left. apply orb_true_iff. left.
    apply contains_lower_strip; [reflexivity | reflexivity |].
    rewrite !lower_app. find_keyword.
Qed.

Lemma methodology_complies (focus : string) :
  european_test (methodology_template focus) = true /\
  target_group_test (methodology_template focus) = true /\
  innovation_test (methodology_template focus) = true.
Proof.
  unfold methodology_template. repeat split.
  - unfold european_test. apply orb_true_iff. right.
    apply contains_lower_strip; [reflexivity | reflexivity |].
    rewrite !lower_app. find_keyword.
  - rewrite target_group_test_eq. apply orb_true_iff. left. apply orb_true_iff. left.
    apply contains_lower_strip; [reflexivity | reflexivity |].
    rewrite !lower_app. find_keyword.
  - rewrite innovation_test_eq. apply orb_true_iff. left. apply orb_true_iff. right.
    apply contains_lower_strip; [reflexivity | reflexivity |].
    rewrite !lower_app. find_keyword.
Qed.

Lemma template_content_shape
    (section_type : string) (project_context : gmap string pyval) (template : string) :
  template_content section_type project_context = Ok template ->
  exists title focus target,
    template = select_template section_type title focus target.
Proof.
  unfold template_content.
  destruct (py_lower (dict_get project_context "focus_area" (PStr "General")))
    as [focus | e]; [| discriminate].
  destruct (py_lower (dict_get project_context "target_audience" (PStr "Young people")))
    as [target | e]; [| discriminate].
  intros [= <-]. eauto.
Qed.

Lemma select_template_description (title focus target : string) :
  select_template "Project Description" title focus target
  = project_description_template title focus target.
Proof. unfold select_template. now rewrite lookup_insert_eq. Qed.

Lemma select_template_methodology (title focus target : string) :
  select_template "Methodology" title focus target = methodology_template focus.
Proof.
  unfold select_template.
  rewrite lookup_insert_ne by discriminate. now rewrite lookup_insert_eq.
Qed.

(** X9.  Without a word limit, a generated "Project Description" or
    "Methodology" section always passes all three compliance tests,
    whatever title, focus area and target audience the project context
    gives: the fixed text of these two templates contains a keyword of each
    family. *)
Theorem description_and_methodology_always_comply
    (env : Env) (project_context : gmap string pyval) (st : state) :
  (exists r st',
     generate_application_section env "Project Description" project_context None st
       = (Ok r, st') /\
     match SectionResult.generated_content r with
     | Some g =>
         GeneratedContent.compliance_status g = true /\
         ComplianceDetails.missing_elements (GeneratedContent.compliance_details g) = []
     | None => SectionResult.success r = false
     end) /\
  (exists r st',
     generate_application_section env "Methodology" project_context None st
       = (Ok r, st') /\
     match SectionResult.generated_content r with
     | Some g =>
         GeneratedContent.compliance_status g = true /\
         ComplianceDetails.missing_elements (GeneratedContent.compliance_details g) = []
     | None => SectionResult.success r = false
     end).
Proof.
  split.
  - destruct (template_content "Project Description" project_context)
      as [template | e] eqn:Ht.
    + destruct (generate_application_section_ok env _ _ None template st Ht)
        as [st' Hrun].
      eexists _, st'. split; [exact Hrun |]. cbn [SectionResult.generated_content].
      destruct (template_content_shape _ _ _ Ht) as (title & focus & target & ->).
      rewrite select_template_description. cbn [apply_word_limit].
      destruct (project_description_complies title focus target) as (H1 & H2 & H3).
      apply compliant_of_tests; assumption.
    + eexists _, st. split; [apply generate_application_section_fails, Ht |].
      reflexivity.
  - destruct (template_content "Methodology" project_context)
      as [template | e] eqn:Ht.
    + destruct (generate_application_section_ok env _ _ None template st Ht)
        as [st' Hrun].
      eexists _, st'. split; [exact Hrun |]. cbn [SectionResult.generated_content].
      destruct (template_content_shape _ _ _ Ht) as (title & focus & target & ->).
      rewrite select_template_methodology. cbn [apply_word_limit].
      destruct (methodology_complies focus) as (H1 & H2 & H3).
      apply compliant_of_tests; assumption.
    + eexists _, st. split; [apply generate_application_section_fails, Ht |].
      reflexivity.
Qed.

(** X10.  Section generation succeeds exactly when the context values
    under "focus_area" and "target_audience" are texts or missing (a missing
    key takes its default, and the title may be any value); otherwise the
    first [.lower()] call on a value that is not a text raises, the tool
    answers with its failure result, whose error text names the type of
    that value, and nothing is sent to the database. *)
Theorem section_fails_on_non_text_context
    (env : Env) (section_type : string) (project_context : gmap string pyval)
    (word_limit : option Z) (st : state) :
  exists r st',
    generate_application_section env section_type project_context word_limit st
      = (Ok r, st') /\
    SectionResult.success r
      = is_text (project_context !! "focus_area")
        && is_text (project_context !! "target_audience") /\
    if SectionResult.success r
    then SectionResult.generated_content r <> None /\ SectionResult.error r = None
    else st' = st /\
         SectionResult.generated_content r = None /\
         SectionResult.alternative_versions r = [] /\
         exists type_name,
           first_non_text project_context = Some type_name /\
           SectionResult.error r
             = Some ("Content generation failed: '" +:+ type_name
                     +:+ "' object has no attribute 'lower'").
Proof.
  destruct (template_content section_type project_context) as [template | e] eqn:Ht.
  - destruct (generate_application_section_ok env section_type project_context
                word_limit template st Ht) as [st' Hrun].
    eexists _, st'. split; [exact Hrun |]. cbn.
    split; [| split; [discriminate | reflexivity]].
    unfold template_content, dict_get in Ht.
    destruct (project_context !! "focus_area") as [[s1 | t1 o1] |];
      destruct (project_context !! "target_audience") as [[s2 | t2 o2] |];
      cbn in Ht; try discriminate; reflexivity.
  - eexists _, st. split; [apply generate_application_section_fails, Ht |]. cbn.
    unfold first_non_text.
    unfold template_content, dict_get in Ht.
    destruct (project_context !! "focus_area") as [[s1 | t1 o1] |];
      destruct (project_context !! "target_audience") as [[s2 | t2 o2] |];
      cbn in Ht; try discriminate; injection Ht as <-; cbn;
      (split; [reflexivity |]); repeat split; eauto.
Qed.


(* ===================================================================== *)
(** ** Concept generation: shape of the concept list *)
(* ===================================================================== *)

Lemma digital_title_ends_with (organization_context initial_concept : string) :
  title_ends_with initial_concept (digital_concept organization_context initial_concept).
Proof.
  exists ("Digital Skills for " +:+ organization_context +:+ ": ").
  cbn [digital_concept ProjectConcept.title]. now rewrite !app_assoc_str.
Qed.

(** X11.  Whatever the input, the concept list has between one and three
    concepts with pairwise distinct focus areas, every concept passes the
    validation of [ProjectConcept] (its feasibility score lies within
    1..10), and every title ends with the initial concept. *)
Theorem concept_list_is_well_formed
    (initial_concept : string) (focus_preference : option string)
    (organization_context : string) :
  let concepts :=
    brainstorm_concepts initial_concept focus_preference organization_context in
  (1 <= length concepts <= 3)%nat /\
  List.NoDup (map ProjectConcept.focus_area concepts) /\
  Forall (fun c => validate_concept c = Ok c) concepts /\
  Forall (title_ends_with initial_concept) concepts.
Proof.
  cbv zeta. unfold brainstorm_concepts.
  destruct (digital_guard initial_concept focus_preference),
    (green_guard initial_concept), (inclusion_guard initial_concept);
    cbn [app is_empty length map];
    (split; [lia |]);
    (split; [repeat (constructor; [cbn; intuition discriminate |]); constructor |]);
    (split; [repeat constructor |]);
    repeat (constructor;
            [first [apply digital_title_ends_with | eexists; reflexivity] |]);
    constructor.
Qed.

(** X12.  When the initial concept contains both "digital" and "green" in
    any letter case, the list starts with the Digital Transformation concept
    followed by the Green Transition concept, and at most one more concept
    follows. *)
Theorem digital_and_green_give_two_concepts
    (initial_concept : string) (focus_preference : option string)
    (organization_context : string) :
  Py.contains "digital" (Py.lower initial_concept) = true ->
  Py.contains "green" (Py.lower initial_concept) = true ->
  exists rest,
    brainstorm_concepts initial_concept focus_preference organization_context
    = digital_concept organization_context initial_concept
      :: green_concept initial_concept :: rest /\
    (length rest <= 1)%nat.
Proof.
  intros Hd Hg. unfold brainstorm_concepts, digital_guard, green_guard.
  rewrite Hd, Hg. cbn [orb app is_empty].
  destruct (inclusion_guard initial_concept); eexists; split;
    try reflexivity; cbn; lia.
Qed.

Lemma digital_and_green_give_two_concepts_witness :
  exists rest,
    brainstorm_concepts "Digital tools for a GREEN campus" None "Swedish NGO"
    = digital_concept "Swedish NGO" "Digital tools for a GREEN campus"
      :: green_concept "Digital tools for a GREEN campus" :: rest /\
    (length rest <= 1)%nat.
Proof.
  apply (digital_and_green_give_two_concepts "Digital tools for a GREEN campus"
           None "Swedish NGO"); vm_compute; reflexivity.
Defined.

(* ===================================================================== *)
(** ** Best-effort persistence *)
(* ===================================================================== *)

(** The text of an exception depends on the collaborators only through
    pydantic's rendering of validation errors. *)
Lemma str_exn_mkEnv
    (ls1 ls2 : outcome Settings.t) (cc1 cc2 : outcome unit)
    (ex1 ex2 : string -> outcome (list row)) (mk1 mk2 : outcome unit)
    (vtext : string -> string -> string) (e : exn) :
  str_exn (mkEnv ls1 cc1 ex1 mk1 vtext) e = str_exn (mkEnv ls2 cc2 ex2 mk2 vtext) e.
Proof. destruct e; reflexivity. Qed.

(** X13.  What a tool returns does not depend on the database: for the same
    arguments, the three tools return the same result under any two
    behaviours of settings, client creation and queries (and of the
    [RunContext] constructor, which the tools never call), and from any two
    states of the dependency object. *)
Theorem tool_results_ignore_the_database
    (ls1 ls2 : outcome Settings.t) (cc1 cc2 : outcome unit)
    (ex1 ex2 : string -> outcome (list row)) (mk1 mk2 : outcome unit)
    (vtext : string -> string -> string) (st1 st2 : state) :
  (forall ic fp oc,
     fst (brainstorm_project_ideas (mkEnv ls1 cc1 ex1 mk1 vtext) ic fp oc st1)
     = fst (brainstorm_project_ideas (mkEnv ls2 cc2 ex2 mk2 vtext) ic fp oc st2)) /\
  (forall pool pf rc ea,
     fst (discover_partners_in pool (mkEnv ls1 cc1 ex1 mk1 vtext) pf rc ea st1)
     = fst (discover_partners_in pool (mkEnv ls2 cc2 ex2 mk2 vtext) pf rc ea st2)) /\
  (forall sty pc wl,
     fst (generate_application_section (mkEnv ls1 cc1 ex1 mk1 vtext) sty pc wl st1)
     = fst (generate_application_section (mkEnv ls2 cc2 ex2 mk2 vtext) sty pc wl st2)).
Proof.
  set (env1 := mkEnv ls1 cc1 ex1 mk1 vtext).
  set (env2 := mkEnv ls2 cc2 ex2 mk2 vtext).
  repeat split.
  - intros ic fp oc.
    destruct (brainstorm_project_ideas_returns env1 ic fp oc st1) as [s1 ->].
    destruct (brainstorm_project_ideas_returns env2 ic fp oc st2) as [s2 ->].
    reflexivity.
  - intros pool pf rc ea.
    destruct (filter_loop pf rc ea pool []) as [found | e] eqn:Hf.
    + destruct (discover_partners_in_ok env1 pool pf rc ea found st1 Hf) as [s1 ->].
      destruct (discover_partners_in_ok env2 pool pf rc ea found st2 Hf) as [s2 ->].
      reflexivity.
    + rewrite (discover_partners_in_fails env1 pool pf rc ea e st1 Hf),
        (discover_partners_in_fails env2 pool pf rc ea e st2 Hf).
      cbn [fst]. unfold env1, env2.
      now rewrite (str_exn_mkEnv ls1 ls2 cc1 cc2 ex1 ex2 mk1 mk2 vtext e).
  - intros sty pc wl.
    destruct (template_content sty pc) as [template | e] eqn:Ht.
    + destruct (generate_application_section_ok env1 sty pc wl template st1 Ht)
        as [s1 ->].
      destruct (generate_application_section_ok env2 sty pc wl template st2 Ht)
        as [s2 ->].
      reflexivity.
    + rewrite (generate_application_section_fails env1 sty pc wl e st1 Ht),
        (generate_application_section_fails env2 sty pc wl e st2 Ht).
      cbn [fst]. unfold env1, env2.
      now rewrite (str_exn_mkEnv ls1 ls2 cc1 cc2 ex1 ex2 mk1 mk2 vtext e).
Qed.

Section Inert.
Variable env : Env.

Lemma inert_ret {A} (a : A) : inert (ret a).
Proof. intros st _. reflexivity. Qed.

Lemma inert_raise {A} (e : exn) : inert (@raise A e).
Proof. intros st _. reflexivity. Qed.

Lemma inert_lift {A} (o : outcome A) : inert (lift o).
Proof. intros st _. reflexivity. Qed.

Lemma inert_bind {A B} (m : M A) (k : A -> M B) :
  inert m -> (forall x, inert (k x)) -> inert (bind m k).
Proof.
  intros Hm Hk st Hst. unfold bind. specialize (Hm st Hst).
  destruct (m st) as [[x | e] st1]; cbn [snd] in *; subst st1; [| reflexivity].
  apply Hk, Hst.
Qed.

Lemma inert_try_except {A} (m : M A) (h : exn -> M A) :
  inert m -> (forall e, inert (h e)) -> inert (try_except m h).
Proof.
  intros Hm Hh st Hst. unfold try_except. specialize (Hm st Hst).
  destruct (m st) as [[x | e] st1]; cbn [snd] in *; subst st1; [reflexivity |].
  apply Hh, Hst.
Qed.

Lemma inert_best_effort_save (table : string) : inert (best_effort_save env table).
Proof.
  intros st Hst. unfold best_effort_save, bind, get_deps.
  unfold no_project in Hst. rewrite Hst. reflexivity.
Qed.

Lemma inert_brainstorm_project_ideas ic fp oc :
  inert (brainstorm_project_ideas env ic fp oc).
Proof.
  unfold brainstorm_project_ideas.
  apply inert_try_except; [| intro; apply inert_ret].
  apply inert_bind; [apply inert_best_effort_save | intro; apply inert_ret].
Qed.

Lemma inert_discover_partners_in pool pf rc ea :
  inert (discover_partners_in pool env pf rc ea).
Proof.
  unfold discover_partners_in.
  apply inert_try_except; [| intro; apply inert_ret].
  apply inert_bind; [apply inert_lift | intro].
  apply inert_bind; [apply inert_best_effort_save | intro; apply inert_ret].
Qed.

Lemma inert_generate_application_section sty pc wl :
  inert (generate_application_section env sty pc wl).
Proof.
  unfold generate_application_section.
  apply inert_try_except; [| intro; apply inert_ret].
  apply inert_bind; [apply inert_lift | intro].
  apply inert_bind; [apply inert_best_effort_save | intro; apply inert_ret].
Qed.

Lemma inert_get_session_context : inert (get_session_context env).
Proof.
  intros st Hst. unfold get_session_context, bind, get_deps.
  unfold no_project in Hst. rewrite Hst. reflexivity.
Qed.

Lemma inert_for_each {A} (f : A -> M unit) (l : list A) :
  (forall x, inert (f x)) -> inert (for_each f l).
Proof.
  intros Hf. induction l as [| x l IH]; cbn [for_each].
  - apply inert_ret.
  - apply inert_bind; [apply Hf | intro; exact IH].
Qed.

Lemma inert_agent_run {Args R} (tool : Args -> M R) (t : turn Args) :
  (forall x, inert (tool x)) -> inert (agent_run env tool t).
Proof.
  intros Htool. destruct t as [e | tool_calls final]; cbn [agent_run].
  - apply inert_raise.
  - apply inert_bind; [apply inert_get_session_context | intro].
    apply inert_bind; [| intro; apply inert_lift].
    apply inert_for_each. intro args.
    apply inert_bind; [apply Htool | intro; apply inert_ret].
Qed.

End Inert.

(** X14.  Without a project identifier in the context ([None] or the empty
    text) no tool touches the database: each of the three tools leaves the
    dependency object and the event trace exactly as it found them. *)
Theorem tools_without_project_touch_nothing (env : Env) (st : state) :
  truthy_str (Deps.project_id (deps st)) = false ->
  (forall ic fp oc, snd (brainstorm_project_ideas env ic fp oc st) = st) /\
  (forall pool pf rc ea, snd (discover_partners_in pool env pf rc ea st) = st) /\
  (forall sty pc wl, snd (generate_application_section env sty pc wl st) = st).
Proof.
  intros Hst. repeat split; intros.
  - apply inert_brainstorm_project_ideas, Hst.
  - apply inert_discover_partners_in, Hst.
  - apply inert_generate_application_section, Hst.
Qed.

Lemma tools_without_project_touch_nothing_witness :
  snd (generate_application_section quiet_env "Impact" test_context (Some 20)
         (state_of (deps_of None (Some "user-1") (Some ""))))
  = state_of (deps_of None (Some "user-1") (Some "")).
Proof.
  destruct (tools_without_project_touch_nothing quiet_env
              (state_of (deps_of None (Some "user-1") (Some ""))))
    as (_ & _ & Hs).
  - reflexivity.
  - apply Hs.
Defined.


(* ===================================================================== *)
(** ** The dependency object: lazy clients *)
(* ===================================================================== *)

(** X15.  The two lazily built clients are built at most once per context.
    An access to [supabase] either fails, leaving the context unchanged and
    still without client, or returns a client that the context then holds,
    and every further access returns that same client without creating
    another; [partner_api_client] never fails and behaves the same way. *)
Theorem lazy_clients_are_created_once (env : Env) (st : state) :
  match supabase env st with
  | (Ok h, st1) =>
      Deps._supabase_client (deps st1) = Some h /\
      supabase env st1 = (Ok h, st1) /\
      (st1 = st \/
       (Deps._supabase_client (deps st) = None /\
        trace st1 = (trace st ++ [EvCreateClient h])%list))
  | (Raise e, st1) =>
      st1 = st /\ Deps._supabase_client (deps st) = None
  end /\
  match partner_api_client st with
  | (Ok h, st1) =>
      Deps._partner_api_client (deps st1) = Some h /\
      partner_api_client st1 = (Ok h, st1) /\
      (st1 = st \/
       (Deps._partner_api_client (deps st) = None /\
        trace st1 = (trace st ++ [EvAsyncClient h])%list))
  | (Raise e, st1) => False
  end.
Proof.
  split.
  - unfold supabase, bind, get_deps, lift, fresh_handle, emit, update_deps, ret.
    destruct st as [d tr n]. cbn [deps trace next_handle].
    destruct (Deps._supabase_client d) as [h |] eqn:Hs.
    + cbn [deps]. rewrite Hs. auto.
    + destruct (load_settings env) as [settings | e]; [| auto].
      destruct (create_client env) as [[] | e]; [| auto].
      cbn. auto.
  - unfold partner_api_client, bind, get_deps, fresh_handle, emit, update_deps, ret.
    destruct st as [d tr n]. cbn [deps trace next_handle].
    destruct (Deps._partner_api_client d) as [h |] eqn:Hs.
    + cbn [deps]. rewrite Hs. auto.
    + cbn. auto.
Qed.

(** X16.  Cleanup does not retire the context: after a cleanup that closed
    the held partner client, the next access to [partner_api_client] opens
    a new client, different from the closed one, which the context holds
    until a further cleanup. *)
Theorem client_is_reopened_after_cleanup (st : state) (h : handle) :
  Deps._partner_api_client (deps st) = Some h ->
  (h < next_handle st)%nat ->
  exists st1 h' st2,
    cleanup st = (Ok tt, st1) /\
    partner_api_client st1 = (Ok h', st2) /\
    h' <> h /\
    Deps._partner_api_client (deps st2) = Some h' /\
    trace st2 = (trace st ++ [EvCleanup; EvAclose h; EvAsyncClient h'])%list /\
    closes h' (trace st2) = closes h' (trace st).
Proof.
  intros Hp Hlt.
  eexists _, (next_handle st), _.
  split; [apply (cleanup_some st h Hp) |].
  split; [reflexivity |].
  split; [lia |]. split; [reflexivity |].
  cbn. split; [now rewrite <- app_assoc |].
  rewrite <- app_assoc, closes_app. cbn.
  destruct (Nat.eqb_spec (next_handle st) h); lia.
Qed.

Lemma client_is_reopened_after_cleanup_witness :
  exists st1 st2,
    cleanup holding_client = (Ok tt, st1) /\
    partner_api_client st1 = (Ok 1%nat, st2) /\
    trace st2 = [EvAsyncClient 0%nat; EvCleanup; EvAclose 0%nat; EvAsyncClient 1%nat].
Proof.
  destruct (client_is_reopened_after_cleanup holding_client 0%nat)
    as (st1 & h' & st2 & Hc & Ha & _ & _ & Ht & _).
  - reflexivity.
  - cbn. lia.
  - vm_compute in Hc. injection Hc as <-.
    vm_compute in Ha. injection Ha as <- <-.
    eexists _, _. repeat split.
Defined.

(* ===================================================================== *)
(** ** The session context *)
(* ===================================================================== *)

Lemma get_session_context_returns (env : Env) (st : state) :
  exists text st', get_session_context env st = (Ok text, st').
Proof.
  unfold get_session_context, bind, get_deps, try_except.
  destruct (truthy_str (Deps.project_id (deps st))).
  - destruct (db_execute env "projects" st) as [[[| project data] | e] st1]; cbn;
      eexists _, _; reflexivity.
  - cbn. eexists _, _. reflexivity.
Qed.

(** X17.  Building the session context never raises.  With a project
    identifier the project is looked up; when that lookup raises (the
    client cannot be built or the query fails), the exception text becomes
    the part "Project context unavailable: ..." after the "Current project"
    part, between the user part and the session part. *)
Theorem session_context_never_raises (env : Env) (st : state) :
  exists text st',
    get_session_context env st = (Ok text, st') /\
    if truthy_str (Deps.project_id (deps st))
    then match db_execute env "projects" st with
         | (Raise e, st1) =>
             st' = st1 /\
             text = Py.join " | "
                      (id_part "User ID: " (Deps.user_id (deps st))
                       ++ [ "Current project: " +:+ default "" (Deps.project_id (deps st));
                            "Project context unavailable: " +:+ str_exn env e ]
                       ++ id_part "Session ID: " (Deps.session_id (deps st)))%list
         | (Ok _, st1) => st' = st1
         end
    else st' = st.
Proof.
  unfold get_session_context, bind, get_deps, try_except, id_part.
  destruct (truthy_str (Deps.project_id (deps st))) eqn:Hp.
  - destruct (db_execute env "projects" st) as [[[| project data] | e] st1]; cbn.
    + eexists _, _. split; reflexivity.
    + eexists _, _. split; reflexivity.
    + eexists _, _. split; [reflexivity |]. split; [reflexivity |].
      destruct (truthy_str (Deps.user_id (deps st))),
        (truthy_str (Deps.session_id (deps st))); reflexivity.
  - cbn. eexists _, _. split; reflexivity.
Qed.

(** X18.  Without a project identifier the session context is built
    without any database access: the context and the trace are unchanged,
    and the text is the user part and the session part joined by " | ", or
    the fixed new-session sentence when neither identifier is present (an
    empty identifier counts as absent). *)
Theorem session_context_without_project (env : Env) (st : state) :
  truthy_str (Deps.project_id (deps st)) = false ->
  get_session_context env st
  = (Ok (match (id_part "User ID: " (Deps.user_id (deps st))
                ++ id_part "Session ID: " (Deps.session_id (deps st)))%list with
         | [] => "New user session - provide comprehensive guidance."
         | parts => Py.join " | " parts
         end), st).
Proof.
  intros Hp.
  unfold get_session_context, bind, get_deps, id_part. rewrite Hp. cbn.
  destruct (truthy_str (Deps.user_id (deps st))),
    (truthy_str (Deps.session_id (deps st))); reflexivity.
Qed.

Lemma session_context_without_project_witness :
  get_session_context quiet_env (state_of (deps_of (Some "s-9") (Some "") None))
  = (Ok "Session ID: s-9", state_of (deps_of (Some "s-9") (Some "") None)).
Proof.
  rewrite (session_context_without_project quiet_env
             (state_of (deps_of (Some "s-9") (Some "") None))); reflexivity.
Defined.

(* ===================================================================== *)
(** ** Agent turns and what the orchestrators make of them *)
(* ===================================================================== *)

Section TurnOutcome.
Variable env : Env.

Lemma returns_get_session_context : returns (get_session_context env).
Proof.
  intros st. apply get_session_context_returns.
Qed.

Lemma returns_for_each {A} (f : A -> M unit) (l : list A) :
  (forall x, returns (f x)) -> returns (for_each f l).
Proof.
  intros Hf. induction l as [| x l IH]; intros st; cbn [for_each].
  - eexists _, _. reflexivity.
  - unfold bind. destruct (Hf x st) as (u & st1 & ->).
    apply IH.
Qed.

Lemma bind_ok {A B} (m : M A) (k : A -> M B) (st st1 : state) (x : A) :
  m st = (Ok x, st1) -> bind m k st = k x st1.
Proof. unfold bind. now intros ->. Qed.

(** A turn ends as the model ends it: neither the session context nor a
    tool call can make it raise. *)
Lemma agent_run_outcome {Args R} (tool : Args -> M R) (t : turn Args) (st : state) :
  (forall x, returns (tool x)) ->
  exists st', agent_run env tool t st = (turn_outcome t, st').
Proof.
  intros Htool. destruct t as [e | tool_calls final]; cbn [agent_run turn_outcome].
  - eexists. reflexivity.
  - destruct (returns_get_session_context st) as (text & st1 & H1).
    assert (Hcalls : returns (for_each (fun args => tool args >> ret tt) tool_calls)).
    { apply returns_for_each. intros x st2.
      destruct (Htool x st2) as (r & st3 & H3).
      rewrite (bind_ok _ _ st2 st3 r H3). eexists _, _. reflexivity. }
    destruct (Hcalls st1) as (u & st2 & H2).
    rewrite (bind_ok _ _ st st1 text H1), (bind_ok _ _ st1 st2 u H2).
    unfold lift. eexists. reflexivity.
Qed.

Lemma returns_brainstorm_tool (a : brainstorm_args) : returns (brainstorm_tool env a).
Proof.
  destruct a as [[ic fp] oc]. intros st.
  destruct (brainstorm_project_ideas_returns env ic fp oc st) as [st' H].
  cbn [brainstorm_tool]. rewrite H. eauto.
Qed.

Lemma returns_partner_discovery_tool (a : partner_args) :
  returns (partner_discovery_tool env a).
Proof.
  destruct a as [[pf rc] ea]. intros st.
  destruct (partner_search_always_fails env pf rc ea st) as (r & H & _).
  cbn [partner_discovery_tool]. rewrite H. eauto.
Qed.

Lemma generate_application_section_returns
    (sty : string) (pc : gmap string pyval) (wl : option Z) (st : state) :
  exists r st', generate_application_section env sty pc wl st = (Ok r, st').
Proof.
  destruct (template_content sty pc) as [template | e] eqn:Ht.
  - destruct (generate_application_section_ok env sty pc wl template st Ht)
      as [st' H].
    eauto.
  - rewrite (generate_application_section_fails env sty pc wl e st Ht). eauto.
Qed.

Lemma returns_content_generation_tool (a : section_args) :
  returns (content_generation_tool env a).
Proof.
  destruct a as [[sty pc] wl]. intros st.
  destruct (generate_application_section_returns sty pc wl st) as (r & st' & H).
  cbn [content_generation_tool]. rewrite H. eauto.
Qed.

End TurnOutcome.

Section GuardedOutcome.
Variable env : Env.

Lemma bind_raise {A B} (m : M A) (k : A -> M B) (st st1 : state) (e : exn) :
  m st = (Raise e, st1) -> bind m k st = (Raise e, st1).
Proof. unfold bind. now intros ->. Qed.

Lemma brainstorming_guarded_outcome llm request (st : state) :
  exists st',
    brainstorming_guarded env llm request st
    = (Ok (match before_tool_call env llm with
           | Ok _ => BrainstormResponse.mk true [] brainstorm_next_steps None
           | Raise e =>
               BrainstormResponse.mk false [] []
                 (Some ("Brainstorming session failed: " +:+ str_exn env e))
           end), st').
Proof.
  unfold brainstorming_guarded, try_except, before_tool_call.
  destruct (agent_run_outcome env (brainstorm_tool env) llm st
              (returns_brainstorm_tool env)) as [st1 H1].
  destruct (turn_outcome llm) as [text | e].
  - rewrite (bind_ok _ _ st st1 text H1).
    destruct (run_context env) as [[] | e0].
    + rewrite (bind_ok (lift (Ok tt)) _ st1 st1 tt eq_refl).
      destruct (brainstorm_project_ideas_returns env
                  (BrainstormRequest.initial_concept request)
                  (option_map focus_value (BrainstormRequest.focus_preference request))
                  (BrainstormRequest.organization_context request) st1) as [st2 H2].
      rewrite (bind_ok _ _ st1 st2 _ H2). eexists. reflexivity.
    + rewrite (bind_raise (lift (Raise e0)) _ st1 st1 e0 eq_refl).
      eexists. reflexivity.
  - rewrite (bind_raise _ _ st st1 e H1). eexists. reflexivity.
Qed.

Lemma partner_search_guarded_outcome llm request (st : state) :
  exists st',
    partner_search_guarded env llm request st
    = (Ok (match before_tool_call env llm with
           | Ok _ =>
               PartnerSearchResponse.mk false []
                 (SearchMetadata.mk (Some 0) (Some []) None)
                 (Some ("Partner search failed: "
                        +:+ str_exn env (ValidationError "Partner" "id")))
           | Raise e =>
               PartnerSearchResponse.mk false [] SearchMetadata.empty
                 (Some ("Partner search failed: " +:+ str_exn env e))
           end), st').
Proof.
  unfold partner_search_guarded, try_except, before_tool_call.
  destruct (agent_run_outcome env (partner_discovery_tool env) llm st
              (returns_partner_discovery_tool env)) as [st1 H1].
  destruct (turn_outcome llm) as [text | e].
  - rewrite (bind_ok _ _ st st1 text H1).
    destruct (run_context env) as [[] | e0].
    + rewrite (bind_ok (lift (Ok tt)) _ st1 st1 tt eq_refl).
      unfold discover_erasmus_partners.
      rewrite (bind_ok _ _ st1 st1 _
                 (discover_partners_in_fails env mock_partners _ _ _
                    (ValidationError "Partner" "id") st1 eq_refl)).
      eexists. reflexivity.
    + rewrite (bind_raise (lift (Raise e0)) _ st1 st1 e0 eq_refl).
      eexists. reflexivity.
  - rewrite (bind_raise _ _ st st1 e H1). eexists. reflexivity.
Qed.

Lemma application_writing_guarded_outcome llm request (st : state) :
  exists st',
    application_writing_guarded env llm request st
    = (Ok (match before_tool_call env llm with
           | Ok _ =>
               match template_content
                       (ApplicationContentRequest.section_type request)
                       (ApplicationContentRequest.project_context request) with
               | Ok template =>
                   ApplicationContentResponse.mk true None
                     (build_alternative_versions
                        (apply_word_limit
                           (ApplicationContentRequest.word_limit request) template))
                     None
               | Raise e =>
                   ApplicationContentResponse.mk false None []
                     (Some ("Content generation failed: " +:+ str_exn env e))
               end
           | Raise e =>
               ApplicationContentResponse.mk false None []
                 (Some ("Application writing failed: " +:+ str_exn env e))
           end), st').
Proof.
  unfold application_writing_guarded, try_except, before_tool_call.
  destruct (agent_run_outcome env (content_generation_tool env) llm st
              (returns_content_generation_tool env)) as [st1 H1].
  destruct (turn_outcome llm) as [text | e].
  - rewrite (bind_ok _ _ st st1 text H1).
    destruct (run_context env) as [[] | e0].
    + rewrite (bind_ok (lift (Ok tt)) _ st1 st1 tt eq_refl).
      destruct (template_content (ApplicationContentRequest.section_type request)
                  (ApplicationContentRequest.project_context request))
        as [template | e] eqn:Ht.
      * destruct (generate_application_section_ok env _ _
                    (ApplicationContentRequest.word_limit request) template st1 Ht)
          as [st2 H2].
        rewrite (bind_ok _ _ st1 st2 _ H2). eexists. reflexivity.
      * rewrite (bind_ok _ _ st1 st1 _
                   (generate_application_section_fails env _ _
                      (ApplicationContentRequest.word_limit request) e st1 Ht)).
        eexists. reflexivity.
    + rewrite (bind_raise (lift (Raise e0)) _ st1 st1 e0 eq_refl).
      eexists. reflexivity.
  - rewrite (bind_raise _ _ st st1 e H1). eexists. reflexivity.
Qed.

Lemma selected_agent_run_outcome (ag : agents) (agent_type : option string)
    (st : state) :
  exists st',
    try_except (selected_agent_run env ag agent_type)
      (fun e => ret ("Agent execution failed: " +:+ str_exn env e)) st
    = (Ok (match selected_outcome ag agent_type with
           | Ok text => text
           | Raise e => "Agent execution failed: " +:+ str_exn env e
           end), st').
Proof.
  unfold try_except, selected_agent_run, selected_outcome.
  destruct (select_agent agent_type).
  - destruct (agent_run_outcome env (brainstorm_tool env) (brainstorming_agent ag) st
                (returns_brainstorm_tool env)) as [st1 ->].
    destruct (turn_outcome (brainstorming_agent ag)); eexists; reflexivity.
  - destruct (agent_run_outcome env (partner_discovery_tool env) (planning_agent ag) st
                (returns_partner_discovery_tool env)) as [st1 ->].
    destruct (turn_outcome (planning_agent ag)); eexists; reflexivity.
  - destruct (agent_run_outcome env (content_generation_tool env)
                (application_agent ag) st (returns_content_generation_tool env))
      as [st1 ->].
    destruct (turn_outcome (application_agent ag)); eexists; reflexivity.
Qed.

Lemma quiet_selected_agent_run (ag : agents) (agent_type : option string) :
  quiet (try_except (selected_agent_run env ag agent_type)
           (fun e => ret ("Agent execution failed: " +:+ str_exn env e))).
Proof.
  apply quiet_try_except; [| intro; apply quiet_ret].
  unfold selected_agent_run. destruct (select_agent agent_type).
  - apply quiet_agent_run. intros [[ic fp] oc]. apply quiet_brainstorm_project_ideas.
  - apply quiet_agent_run. intros [[pf rc] ea]. apply quiet_discover_erasmus_partners.
  - apply quiet_agent_run. intros [[sty pc] wl].
    apply quiet_generate_application_section.
Qed.

Lemma inert_brainstorming_guarded llm request :
  inert (brainstorming_guarded env llm request).
Proof.
  unfold brainstorming_guarded.
  apply inert_try_except; [| intro; apply inert_ret].
  apply inert_bind; [| intro].
  - apply inert_agent_run. intros [[ic fp] oc]. apply inert_brainstorm_project_ideas.
  - apply inert_bind; [apply inert_lift | intro].
    apply inert_bind; [apply inert_brainstorm_project_ideas | intro; apply inert_ret].
Qed.

Lemma inert_partner_search_guarded llm request :
  inert (partner_search_guarded env llm request).
Proof.
  unfold partner_search_guarded.
  apply inert_try_except; [| intro; apply inert_ret].
  apply inert_bind; [| intro].
  - apply inert_agent_run. intros [[pf rc] ea]. apply inert_discover_partners_in.
  - apply inert_bind; [apply inert_lift | intro].
    apply inert_bind; [apply inert_discover_partners_in | intro; apply inert_ret].
Qed.

Lemma inert_application_writing_guarded llm request :
  inert (application_writing_guarded env llm request).
Proof.
  unfold application_writing_guarded.
  apply inert_try_except; [| intro; apply inert_ret].
  apply inert_bind; [| intro].
  - apply inert_agent_run. intros [[sty pc] wl].
    apply inert_generate_application_section.
  - apply inert_bind; [apply inert_lift | intro].
    apply inert_bind; [apply inert_generate_application_section
                      | intro; apply inert_ret].
Qed.

End GuardedOutcome.

(** A block that never raises and touches nothing, run inside the
    guaranteed-cleanup block on a fresh context without project identifier,
    ends with the cleanup as the only event. *)
Lemma run_inert_block {R} (d : Deps.t) (body : M R) :
  Deps._partner_api_client d = None ->
  Deps._supabase_client d = None ->
  truthy_str (Deps.project_id d) = false ->
  inert body -> returns body ->
  exists resp st,
    run_with_deps (Ok d) (try_finally body cleanup) = (Ok resp, Some st) /\
    trace st = [EvCleanup] /\ Deps._supabase_client (deps st) = None.
Proof.
  intros Hp Hs Hproj Hin Hret. unfold run_with_deps, try_finally.
  set (st0 := mkState d [] 0%nat).
  destruct (Hret st0) as (resp & st1 & Hb).
  pose proof (Hin st0 Hproj) as Hst. rewrite Hb in *. cbn [snd] in Hst. subst st1.
  rewrite (cleanup_none st0 Hp). exists resp. eexists. split; [reflexivity |].
  split; [reflexivity | exact Hs].
Qed.

(** The guaranteed-cleanup block around a quiet block with a known
    response completes with that response. *)
Lemma run_gives {R} (d : Deps.t) (body : M R) (expected : R) :
  Deps._partner_api_client d = None ->
  quiet body ->
  (forall st, exists st', body st = (Ok expected, st')) ->
  exists st,
    run_with_deps (Ok d) (try_finally body cleanup) = (Ok expected, Some st).
Proof.
  intros Hd Hq Hbody.
  destruct (run_with_cleanup d body (fun resp => resp = expected) Hd Hq)
    as (resp & st & Hrun & -> & _).
  - intros st0. destruct (Hbody st0) as [st' H]. eauto.
  - eauto.
Qed.

(** X19.  In a process whose settings load, the typed response of each
    orchestrator depends on the agent turn only through whether it raised,
    and on the installed library only through whether
    [RunContext(deps=deps, retry=0)] constructs: the text the model
    produced and the tool calls it made do not matter.  When the turn
    returns and the context is constructed, the response is built from the
    direct tool call (for partner search always the tool's validation
    failure with pydantic's text, for application writing the alternative
    versions but no generated content).  When the turn raises, or the turn
    returns and the constructor raises, the response is the failure response
    with the text of that exception. *)
Theorem responses_depend_only_on_turn_outcome
    (settings : Settings.t) (cc : outcome unit) (ex : string -> outcome (list row))
    (mkctx : outcome unit) (vtext : string -> string -> string) :
  (forall llm request user_id project_id, exists st,
     run_brainstorming_session (configured settings cc ex mkctx vtext) llm request
       user_id project_id
     = (Ok (match before_tool_call (configured settings cc ex mkctx vtext) llm with
            | Ok _ => BrainstormResponse.mk true [] brainstorm_next_steps None
            | Raise e =>
                BrainstormResponse.mk false [] []
                  (Some ("Brainstorming session failed: "
                         +:+ str_exn (configured settings cc ex mkctx vtext) e))
            end), Some st)) /\
  (forall llm request user_id, exists st,
     run_partner_search (configured settings cc ex mkctx vtext) llm request user_id
     = (Ok (match before_tool_call (configured settings cc ex mkctx vtext) llm with
            | Ok _ =>
                PartnerSearchResponse.mk false []
                  (SearchMetadata.mk (Some 0) (Some []) None)
                  (Some ("Partner search failed: " +:+ vtext "Partner" "id"))
            | Raise e =>
                PartnerSearchResponse.mk false [] SearchMetadata.empty
                  (Some ("Partner search failed: "
                         +:+ str_exn (configured settings cc ex mkctx vtext) e))
            end), Some st)) /\
  (forall llm request user_id, exists st,
     run_application_writing (configured settings cc ex mkctx vtext) llm request user_id
     = (Ok (match before_tool_call (configured settings cc ex mkctx vtext) llm with
            | Ok _ =>
                match template_content
                        (ApplicationContentRequest.section_type request)
                        (ApplicationContentRequest.project_context request) with
                | Ok template =>
                    ApplicationContentResponse.mk true None
                      (build_alternative_versions
                         (apply_word_limit
                            (ApplicationContentRequest.word_limit request) template))
                      None
                | Raise e =>
                    ApplicationContentResponse.mk false None []
                      (Some ("Content generation failed: "
                             +:+ str_exn (configured settings cc ex mkctx vtext) e))
                end
            | Raise e =>
                ApplicationContentResponse.mk false None []
                  (Some ("Application writing failed: "
                         +:+ str_exn (configured settings cc ex mkctx vtext) e))
            end), Some st)) /\
  (forall Args (calls : list Args) (final : outcome string),
     before_tool_call (configured settings cc ex mkctx vtext) (TurnRuns calls final)
     = match final with
       | Ok _ => mkctx
       | Raise e => Raise e
       end) /\
  (forall Args (e : exn),
     before_tool_call (configured settings cc ex mkctx vtext) (@TurnFails Args e) = Raise e).
Proof.
  split; [| split; [| split; [| split; reflexivity]]].
  - intros llm request user_id project_id.
    unfold run_brainstorming_session, from_settings. cbn [load_settings configured].
    apply run_gives;
      [reflexivity | apply quiet_brainstorming_guarded
      | apply brainstorming_guarded_outcome].
  - intros llm request user_id.
    unfold run_partner_search, from_settings. cbn [load_settings configured].
    apply run_gives;
      [reflexivity | apply quiet_partner_search_guarded
      | apply partner_search_guarded_outcome].
  - intros llm request user_id.
    unfold run_application_writing, from_settings. cbn [load_settings configured].
    apply run_gives;
      [reflexivity | apply quiet_application_writing_guarded
      | apply application_writing_guarded_outcome].
Qed.

Lemma select_agent_cases (agent_type : option string) :
  select_agent agent_type
  = if decide (agent_type = Some "planning") then PlanningAgent
    else if decide (agent_type = Some "application") then ApplicationAgent
    else BrainstormingAgent.
Proof.
  destruct agent_type as [k |]; [| reflexivity].
  unfold select_agent, agent_map.
  destruct (decide (Some k = Some "planning")) as [[= ->] | Hp]; [reflexivity |].
  destruct (decide (Some k = Some "application")) as [[= ->] | Ha]; [reflexivity |].
  destruct (decide (k = "brainstorming")) as [-> | Hb]; [reflexivity |].
  rewrite !lookup_insert_ne by congruence. reflexivity.
Qed.

(** X20.  In a process whose settings load, [run_open_horizon_agent] never
    raises and runs cleanup exactly once: it returns the model's text when
    the chosen agent's turn returns, and the text "Agent execution failed:
    ..." with the exception text when the turn raises.  The agent is the
    planning or the application agent when [agent_type] names it, and the
    brainstorming agent for every other value, a missing one included. *)
Theorem open_horizon_agent_always_answers
    (settings : Settings.t) (cc : outcome unit) (ex : string -> outcome (list row))
    (mkctx : outcome unit) (vtext : string -> string -> string)
    (ag : agents) (prompt : string) (agent_type user_id project_id session_id : option string) :
  (exists st,
     run_open_horizon_agent (configured settings cc ex mkctx vtext) ag prompt agent_type
       user_id project_id session_id
     = (Ok (match selected_outcome ag agent_type with
            | Ok text => text
            | Raise e => "Agent execution failed: " +:+ str_exn (configured settings cc ex mkctx vtext) e
            end), Some st) /\
     cleaned_up_once st) /\
  selected_outcome ag agent_type
  = (if decide (agent_type = Some "planning") then turn_outcome (planning_agent ag)
     else if decide (agent_type = Some "application")
          then turn_outcome (application_agent ag)
          else turn_outcome (brainstorming_agent ag)).
Proof.
  split.
  - unfold run_open_horizon_agent, from_settings. cbn [load_settings configured].
    destruct (run_with_cleanup
                (Deps.mk None (Some (Settings.supabase_url settings))
                   (Some (Settings.erasmus_partner_api_key settings))
                   session_id user_id project_id
                   (Settings.max_retries settings) (Settings.timeout_seconds settings)
                   (Settings.debug settings) None None)
                (try_except (selected_agent_run (configured settings cc ex mkctx vtext) ag agent_type)
                   (fun e => ret ("Agent execution failed: " +:+ str_exn (configured settings cc ex mkctx vtext) e)))
                (fun text => text = match selected_outcome ag agent_type with
                                    | Ok text => text
                                    | Raise e => "Agent execution failed: " +:+ str_exn (configured settings cc ex mkctx vtext) e
                                    end))
      as (text & st & Hrun & -> & Hc).
    + reflexivity.
    + apply quiet_selected_agent_run.
    + intros st0.
      destruct (selected_agent_run_outcome (configured settings cc ex mkctx vtext) ag agent_type st0)
        as [st' H].
      eauto.
    + eauto.
  - unfold selected_outcome. rewrite select_agent_cases.
    destruct (decide (agent_type = Some "planning")); [reflexivity |].
    destruct (decide (agent_type = Some "application")); reflexivity.
Qed.

(** X21.  An orchestrator call without project identifier never touches
    the database: at completion the only event of the call is the cleanup
    and the context holds no database client. *)
Theorem no_project_no_database_access
    (settings : Settings.t) (cc : outcome unit) (ex : string -> outcome (list row))
    (mkctx : outcome unit) (vtext : string -> string -> string) :
  (forall llm request user_id project_id,
     truthy_str project_id = false ->
     exists resp st,
       run_brainstorming_session (configured settings cc ex mkctx vtext) llm request
         user_id project_id = (Ok resp, Some st) /\
       trace st = [EvCleanup] /\ Deps._supabase_client (deps st) = None) /\
  (forall llm request user_id,
     truthy_str (PartnerSearchRequest.project_id request) = false ->
     exists resp st,
       run_partner_search (configured settings cc ex mkctx vtext) llm request user_id
         = (Ok resp, Some st) /\
       trace st = [EvCleanup] /\ Deps._supabase_client (deps st) = None) /\
  (forall llm request user_id,
     truthy_str (ApplicationContentRequest.project_id request) = false ->
     exists resp st,
       run_application_writing (configured settings cc ex mkctx vtext) llm request user_id
         = (Ok resp, Some st) /\
       trace st = [EvCleanup] /\ Deps._supabase_client (deps st) = None).
Proof.
  split; [| split].
  - intros llm request user_id project_id Hp.
    unfold run_brainstorming_session, from_settings. cbn [load_settings configured].
    apply run_inert_block;
      [reflexivity | reflexivity | exact Hp | apply inert_brainstorming_guarded |].
    intros st0.
    destruct (brainstorming_guarded_outcome (configured settings cc ex mkctx vtext) llm request st0)
      as [st' H]. eauto.
  - intros llm request user_id Hp.
    unfold run_partner_search, from_settings. cbn [load_settings configured].
    apply run_inert_block;
      [reflexivity | reflexivity | exact Hp | apply inert_partner_search_guarded |].
    intros st0.
    destruct (partner_search_guarded_outcome (configured settings cc ex mkctx vtext) llm request st0)
      as [st' H]. eauto.
  - intros llm request user_id Hp.
    unfold run_application_writing, from_settings. cbn [load_settings configured].
    apply run_inert_block;
      [reflexivity | reflexivity | exact Hp | apply inert_application_writing_guarded |].
    intros st0.
    destruct (application_writing_guarded_outcome (configured settings cc ex mkctx vtext) llm
                request st0) as [st' H]. eauto.
Qed.

Lemma no_project_no_database_access_witness :
  exists resp st,
    run_partner_search quiet_env plain_turn plain_partner_request (Some "user_123")
      = (Ok resp, Some st) /\
    trace st = [EvCleanup] /\ Deps._supabase_client (deps st) = None.
Proof.
  destruct (no_project_no_database_access demo_settings (Ok tt) (fun _ => Ok [])
              (Ok tt) demo_validation_text)
    as (_ & Hpartner & _).
  apply (Hpartner plain_turn plain_partner_request (Some "user_123")).
  reflexivity.
Defined.

(* ===================================================================== *)
(** ** The HTTP endpoints *)
(* ===================================================================== *)

Lemma run_open_horizon_agent_gives
    (settings : Settings.t) (cc : outcome unit) (ex : string -> outcome (list row))
    (mkctx : outcome unit) (vtext : string -> string -> string)
    (ag : agents) (prompt : string)
    (agent_type user_id project_id session_id : option string) :
  exists st,
    run_open_horizon_agent (configured settings cc ex mkctx vtext) ag prompt agent_type
      user_id project_id session_id
    = (Ok (match selected_outcome ag agent_type with
           | Ok text => text
           | Raise e => "Agent execution failed: " +:+ str_exn (configured settings cc ex mkctx vtext) e
           end), Some st).
Proof.
  unfold run_open_horizon_agent, from_settings. cbn [load_settings configured].
  apply run_gives;
    [reflexivity | apply quiet_selected_agent_run | apply selected_agent_run_outcome].
Qed.



(* ===================================================================== *)
(** ** The list of allowed origins *)
(* ===================================================================== *)

Lemma split_on_length (sep : ascii) (s : string) :
  length (split_on sep s) = S (count_char sep s).
Proof.
  induction s as [| c s IH]; [reflexivity |].
  cbn [split_on count_char].
  destruct (Ascii.eqb c sep); cbn [length].
  - now rewrite IH.
  - destruct (split_on sep s); cbn in *; lia.
Qed.

Lemma lstrip_shape (s : string) :
  Py.lstrip s = EmptyString \/ Py.at_word (Py.lstrip s) = true.
Proof.
  induction s as [| c s IH]; [now left |].
  cbn [Py.lstrip]. destruct (Py.is_space c) eqn:Hc; [exact IH |].
  right. cbn. now rewrite Hc.
Qed.

Lemma lstrip_at_word (s : string) : Py.at_word s = true -> Py.lstrip s = s.
Proof.
  destruct s as [| c s]; [discriminate |].
  cbn. intros H. apply negb_true_iff in H. now rewrite H.
Qed.

Lemma rstrip_at_word (s : string) :
  Py.at_word s = true -> Py.at_word (Py.rstrip s) = true.
Proof.
  destruct s as [| c s]; [discriminate |].
  cbn [Py.at_word Py.rstrip]. intros H.
  destruct (Py.rstrip s); [| exact H].
  apply negb_true_iff in H. rewrite H. cbn. now rewrite H.
Qed.

Lemma rstrip_idempotent (s : string) : Py.rstrip (Py.rstrip s) = Py.rstrip s.
Proof.
  induction s as [| c s IH]; [reflexivity |].
  cbn [Py.rstrip].
  destruct (Py.rstrip s) as [| d r] eqn:E.
  - destruct (Py.is_space c) eqn:Hc; [reflexivity |].
    cbn. now rewrite Hc.
  - cbn [Py.rstrip]. cbn [Py.rstrip] in IH. now rewrite IH.
Qed.

Lemma strip_idempotent (s : string) : Py.strip (Py.strip s) = Py.strip s.
Proof.
  unfold Py.strip.
  destruct (lstrip_shape s) as [-> | Hw]; [reflexivity |].
  rewrite (lstrip_at_word _ (rstrip_at_word _ Hw)).
  apply rstrip_idempotent.
Qed.

(** X24.  [origins_list] never returns an empty list: it has one entry per
    comma of [allowed_origins] plus one (a single empty origin for an empty
    setting), and every entry is already stripped of leading and trailing
    whitespace. *)
Theorem origins_list_entries (allowed_origins : string) :
  length (origins_list allowed_origins)
    = S (count_char ","%char allowed_origins) /\
  origins_list allowed_origins <> [] /\
  Forall (fun origin => Py.strip origin = origin) (origins_list allowed_origins).
Proof.
  unfold origins_list. repeat split.
  - now rewrite length_map, split_on_length.
  - intros H. apply (f_equal length) in H.
    rewrite length_map, split_on_length in H. discriminate.
  - apply Forall_map, Forall_forall. intros x _. apply strip_idempotent.
Qed.

Example origins_list_default :
  origins_list "http://localhost:3000, http://localhost:5173 ,"
  = ["http://localhost:3000"; "http://localhost:5173"; ""].
Proof. reflexivity. Qed.

(* ===================================================================== *)
(** ** Persistence with a project identifier *)
(* ===================================================================== *)

Lemma best_effort_save_with_client (env : Env) (table : string) (st : state) (h : handle) :
  truthy_str (Deps.project_id (deps st)) = true ->
  Deps._supabase_client (deps st) = Some h ->
  best_effort_save env table st
  = (Ok tt, mkState (deps st) (trace st ++ [EvExecute table]) (next_handle st)).
Proof.
  intros Hp Hs.
  unfold best_effort_save, bind, get_deps, try_except, db_execute, supabase, bind,
    get_deps, emit, lift, ret.
  rewrite Hp. cbn. rewrite Hs. cbn.
  destruct (execute env table); reflexivity.
Qed.

(** X25.  With a project identifier and a database client at hand, a tool
    call makes exactly one query, on the tool's own table, and only when
    its result is a success: concept generation always queries "projects";
    partner discovery queries "partner_searches" unless the filter loop
    raised; section generation queries "application_sections" unless the
    template could not be built.  Whether the query succeeds or raises, the
    context itself is left as it was. *)
Theorem tools_query_their_table_once (env : Env) (st : state) (h : handle) :
  truthy_str (Deps.project_id (deps st)) = true ->
  Deps._supabase_client (deps st) = Some h ->
  (forall ic fp oc,
     snd (brainstorm_project_ideas env ic fp oc st)
     = mkState (deps st) (trace st ++ [EvExecute "projects"]) (next_handle st)) /\
  (forall pool pf rc ea,
     snd (discover_partners_in pool env pf rc ea st)
     = match filter_loop pf rc ea pool [] with
       | Ok _ =>
           mkState (deps st) (trace st ++ [EvExecute "partner_searches"])
             (next_handle st)
       | Raise _ => st
       end) /\
  (forall sty pc wl,
     snd (generate_application_section env sty pc wl st)
     = match template_content sty pc with
       | Ok _ =>
           mkState (deps st) (trace st ++ [EvExecute "application_sections"])
             (next_handle st)
       | Raise _ => st
       end).
Proof.
  intros Hp Hs. repeat split.
  - intros ic fp oc. unfold brainstorm_project_ideas, try_except, bind.
    rewrite (best_effort_save_with_client env "projects" st h Hp Hs). reflexivity.
  - intros pool pf rc ea. unfold discover_partners_in, try_except, bind, lift.
    destruct (filter_loop pf rc ea pool []); [| reflexivity].
    rewrite (best_effort_save_with_client env "partner_searches" st h Hp Hs).
    reflexivity.
  - intros sty pc wl. unfold generate_application_section, try_except, bind, lift.
    destruct (template_content sty pc); [| reflexivity].
    rewrite (best_effort_save_with_client env "application_sections" st h Hp Hs).
    reflexivity.
Qed.

Lemma tools_query_their_table_once_witness :
  trace (snd (brainstorm_project_ideas failing_database_env "urban gardening" None
                "Swedish NGO" connected_state))
  = [EvCreateClient 0%nat; EvExecute "projects"].
Proof.
  destruct (tools_query_their_table_once failing_database_env connected_state 0%nat)
    as (Hb & _ & _).
  - reflexivity.
  - reflexivity.
  - rewrite Hb. reflexivity.
Defined.
